(** * Offline-first store with remote synchronisation: [database.py]

    A shallow embedding of [DatabaseManager] (src/database.py): the local
    SQLite database, the remote Turso database, the connection flags and the
    push / pull / full-sync methods, followed by the properties of the
    synchronisation engine.

    Modelling decisions, all taken from the source:
    - a table with [id TEXT PRIMARY KEY] is a finite map from the id to the
      remaining columns, so [INSERT OR REPLACE] replaces the row of that id
      and a plain [INSERT] fails on a key that is already present;
    - SQLite columns are dynamically typed: the payload columns hold a
      [value]; identifiers and ISO timestamps are strings, compared the way
      Python compares [str] (lexicographically);
    - [NOT NULL], [UNIQUE] and the [FOREIGN KEY] clause of [pets] are
      checked by every statement that writes a row, in the local and in the
      remote database alike ([_create_tables] gives both the same schema,
      and libsql enforces foreign keys);
    - a row of a table holds its values as stored.  Python values enter a
      table through [create_pet], where each takes the type affinity of its
      column ([store]); a row read from one table and written to the other
      ([_sync_pet_to_remote], [pull_from_remote]) is stored as it was read;
    - [execute] of [libsql_experimental] takes the parameters of a statement
      as a tuple and raises [TypeError] for any other sequence;
    - a [string] holds the UTF-8 bytes of a Python [str]: comparing the
      bytes compares the code points, as Python and SQLite do, and [len]
      counts the code points;
    - the clock [datetime.utcnow], [uuid.uuid4] and the network are the
      environment: three oracles indexed by the number of calls made so
      far, which the state counts; so are the conversions SQLite makes
      between numbers and text;
    - a remote statement together with its [commit] is one remote round; when
      the oracle makes it raise, the remote database keeps its contents. *)

From Stdlib Require Import ZArith String List Lia.
From stdpp Require Import gmap strings list fin_maps sorting.

Local Open Scope string_scope.

(** ** Values held by a column or passed as a keyword argument *)

(** [None], a [str], an [int], and a [float] given by its IEEE 754 binary64
    encoding. *)
Inductive value :=
  | VNull
  | VText (s : string)
  | VInt (z : Z)
  | VReal (bits : Z).

#[global] Instance value_eq_dec : EqDecision value.
Proof. solve_decision. Defined.

Definition is_null (v : value) : bool :=
  match v with VNull => true | _ => false end.

(** The sign bit aside, a NaN has all exponent bits set and a mantissa that
    is not zero; [-0.0] is the sign bit alone. *)
Definition is_nan (bits : Z) : bool :=
  (0x7FF0000000000000 <? Z.land bits 0x7FFFFFFFFFFFFFFF)%Z.

Definition negative_zero : Z := 0x8000000000000000.

(** An [int] that fits 32 bits. *)
Definition fits_32 (z : Z) : bool := ((-0x80000000 <=? z) && (z <? 0x80000000))%Z.

(** The type affinities of the columns of [pets]. *)
Inductive affinity := TEXT | INTEGER | REAL.

(** A value that has the class of a column of affinity [a] and is stored
    there as it is: [None] anywhere, text in a TEXT column, an [int] of 32
    bits in an INTEGER column, a [float] other than a NaN and [-0.0] in a
    REAL column. *)
Definition stored_as_given (a : affinity) (v : value) : bool :=
  match a, v with
  | _, VNull => true
  | TEXT, VText _ => true
  | INTEGER, VInt z => fits_32 z
  | REAL, VReal bits => negb (is_nan bits) && negb (bits =? negative_zero)%Z
  | _, _ => false
  end.

(** The parameters handed to [execute]. *)
Inductive params :=
  | PyTuple (vs : list value)
  | PyList (vs : list value).

(** [execute(sql, parameters)]: the parameters that are bound, or [None]
    for the [TypeError] raised before the statement runs. *)
Definition bind_params (p : params) : option (list value) :=
  match p with
  | PyTuple vs => Some vs
  | PyList _ => None
  end.

(** [len(s)] of a [str]: every byte that is not a continuation byte
    ([10xxxxxx]) starts a code point. *)
Definition is_continuation (c : Ascii.ascii) : bool :=
  ((128 <=? Ascii.nat_of_ascii c) && (Ascii.nat_of_ascii c <? 192))%nat.

Fixpoint len (s : string) : nat :=
  match s with
  | EmptyString => 0
  | String c rest => (if is_continuation c then 0 else 1) + len rest
  end.

(** ** Rows of the three tables of [_create_tables] *)

Module User.
Record row := mk {
  username : string;
  password_hash : string;
  created_at : string;
  updated_at : string;
  is_deleted : Z;
  sync_status : string
}.

Definition set_sync_status (s : string) (r : row) : row :=
  mk (username r) (password_hash r) (created_at r) (updated_at r)
     (is_deleted r) s.
End User.

Module Pet.
Record row := mk {
  user_id : string;
  name : value;
  species : value;
  breed : value;
  age : value;
  weight : value;
  notes : value;
  created_at : string;
  updated_at : string;
  is_deleted : Z;
  sync_status : string
}.

Definition set_sync_status (s : string) (r : row) : row :=
  mk (user_id r) (name r) (species r) (breed r) (age r) (weight r)
     (notes r) (created_at r) (updated_at r) (is_deleted r) s.

(** [name TEXT NOT NULL], [species TEXT NOT NULL]; the other [NOT NULL]
    columns are strings here. *)
Definition not_null (r : row) : bool :=
  negb (is_null (name r)) && negb (is_null (species r)).
End Pet.

Module Log.
Record entry := mk {
  id : string;
  table_name : string;
  record_id : string;
  operation : string;
  timestamp : string;
  synced : Z
}.
End Log.

(** ** A database: the tables [users], [pets] and [sync_log] *)

Record Db := mkDb {
  users : gmap string User.row;
  pets : gmap string Pet.row;
  sync_log : list Log.entry
}.

Definition empty_db : Db := mkDb ∅ ∅ [].

Definition set_users (u : gmap string User.row) (d : Db) : Db :=
  mkDb u (pets d) (sync_log d).
Definition set_pets (p : gmap string Pet.row) (d : Db) : Db :=
  mkDb (users d) p (sync_log d).
Definition set_sync_log (l : list Log.entry) (d : Db) : Db :=
  mkDb (users d) (pets d) l.

(** *** Statements.  [None] is the exception raised by [execute]. *)

(** [INSERT INTO users (...) VALUES (...)]: primary key and
    [username TEXT UNIQUE]. *)
Definition username_taken (u : string) (t : gmap string User.row) : bool :=
  bool_decide (map_Exists (λ _ r, User.username r = u) t).

Definition insert_user (uid : string) (r : User.row) (d : Db) : option Db :=
  match users d !! uid with
  | Some _ => None
  | None =>
      if username_taken (User.username r) (users d) then None
      else Some (set_users (<[uid := r]> (users d)) d)
  end.

(** [INSERT OR REPLACE INTO users ...]: the row with the same id and the
    rows with the same username are deleted and the new row is inserted.
    The statement fails on [FOREIGN KEY (user_id) REFERENCES users(id)] when
    a deleted row of another id ([displaced]) is the owner of a pet. *)
Definition displaced (uid : string) (r : User.row) (d : Db)
  : gmap string User.row :=
  filter (λ kv, kv.1 ≠ uid ∧ User.username kv.2 = User.username r) (users d).

Definition orphans_pets (uid : string) (r : User.row) (d : Db) : bool :=
  bool_decide
    (map_Exists (λ _ p, is_Some (displaced uid r d !! Pet.user_id p)) (pets d)).

Definition insert_or_replace_user (uid : string) (r : User.row) (d : Db)
  : option Db :=
  if orphans_pets uid r d then None
  else
    Some (set_users
            (<[uid := r]>
               (filter (λ kv, User.username kv.2 ≠ User.username r) (users d)))
            d).

(** [FOREIGN KEY (user_id) REFERENCES users(id)]: the owner of a pet row
    written to [d] has a row in [users], deleted or not. *)
Definition has_owner (r : Pet.row) (d : Db) : bool :=
  bool_decide (is_Some (users d !! Pet.user_id r)).

(** [INSERT INTO pets (...) VALUES (...)]. *)
Definition insert_pet (pid : string) (r : Pet.row) (d : Db) : option Db :=
  match pets d !! pid with
  | Some _ => None
  | None =>
      if Pet.not_null r && has_owner r d
      then Some (set_pets (<[pid := r]> (pets d)) d)
      else None
  end.

(** [INSERT OR REPLACE INTO pets ...]. *)
Definition insert_or_replace_pet (pid : string) (r : Pet.row) (d : Db)
  : option Db :=
  if Pet.not_null r && has_owner r d
  then Some (set_pets (<[pid := r]> (pets d)) d)
  else None.

(** [INSERT INTO sync_log ...]. *)
Definition insert_log (e : Log.entry) (d : Db) : option Db :=
  if bool_decide (Log.id e ∈ map Log.id (sync_log d)) then None
  else Some (set_sync_log (sync_log d ++ [e]) d).

(** [UPDATE t SET sync_status = ? WHERE id = ?]. *)
Definition mark_user (s : string) (uid : string) (d : Db) : Db :=
  set_users (alter (User.set_sync_status s) uid (users d)) d.

Definition mark_pet (s : string) (pid : string) (d : Db) : Db :=
  set_pets (alter (Pet.set_sync_status s) pid (pets d)) d.

(** [UPDATE pets SET k1 = ?, ..., updated_at = ?, sync_status = 'pending'
    WHERE id = ?], the statement [update_pet] builds from its filtered
    keyword arguments: the row it leaves, given the values as their
    columns store them. *)
Definition column_affinity (k : string) : affinity :=
  if String.eqb k "age" then INTEGER
  else if String.eqb k "weight" then REAL
  else TEXT.

Definition assign (u : gmap string value) (k : string) (old : value) : value :=
  default old (u !! k).

Definition apply_updates (u : gmap string value) (ts : string) (r : Pet.row)
  : Pet.row :=
  Pet.mk (Pet.user_id r)
    (assign u "name" (Pet.name r)) (assign u "species" (Pet.species r))
    (assign u "breed" (Pet.breed r)) (assign u "age" (Pet.age r))
    (assign u "weight" (Pet.weight r)) (assign u "notes" (Pet.notes r))
    (Pet.created_at r) ts (Pet.is_deleted r) "pending".

(** [UPDATE pets SET is_deleted = 1, updated_at = ?, sync_status = 'pending'
    WHERE id = ?]. *)
Definition soft_delete (ts : string) (r : Pet.row) : Pet.row :=
  Pet.mk (Pet.user_id r) (Pet.name r) (Pet.species r) (Pet.breed r)
    (Pet.age r) (Pet.weight r) (Pet.notes r) (Pet.created_at r) ts 1
    "pending".

Definition delete_pet_row (ts : string) (pid : string) (d : Db) : Db :=
  set_pets (alter (soft_delete ts) pid (pets d)) d.

(** [SELECT id FROM t WHERE sync_status = 'pending'] *)
Definition pending_user_ids (d : Db) : list string :=
  (map_to_list (filter (λ kv, User.sync_status kv.2 = "pending") (users d))).*1.

Definition pending_pet_ids (d : Db) : list string :=
  (map_to_list (filter (λ kv, Pet.sync_status kv.2 = "pending") (pets d))).*1.

(** [SELECT * FROM pets WHERE user_id = ?] *)
Definition pets_of (user_id : string) (d : Db) : gmap string Pet.row :=
  filter (λ kv, Pet.user_id kv.2 = user_id) (pets d).

(** ** The manager object *)

Record DatabaseManager := mkDM {
  local_conn : Db;          (* contents seen through [self.local_conn] *)
  remote_db : Db;           (* contents of the Turso database *)
  remote_conn : bool;       (* [self.remote_conn] is not [None] *)
  _is_online : bool;
  clock_reads : nat;        (* calls of [datetime.utcnow] so far *)
  ids_drawn : nat;          (* calls of [uuid.uuid4] so far *)
  remote_rounds : nat       (* remote calls so far *)
}.

Definition set_local (d : Db) (w : DatabaseManager) : DatabaseManager :=
  mkDM d (remote_db w) (remote_conn w) (_is_online w) (clock_reads w)
       (ids_drawn w) (remote_rounds w).
Definition set_remote (d : Db) (w : DatabaseManager) : DatabaseManager :=
  mkDM (local_conn w) d (remote_conn w) (_is_online w) (clock_reads w)
       (ids_drawn w) (remote_rounds w).
Definition set_remote_conn (b : bool) (w : DatabaseManager) : DatabaseManager :=
  mkDM (local_conn w) (remote_db w) b (_is_online w) (clock_reads w)
       (ids_drawn w) (remote_rounds w).
Definition set_is_online (b : bool) (w : DatabaseManager) : DatabaseManager :=
  mkDM (local_conn w) (remote_db w) (remote_conn w) b (clock_reads w)
       (ids_drawn w) (remote_rounds w).

(** Result dictionaries of the sync methods. *)
Definition push_result (nu np : nat) (status : string) : gmap string value :=
  {[ "users" := VInt (Z.of_nat nu); "pets" := VInt (Z.of_nat np);
     "status" := VText status ]}.

Definition pull_result (np : nat) (status : string) : gmap string value :=
  {[ "pets" := VInt (Z.of_nat np); "status" := VText status ]}.

Record FullSync := mkFullSync {
  pushed : gmap string value;
  pulled : gmap string value;
  is_online : bool
}.

Definition allowed_fields : gset string :=
  {[ "name"; "species"; "breed"; "age"; "weight"; "notes" ]}.

(** The tables that carry a [sync_status] column. *)
Definition synchronizable : list string := ["users"; "pets"].

(** A result dictionary maps every synchronizable table to a count. *)
Definition maps_every_table (d : gmap string value) : Prop :=
  ∀ t, t ∈ synchronizable → ∃ n : nat, d !! t = Some (VInt (Z.of_nat n)).

(** ** The environment

    The n-th reading of [datetime.utcnow().isoformat()], the n-th
    [str(uuid.uuid4())], whether the n-th remote call raises,
    [Config.is_remote_configured()], and the conversions of SQLite and of
    its binding: what a column of the given affinity holds for a value of
    another class (a number in a TEXT column, text in a numeric column, an
    [int] in a REAL column, a [float] in an INTEGER column, an [int]
    beyond 32 bits), or [None] when binding the value raises. *)

Class Env := mkEnv {
  utcnow : nat → string;
  uuid4 : nat → string;
  remote_raises : nat → bool;
  is_remote_configured : bool;
  convert : affinity → value → option value
}.

(** ** The methods of [DatabaseManager] *)

Section Manager.

Context {E : Env}.

Definition _generate_id (w : DatabaseManager) : string * DatabaseManager :=
  (uuid4 (ids_drawn w),
   mkDM (local_conn w) (remote_db w) (remote_conn w) (_is_online w)
        (clock_reads w) (S (ids_drawn w)) (remote_rounds w)).

Definition _get_timestamp (w : DatabaseManager) : string * DatabaseManager :=
  (utcnow (clock_reads w),
   mkDM (local_conn w) (remote_db w) (remote_conn w) (_is_online w)
        (S (clock_reads w)) (ids_drawn w) (remote_rounds w)).

(** One call on the network; [true] when it raises. *)
Definition remote_round (w : DatabaseManager) : bool * DatabaseManager :=
  (remote_raises (remote_rounds w),
   mkDM (local_conn w) (remote_db w) (remote_conn w) (_is_online w)
        (clock_reads w) (ids_drawn w) (S (remote_rounds w))).

(** [_try_connect_remote]: [libsql.connect] and then [_create_tables] on
    the new connection; the tables of the remote database exist already
    or are created empty. *)
Definition _try_connect_remote (w : DatabaseManager) : bool * DatabaseManager :=
  if negb is_remote_configured then (false, set_is_online false w)
  else
    let '(raised, w) := remote_round w in
    if raised then (false, set_is_online false w)
    else
      let w := set_remote_conn true w in
      let '(raised, w) := remote_round w in
      if raised then (false, set_is_online false w)
      else (true, set_is_online true w).

Definition check_connection (w : DatabaseManager) : bool * DatabaseManager :=
  _try_connect_remote w.

(** [_log_change]; [false] when the [INSERT] raises. *)
Definition _log_change (table record_id operation : string)
    (w : DatabaseManager) : bool * DatabaseManager :=
  let '(lid, w) := _generate_id w in
  let '(ts, w) := _get_timestamp w in
  match insert_log (Log.mk lid table record_id operation ts 0) (local_conn w) with
  | Some d => (true, set_local d w)
  | None => (false, w)
  end.

(** *** What a column stores for a Python value

    [None] is stored as NULL in every column.  A value that has the class
    of its column is stored as it is, except that a NaN is bound as NULL
    and that a REAL column gives [0.0] back for [-0.0].  Everything else is
    converted. *)
Definition store (a : affinity) (v : value) : option value :=
  match a, v with
  | _, VNull => Some VNull
  | TEXT, VText _ => Some v
  | INTEGER, VInt z => if fits_32 z then Some v else convert a v
  | REAL, VReal bits =>
      if is_nan bits then Some VNull
      else if bool_decide (bits = negative_zero) then Some (VReal 0)
      else Some v
  | _, VReal bits => if is_nan bits then Some VNull else convert a v
  | _, _ => convert a v
  end.

(** The row that the [INSERT] of [create_pet] is to write: its ten
    parameters as their columns store them, and the literal ['pending'];
    [None] when binding a parameter raises. *)
Definition bind_pet (user_id : string)
    (name species breed age weight notes : value) (timestamp : string)
  : option Pet.row :=
  name ← store TEXT name;
  species ← store TEXT species;
  breed ← store TEXT breed;
  age ← store INTEGER age;
  weight ← store REAL weight;
  notes ← store TEXT notes;
  Some (Pet.mk user_id name species breed age weight notes
               timestamp timestamp 0 "pending").

(** The [UPDATE] of [update_pet] once its parameters are bound: each
    value takes the affinity of its column, and the row of that id, when
    there is one, is rewritten. *)
Definition bind_updates (u : gmap string value) : option (gmap string value) :=
  list_to_map
    <$> mapM (λ kv : string * value,
                v ← store (column_affinity kv.1) kv.2; Some (kv.1, v))
             (map_to_list u).

Definition update_pet_row (u : gmap string value) (ts : string) (pid : string)
    (d : Db) : option Db :=
  u ← bind_updates u;
  match pets d !! pid with
  | None => Some d
  | Some r =>
      let r' := apply_updates u ts r in
      if Pet.not_null r' then Some (set_pets (<[pid := r']> (pets d)) d)
      else None
  end.

(** *** Push of one record *)

Definition _sync_user_to_remote (user_id : string) (w : DatabaseManager)
  : bool * DatabaseManager :=
  if negb (_is_online w) || negb (remote_conn w) then (false, w)
  else
    match users (local_conn w) !! user_id with
    | None => (false, w)
    | Some user =>
        let '(raised, w) := remote_round w in
        if raised then (false, w)
        else
          match insert_or_replace_user user_id
                  (User.set_sync_status "synced" user) (remote_db w) with
          | None => (false, w)
          | Some d =>
              let w := set_remote d w in
              (true, set_local (mark_user "synced" user_id (local_conn w)) w)
          end
    end.

Definition _sync_pet_to_remote (pet_id : string) (w : DatabaseManager)
  : bool * DatabaseManager :=
  if negb (_is_online w) || negb (remote_conn w) then (false, w)
  else
    match pets (local_conn w) !! pet_id with
    | None => (false, w)
    | Some pet =>
        let '(raised, w) := remote_round w in
        if raised then (false, w)
        else
          match insert_or_replace_pet pet_id
                  (Pet.set_sync_status "synced" pet) (remote_db w) with
          | None => (false, w)
          | Some d =>
              let w := set_remote d w in
              (true, set_local (mark_pet "synced" pet_id (local_conn w)) w)
          end
    end.

(** [if self.is_online: self._sync_..._to_remote(id)] *)
Definition sync_if_online (push : string → DatabaseManager → bool * DatabaseManager)
    (rid : string) (w : DatabaseManager) : DatabaseManager :=
  if _is_online w then (push rid w).2 else w.

(** *** Local mutations *)

Definition create_user (username password_hash : string)
    (w : DatabaseManager) : option string * DatabaseManager :=
  let '(user_id, w) := _generate_id w in
  let '(timestamp, w) := _get_timestamp w in
  match insert_user user_id
          (User.mk username password_hash timestamp timestamp 0 "pending")
          (local_conn w) with
  | None => (None, w)
  | Some d =>
      let '(logged, w) := _log_change "users" user_id "INSERT" (set_local d w) in
      if logged then (Some user_id, sync_if_online _sync_user_to_remote user_id w)
      else (None, w)
  end.

Definition get_user_by_id (user_id : string) (w : DatabaseManager)
  : option User.row :=
  match users (local_conn w) !! user_id with
  | Some r => if bool_decide (User.is_deleted r = 0%Z) then Some r else None
  | None => None
  end.

Definition create_pet (user_id : string) (name species breed age weight notes : value)
    (w : DatabaseManager) : option string * DatabaseManager :=
  let '(pet_id, w) := _generate_id w in
  let '(timestamp, w) := _get_timestamp w in
  match bind_pet user_id name species breed age weight notes timestamp
          ≫= λ row, insert_pet pet_id row (local_conn w) with
  | None => (None, w)
  | Some d =>
      let '(logged, w) := _log_change "pets" pet_id "INSERT" (set_local d w) in
      if logged then (Some pet_id, sync_if_online _sync_pet_to_remote pet_id w)
      else (None, w)
  end.

Definition get_pet_by_id (pet_id : string) (w : DatabaseManager)
  : option Pet.row :=
  match pets (local_conn w) !! pet_id with
  | Some r => if bool_decide (Pet.is_deleted r = 0%Z) then Some r else None
  | None => None
  end.

(** [values = list(updates.values()) + [pet_id]] is a list, and it is
    passed to [execute] as it is, so that the [UPDATE] is never run. *)
Definition update_pet (pet_id : string) (kwargs : gmap string value)
    (w : DatabaseManager) : bool * DatabaseManager :=
  let updates := filter (λ kv, kv.1 ∈ allowed_fields) kwargs in
  if bool_decide (updates = ∅) then (false, w)
  else
    let '(timestamp, w) := _get_timestamp w in
    let values :=
      PyList ((map_to_list updates).*2
              ++ [VText timestamp; VText "pending"; VText pet_id]) in
    match bind_params values
            ≫= λ _, update_pet_row updates timestamp pet_id (local_conn w) with
    | None => (false, w)
    | Some d =>
        let '(logged, w) := _log_change "pets" pet_id "UPDATE" (set_local d w) in
        if logged then (true, sync_if_online _sync_pet_to_remote pet_id w)
        else (false, w)
    end.

Definition delete_pet (pet_id : string) (w : DatabaseManager)
  : bool * DatabaseManager :=
  let '(timestamp, w) := _get_timestamp w in
  let d := delete_pet_row timestamp pet_id (local_conn w) in
  let '(logged, w) := _log_change "pets" pet_id "DELETE" (set_local d w) in
  if logged then (true, sync_if_online _sync_pet_to_remote pet_id w)
  else (false, w).

(** *** Push of everything pending, pull, full sync *)

Fixpoint push_loop (push : string → DatabaseManager → bool * DatabaseManager)
    (ids : list string) (n : nat) (w : DatabaseManager)
  : nat * DatabaseManager :=
  match ids with
  | [] => (n, w)
  | i :: rest =>
      let '(ok, w) := push i w in
      push_loop push rest (if ok then S n else n) w
  end.

Definition sync_all_pending (w : DatabaseManager)
  : gmap string value * DatabaseManager :=
  let '(connected, w) := check_connection w in
  if negb connected then (push_result 0 0 "offline", w)
  else
    let '(nu, w) :=
      push_loop _sync_user_to_remote (pending_user_ids (local_conn w)) 0 w in
    let '(np, w) :=
      push_loop _sync_pet_to_remote (pending_pet_ids (local_conn w)) 0 w in
    (push_result nu np "online", w).

(** [if not local_pet or local_pet[0] < remote_updated] *)
Definition remote_wins (local : gmap string Pet.row) (pid : string)
    (remote : Pet.row) : bool :=
  match local !! pid with
  | None => true
  | Some l => (Pet.updated_at l <? Pet.updated_at remote)%string
  end.

(** The loop over the fetched rows.  A fetched tuple has the twelve
    columns of [SELECT *]; the statement has eleven placeholders, bound to
    the first eleven, and the literal ['synced'] for [sync_status].  An
    exception of the local [INSERT OR REPLACE] leaves the [try] block with
    the count so far. *)
Fixpoint pull_loop (rows : list (string * Pet.row)) (n : nat) (d : Db)
  : nat * Db :=
  match rows with
  | [] => (n, d)
  | (pid, pet) :: rest =>
      if remote_wins (pets d) pid pet then
        match insert_or_replace_pet pid (Pet.set_sync_status "synced" pet) d with
        | Some d' => pull_loop rest (S n) d'
        | None => (n, d)
        end
      else pull_loop rest n d
  end.

Definition pull_from_remote (user_id : string) (w : DatabaseManager)
  : gmap string value * DatabaseManager :=
  if negb (_is_online w) || negb (remote_conn w) then (pull_result 0 "offline", w)
  else
    let '(raised, w) := remote_round w in
    if raised then (pull_result 0 "online", w)
    else
      let remote_pets := map_to_list (pets_of user_id (remote_db w)) in
      let '(n, d) := pull_loop remote_pets 0 (local_conn w) in
      (pull_result n "online", set_local d w).

Definition full_sync (user_id : string) (w : DatabaseManager)
  : FullSync * DatabaseManager :=
  let '(push_result, w) := sync_all_pending w in
  let '(pull_result, w) := pull_from_remote user_id w in
  (mkFullSync push_result pull_result (_is_online w), w).


(** *** Specification-side counts *)

(** Number of the rows [ids], pushed in this order from remote round
    [round] on, whose remote write goes through: the round does not raise
    and the remote accepts the row ([good]). *)
Fixpoint count_pushed {R : Type} (good : R → bool) (t : gmap string R)
    (round : nat) (ids : list string) : nat :=
  match ids with
  | [] => 0
  | rid :: rest =>
      (if negb (remote_raises round) && from_option good false (t !! rid)
       then 1 else 0)
      + count_pushed good t (S round) rest
  end.

(** The journal of [w'] is the journal of [w] followed by one entry,
    unsynced, stamped with the clock reading that follows the mutation's
    own reading. *)
Definition journal_appended (w w' : DatabaseManager)
    (lid table rid op : string) : Prop :=
  sync_log (local_conn w')
  = (sync_log (local_conn w)
     ++ [Log.mk lid table rid op (utcnow (S (clock_reads w))) 0])%list.

End Manager.

(** ** Sample environments and states *)

Definition t0 : string := "2024-01-01T00:00:00".
Definition t5 : string := "2024-01-01T00:00:05".
Definition t10 : string := "2024-01-01T00:00:10".

Definition sample_uuid (n : nat) : string :=
  nth n ["id-0"; "id-1"; "id-2"; "id-3"; "id-4"; "id-5"] "id-6".

(** Seconds 10, 11, 12, ... of the first minute. *)
Definition ticking_clock (n : nat) : string :=
  nth n ["2024-01-01T00:00:10"; "2024-01-01T00:00:11"; "2024-01-01T00:00:12";
         "2024-01-01T00:00:13"; "2024-01-01T00:00:14"] "2024-01-01T00:00:15".

(** The samples bind values of the class of their column only, so that no
    conversion is ever asked for; this one refuses them all. *)
Definition no_conversion (a : affinity) (v : value) : option value := None.

(** A remote that is configured and answers every call. *)
Definition env_steady : Env :=
  mkEnv ticking_clock sample_uuid (λ _, false) true no_conversion.

(** A remote whose fourth call raises. *)
Definition env_flaky : Env :=
  mkEnv ticking_clock sample_uuid (λ n, Nat.eqb n 3) true no_conversion.

(** A remote that is configured and whose every call raises. *)
Definition env_down : Env :=
  mkEnv ticking_clock sample_uuid (λ _, true) true no_conversion.

(** No remote configured. *)
Definition env_local_only : Env :=
  mkEnv ticking_clock sample_uuid (λ _, false) false no_conversion.

(** A clock too coarse to separate two calls. *)
Definition env_stalled : Env :=
  mkEnv (λ _, t10) sample_uuid (λ _, false) false no_conversion.

(** A clock that is set back after its second reading. *)
Definition env_set_back : Env :=
  mkEnv (λ n, if Nat.ltb n 2 then t10 else t5) sample_uuid (λ _, false) false
        no_conversion.

Definition ann : User.row := User.mk "ann" "hash" t0 t0 0 "pending".
Definition ann_deleted : User.row := User.mk "ann" "hash" t0 t0 1 "synced".

Definition rex : Pet.row :=
  Pet.mk "u1" (VText "Rex") (VText "dog") (VText "") (VInt 3) (VReal 0)
         (VText "") t0 t0 0 "pending".
Definition tom : Pet.row :=
  Pet.mk "u1" (VText "Tom") (VText "cat") (VText "") (VInt 5) (VReal 0)
         (VText "") t0 t5 0 "pending".
Definition kim : Pet.row :=
  Pet.mk "u1" (VText "Kim") (VText "fish") (VNull) (VInt 1) (VReal 0)
         (VNull) t0 t0 0 "synced".

(** Remote versions: [rex] renamed later, [tom] with the local timestamp,
    and a pet the local database has not seen. *)
Definition rex_remote : Pet.row :=
  Pet.mk "u1" (VText "Rexy") (VText "dog") (VText "") (VInt 3) (VReal 0)
         (VText "") t0 t5 0 "synced".
Definition tom_remote : Pet.row :=
  Pet.mk "u1" (VText "Tommy") (VText "cat") (VText "") (VInt 5) (VReal 0)
         (VText "") t0 t5 0 "synced".
Definition zoe_remote : Pet.row :=
  Pet.mk "u1" (VText "Zoe") (VText "bird") (VText "") (VInt 2) (VReal 0)
         (VText "") t5 t5 1 "synced".

Definition local_sample : Db :=
  mkDb {[ "u1" := ann ]} {[ "p1" := rex; "p2" := tom; "p3" := kim ]} [].

Definition ann_remote : User.row := User.mk "ann" "hash" t0 t0 0 "synced".

Definition remote_sample : Db :=
  mkDb {[ "u1" := ann_remote ]}
       {[ "p1" := rex_remote; "p2" := tom_remote; "p4" := zoe_remote ]} [].

(** Not connected yet. *)
Definition w_start : DatabaseManager :=
  mkDM local_sample remote_sample false false 0 0 0.

(** Connected. *)
Definition w_online : DatabaseManager :=
  mkDM local_sample remote_sample true true 0 0 0.

(** Connected to a remote that has no account yet. *)
Definition w_unshared : DatabaseManager :=
  mkDM local_sample empty_db true true 0 0 0.

(** A new installation connected to a remote that holds the data of
    account [u1]: the local database has no account yet. *)
Definition w_new_device : DatabaseManager :=
  mkDM empty_db remote_sample true true 0 0 0.

(** A fresh installation. *)
Definition w_empty : DatabaseManager :=
  mkDM empty_db empty_db false false 0 0 0.

(** The only account has been soft-deleted. *)
Definition w_owner_deleted : DatabaseManager :=
  mkDM (mkDb {[ "u1" := ann_deleted ]} ∅ []) empty_db false false 0 0 0.

Definition kw_unknown : gmap string value :=
  {[ "colour" := VText "red"; "sync_status" := VText "synced" ]}.

Definition kw_rename : gmap string value := {[ "name" := VText "Max" ]}.

(** ** The readers and the remaining methods of [DatabaseManager] *)

(** [ORDER BY name]: SQLite sorts NULL first, then numbers, then text, and
    text by the bytes of the string.  [name] has TEXT affinity, so a stored
    name is text; numbers are only ranked as a class here, not among
    themselves. *)
Definition class_rank (v : value) : nat :=
  match v with
  | VNull => 0
  | VInt _ | VReal _ => 1
  | VText _ => 2
  end.

Definition order_by_le (a b : value) : bool :=
  match a, b with
  | VText s, VText t => String.leb s t
  | _, _ => Nat.leb (class_rank a) (class_rank b)
  end.

Definition by_name (a b : string * Pet.row) : Prop :=
  order_by_le (Pet.name a.2) (Pet.name b.2) = true.

#[global] Instance by_name_dec (a b : string * Pet.row) : Decision (by_name a b).
Proof. unfold by_name. apply _. Defined.

(** The dictionary of [get_sync_status]. *)
Record SyncStatus := mkSyncStatus {
  status_is_online : bool;
  pending_users : nat;
  pending_pets : nat;
  total_pending : nat
}.

Section Readers.

Context {E : Env}.

(** [__init__]: the local database is opened (its tables exist or are
    created empty), no remote connection yet, then [_try_connect_remote]. *)
Definition init (local remote : Db) : DatabaseManager :=
  (_try_connect_remote (mkDM local remote false false 0 0 0)).2.

(** [SELECT * FROM users WHERE username = ? AND is_deleted = 0], [fetchone];
    the row comes with its id. *)
Definition get_user_by_username (username : string) (w : DatabaseManager)
  : option (string * User.row) :=
  head (map_to_list
          (filter (λ kv, User.username kv.2 = username
                         ∧ User.is_deleted kv.2 = 0%Z)
                  (users (local_conn w)))).

(** [SELECT * FROM pets WHERE user_id = ? AND is_deleted = 0 ORDER BY name],
    [fetchall]. *)
Definition get_pets_by_user (user_id : string) (w : DatabaseManager)
  : list (string * Pet.row) :=
  merge_sort by_name
    (map_to_list
       (filter (λ kv, Pet.user_id kv.2 = user_id ∧ Pet.is_deleted kv.2 = 0%Z)
               (pets (local_conn w)))).

(** [SELECT COUNT( * ) FROM t WHERE sync_status = 'pending'], twice. *)
Definition get_sync_status (w : DatabaseManager) : SyncStatus :=
  let pending_users :=
    size (filter (λ kv, User.sync_status kv.2 = "pending") (users (local_conn w))) in
  let pending_pets :=
    size (filter (λ kv, Pet.sync_status kv.2 = "pending") (pets (local_conn w))) in
  mkSyncStatus (_is_online w) pending_users pending_pets
               (pending_users + pending_pets).

End Readers.

(** ** Sequences of calls on one manager *)

Inductive Call :=
  | CreateUser (username password_hash : string)
  | CreatePet (user_id : string) (name species breed age weight notes : value)
  | UpdatePet (pet_id : string) (kwargs : gmap string value)
  | DeletePet (pet_id : string)
  | CheckConnection
  | SyncAllPending
  | PullFromRemote (user_id : string)
  | FullSyncOf (user_id : string).

Section Calls.

Context {E : Env}.

(** The state a call leaves. *)
Definition call (c : Call) (w : DatabaseManager) : DatabaseManager :=
  match c with
  | CreateUser username password_hash => (create_user username password_hash w).2
  | CreatePet user_id name species breed age weight notes =>
      (create_pet user_id name species breed age weight notes w).2
  | UpdatePet pet_id kwargs => (update_pet pet_id kwargs w).2
  | DeletePet pet_id => (delete_pet pet_id w).2
  | CheckConnection => (check_connection w).2
  | SyncAllPending => (sync_all_pending w).2
  | PullFromRemote user_id => (pull_from_remote user_id w).2
  | FullSyncOf user_id => (full_sync user_id w).2
  end.

Definition calls (cs : list Call) (w : DatabaseManager) : DatabaseManager :=
  foldl (λ w c, call c w) w cs.

End Calls.

(** ** [AuthManager] (auth.py) and the controller's data methods (app.py)

    [bcrypt] is part of the environment: the hash of a password under the
    n-th salt of [gensalt], and [checkpw], which raises on a hash it cannot
    parse ([None]); so is the date arithmetic of the session's expiry, the
    ISO form of a clock reading moved by a number of days.  The session file
    is modelled by what the program writes to it. *)

Class AuthEnv := mkAuthEnv {
  hashpw : string → nat → string;
  checkpw : string → string → option bool;
  plus_days : nat → string → string
}.

Definition SESSION_EXPIRY_DAYS : nat := 7.

Record Session := mkSession {
  session_user_id : string;
  session_username : string;
  session_created_at : string;
  session_expires_at : string
}.

Record AuthManager := mkAuth {
  _current_user : option (string * User.row);
  _session_data : option Session;
  session_file : option Session;   (* contents of [Config.SESSION_FILE] *)
  salts_drawn : nat                (* calls of [bcrypt.gensalt] so far *)
}.

(** The controller holds the manager and the [AuthManager] that shares it. *)
Record PetManagerApp := mkApp {
  _auth : AuthManager;
  _db : DatabaseManager
}.

(** What [PetManagerApp.sync] returns. *)
Inductive SyncReport :=
  | NotLoggedIn                    (* [{"is_online": False}] *)
  | Report (r : FullSync).

Section Auth.

Context {E : Env} {A : AuthEnv}.

Definition _hash_password (password : string) (a : AuthManager)
  : string * AuthManager :=
  (hashpw password (salts_drawn a),
   mkAuth (_current_user a) (_session_data a) (session_file a)
          (S (salts_drawn a))).

Definition _verify_password (password password_hash : string) : option bool :=
  checkpw password password_hash.

Definition register (username password : string) (app : PetManagerApp)
  : (bool * string) * PetManagerApp :=
  if String.eqb username "" || (len username <? 3)%nat then
    ((false, "Username must be at least 3 characters"), app)
  else if String.eqb password "" || (len password <? 6)%nat then
    ((false, "Password must be at least 6 characters"), app)
  else
    match get_user_by_username username (_db app) with
    | Some _ => ((false, "Username already exists"), app)
    | None =>
        let '(password_hash, a) := _hash_password password (_auth app) in
        let '(user_id, d) := create_user username password_hash (_db app) in
        match user_id with
        | Some uid =>
            if String.eqb uid "" then
              ((false, "Registration failed"), mkApp a d)
            else ((true, "Registration successful"), mkApp a d)
        | None => ((false, "Registration failed"), mkApp a d)
        end
    end.

(** [_create_session] with [_save_session_file]: two clock readings, the
    first for the expiry. *)
Definition _create_session (user : string * User.row) (app : PetManagerApp)
  : PetManagerApp :=
  let '(now, d) := _get_timestamp (_db app) in
  let expiry := plus_days SESSION_EXPIRY_DAYS now in
  let '(created, d) := _get_timestamp d in
  let session := mkSession user.1 (User.username user.2) created expiry in
  mkApp (mkAuth (_current_user (_auth app)) (Some session) (Some session)
                (salts_drawn (_auth app)))
        d.

(** [login]; [None] when [bcrypt.checkpw] raises. *)
Definition login (username password : string) (app : PetManagerApp)
  : option (bool * string) * PetManagerApp :=
  match get_user_by_username username (_db app) with
  | None => (Some (false, "Invalid username or password"), app)
  | Some user =>
      match _verify_password password (User.password_hash user.2) with
      | None => (None, app)
      | Some false => (Some (false, "Invalid username or password"), app)
      | Some true =>
          let a := _auth app in
          let app := mkApp (mkAuth (Some user) (_session_data a)
                                   (session_file a) (salts_drawn a))
                           (_db app) in
          let app := _create_session user app in
          let d := if _is_online (_db app)
                   then (full_sync user.1 (_db app)).2 else _db app in
          (Some (true, "Login successful"), mkApp (_auth app) d)
      end
  end.

Definition logout (app : PetManagerApp) : PetManagerApp :=
  mkApp (mkAuth None None None (salts_drawn (_auth app))) (_db app).

Definition is_authenticated (a : AuthManager) : bool :=
  bool_decide (is_Some (_current_user a)).

(** The [user_id] property. *)
Definition user_id (a : AuthManager) : option string := fst <$> _current_user a.

(** [if not self._auth.user_id]: no user, or an empty id. *)
Definition no_user (a : AuthManager) : bool :=
  match user_id a with
  | None => true
  | Some uid => String.eqb uid ""
  end.

(** *** [PetManagerApp] *)

Definition get_pets (app : PetManagerApp) : list (string * Pet.row) :=
  if no_user (_auth app) then []
  else get_pets_by_user (default "" (user_id (_auth app))) (_db app).

Definition add_pet (data : gmap string value) (app : PetManagerApp)
  : bool * PetManagerApp :=
  if no_user (_auth app) then (false, app)
  else
    let '(pet_id, d) :=
      create_pet (default "" (user_id (_auth app)))
        (default (VText "") (data !! "name"))
        (default (VText "") (data !! "species"))
        (default (VText "") (data !! "breed"))
        (default (VInt 0) (data !! "age"))
        (default (VReal 0) (data !! "weight"))
        (default (VText "") (data !! "notes"))
        (_db app) in
    (bool_decide (is_Some pet_id), mkApp (_auth app) d).

Definition sync (app : PetManagerApp) : SyncReport * PetManagerApp :=
  if no_user (_auth app) then (NotLoggedIn, app)
  else
    let '(r, d) := full_sync (default "" (user_id (_auth app))) (_db app) in
    (Report r, mkApp (_auth app) d).

(** What [_do_auto_sync] does to the data, between two timers. *)
Definition _do_auto_sync (app : PetManagerApp) : PetManagerApp :=
  if is_authenticated (_auth app) then
    let '(connected, d) := check_connection (_db app) in
    if connected then mkApp (_auth app) (sync_all_pending d).2
    else mkApp (_auth app) d
  else app.

End Auth.

(** ** What every call preserves *)

(** From [w] to [w']: the journal has only grown at its end, every account
    row is still there and differs at most in [sync_status], every pet row
    is still there, and an online flag that implied a connection still
    does. *)
Definition evolves (w w' : DatabaseManager) : Prop :=
  sync_log (local_conn w) `prefix_of` sync_log (local_conn w')
  ∧ (∀ uid u, users (local_conn w) !! uid = Some u →
       ∃ s, users (local_conn w') !! uid = Some (User.set_sync_status s u))
  ∧ (∀ pid, is_Some (pets (local_conn w) !! pid) →
       is_Some (pets (local_conn w') !! pid))
  ∧ ((_is_online w = true → remote_conn w = true) →
     _is_online w' = true → remote_conn w' = true).

(** ** Samples for the application layer *)

(** A stand-in for [bcrypt]: the hash shows the password, every salt gives
    the same hash, and a hash that does not start with the marker is
    refused. *)
Definition sample_hashpw (password : string) (salt : nat) : string :=
  "$" ++ password.

Definition sample_checkpw (password password_hash : string) : option bool :=
  if String.prefix "$" password_hash
  then Some (String.eqb password_hash ("$" ++ password))
  else None.

Definition auth_sample : AuthEnv :=
  mkAuthEnv sample_hashpw sample_checkpw (λ days now, now ++ "+7d").

Definition app_start : PetManagerApp := mkApp (mkAuth None None None 0) w_start.


Definition sample_calls : list Call :=
  [DeletePet "p1"; SyncAllPending; PullFromRemote "u1";
   UpdatePet "p2" kw_rename].

(** ** The spec's statements that the samples are tried against *)

(** The row of [pid] went from [before] to [after] with a strictly later
    [updated_at] that is not before its [created_at]. *)
Definition strictly_advanced (before after : DatabaseManager) (pid : string)
  : Prop :=
  ∀ row row',
    pets (local_conn before) !! pid = Some row →
    pets (local_conn after) !! pid = Some row' →
    (Pet.updated_at row <? Pet.updated_at row')%string = true
    ∧ (Pet.updated_at row' <? Pet.created_at row')%string = false.

(** [user_id] names an account that exists and is not soft-deleted. *)
Definition live_owner (w : DatabaseManager) (user_id : string) : Prop :=
  ∃ u, users (local_conn w) !! user_id = Some u ∧ User.is_deleted u = 0%Z.

(** * Properties *)

Section Properties.

Context {E : Env}.

(** *** The argument filter of [update_pet] *)

Lemma filter_allowed_union (extra args : gmap string value) :
  (∀ k, is_Some (extra !! k) → k ∉ allowed_fields) →
  filter (λ kv : string * value, kv.1 ∈ allowed_fields) (extra ∪ args)
  = filter (λ kv : string * value, kv.1 ∈ allowed_fields) args.
Proof.
  intros Hextra. apply map_eq. intros k.
  rewrite !map_lookup_filter, lookup_union.
  destruct (extra !! k) as [v|] eqn:Hk.
  - assert (k ∉ allowed_fields) as Hn by (apply Hextra; eauto).
    destruct (args !! k) as [v'|]; simpl;
      rewrite ?option_guard_False by done; done.
  - by rewrite (left_id None _).
Qed.

Lemma filter_allowed_empty (kwargs : gmap string value) :
  (∀ k, is_Some (kwargs !! k) → k ∉ allowed_fields) →
  filter (λ kv : string * value, kv.1 ∈ allowed_fields) kwargs = ∅.
Proof.
  intros Hkw. apply map_eq. intros k.
  rewrite lookup_empty. apply map_lookup_filter_None. right.
  intros v Hk Hin. apply (Hkw k); [eauto | exact Hin].
Qed.

(** C10: with no recognized key among its keyword arguments [update_pet]
    returns [False] and changes nothing at all (no clock reading, no row,
    no journal entry); and such keys added to any argument set are
    dropped silently: the call behaves as on the argument set alone. *)
Theorem update_pet_unrecognized_keys
    (pet_id : string) (kwargs : gmap string value) (w : DatabaseManager) :
  (∀ k, is_Some (kwargs !! k) → k ∉ allowed_fields) →
  update_pet pet_id kwargs w = (false, w)
  ∧ ∀ args, update_pet pet_id (kwargs ∪ args) w = update_pet pet_id args w.
Proof.
  intros Hkw. split.
  - unfold update_pet. rewrite (filter_allowed_empty _ Hkw).
    by rewrite bool_decide_eq_true_2.
  - intros args. unfold update_pet.
    by rewrite (filter_allowed_union _ _ Hkw).
Qed.

(** *** Connectivity *)

Lemma check_connection_frame (w : DatabaseManager) :
  let w' := (check_connection w).2 in
  local_conn w' = local_conn w ∧ remote_db w' = remote_db w
  ∧ clock_reads w' = clock_reads w ∧ ids_drawn w' = ids_drawn w
  ∧ _is_online w' = (check_connection w).1.
Proof.
  unfold check_connection, _try_connect_remote, remote_round.
  destruct is_remote_configured; simpl; [|done].
  destruct (remote_raises (remote_rounds w)); simpl; [done|].
  destruct (remote_raises (S (remote_rounds w))); simpl; done.
Qed.

Lemma check_connection_true (w w' : DatabaseManager) :
  check_connection w = (true, w') →
  _is_online w' = true ∧ remote_conn w' = true
  ∧ local_conn w' = local_conn w ∧ remote_db w' = remote_db w
  ∧ remote_rounds w' = S (S (remote_rounds w)).
Proof.
  unfold check_connection, _try_connect_remote, remote_round.
  destruct is_remote_configured; simpl; [|congruence].
  destruct (remote_raises (remote_rounds w)); simpl; [congruence|].
  destruct (remote_raises (S (remote_rounds w))); simpl; [congruence|].
  intros [= <-]. done.
Qed.

(** C4: when the connector reports unavailable, [sync_all_pending] and
    [pull_from_remote] return zero counts with status offline, and the
    local database (hence every [sync_status]) and the remote database
    are as before. *)
Theorem offline_push_pull_noop
    (user_id : string) (w w' : DatabaseManager) :
  check_connection w = (false, w') →
  sync_all_pending w = (push_result 0 0 "offline", w')
  ∧ pull_from_remote user_id w' = (pull_result 0 "offline", w')
  ∧ local_conn w' = local_conn w
  ∧ remote_db w' = remote_db w
  ∧ (∀ v, _is_online v = false ∨ remote_conn v = false →
          pull_from_remote user_id v = (pull_result 0 "offline", v)).
Proof.
  intros Hc.
  pose proof (check_connection_frame w) as (Hl & Hr & _ & _ & Ho).
  rewrite Hc in Hl, Hr, Ho. simpl in Hl, Hr, Ho.
  split; [| split; [| split; [done | split; [done |]]]].
  - unfold sync_all_pending. by rewrite Hc.
  - unfold pull_from_remote. by rewrite Ho.
  - intros v [Hv | Hv]; unfold pull_from_remote; rewrite Hv; simpl; [done|].
    by rewrite orb_true_r.
Qed.

(** *** Push of one record *)

(** C2: with the connector available, pushing a record whose local row
    exists writes the row to the remote with [sync_status = 'synced']
    whatever the local status is, and then marks the local row synced;
    when the remote write fails (the call raises, or the remote refuses
    the row: a NULL in a [NOT NULL] column or an owner without a row on the
    remote for a pet, a username that belongs on the remote to another
    account owning pets there for a user) the call returns [False],
    nothing is raised, and the local and remote databases keep their
    contents, so a pending row stays pending. *)
Theorem push_record_outcome (rid : string) (w : DatabaseManager) :
  _is_online w = true → remote_conn w = true →
  (∀ pet, pets (local_conn w) !! rid = Some pet →
     let '(ok, w') := _sync_pet_to_remote rid w in
     if remote_raises (remote_rounds w) || negb (Pet.not_null pet)
        || negb (has_owner pet (remote_db w)) then
       ok = false ∧ local_conn w' = local_conn w ∧ remote_db w' = remote_db w
     else
       ok = true
       ∧ pets (remote_db w') !! rid = Some (Pet.set_sync_status "synced" pet)
       ∧ pets (local_conn w') = <[rid := Pet.set_sync_status "synced" pet]> (pets (local_conn w))
       ∧ users (local_conn w') = users (local_conn w)
       ∧ sync_log (local_conn w') = sync_log (local_conn w))
  ∧ (∀ user, users (local_conn w) !! rid = Some user →
     let '(ok, w') := _sync_user_to_remote rid w in
     if remote_raises (remote_rounds w) || orphans_pets rid user (remote_db w) then
       ok = false ∧ local_conn w' = local_conn w ∧ remote_db w' = remote_db w
     else
       ok = true
       ∧ users (remote_db w') !! rid = Some (User.set_sync_status "synced" user)
       ∧ users (local_conn w') = <[rid := User.set_sync_status "synced" user]> (users (local_conn w))
       ∧ pets (local_conn w') = pets (local_conn w)
       ∧ sync_log (local_conn w') = sync_log (local_conn w)).
Proof.
  intros Hon Hconn. split.
  - intros pet Hpet. unfold _sync_pet_to_remote, remote_round.
    rewrite Hon, Hconn, Hpet. simpl.
    destruct (remote_raises (remote_rounds w)); simpl; [done|].
    unfold insert_or_replace_pet.
    change (Pet.not_null (Pet.set_sync_status "synced" pet))
      with (Pet.not_null pet).
    change (has_owner (Pet.set_sync_status "synced" pet) (remote_db w))
      with (has_owner pet (remote_db w)).
    destruct (Pet.not_null pet); simpl; [|done].
    destruct (has_owner pet (remote_db w)); simpl; [|done].
    split; [done|]. split; [by rewrite lookup_insert_eq|].
    split; [|done].
    apply map_eq. intros k. rewrite lookup_alter, lookup_insert.
    case_decide; subst; [by rewrite Hpet | done].
  - intros user Huser. unfold _sync_user_to_remote, remote_round.
    rewrite Hon, Hconn, Huser. simpl.
    destruct (remote_raises (remote_rounds w)); simpl; [done|].
    unfold insert_or_replace_user.
    change (orphans_pets rid (User.set_sync_status "synced" user) (remote_db w))
      with (orphans_pets rid user (remote_db w)).
    destruct (orphans_pets rid user (remote_db w)); simpl; [done|].
    split; [done|]. split; [by rewrite lookup_insert_eq|].
    split; [|done].
    apply map_eq. intros k. rewrite lookup_alter, lookup_insert.
    case_decide; subst; [by rewrite Huser | done].
Qed.

(** *** The push loop *)

Lemma push_loop_counter
    (push : string → DatabaseManager → bool * DatabaseManager)
    (ids : list string) :
  ∀ n m w, (push_loop push ids n w).2 = (push_loop push ids m w).2.
Proof.
  induction ids as [|i rest IH]; intros n m w; [done|].
  simpl. destruct (push i w) as [ok v]. apply IH.
Qed.

Section PushLoop.
Context {R F : Type}.
Variable tbl : DatabaseManager → gmap string R.
Variable good : DatabaseManager → string → R → bool.
Variable mark : R → R.
Variable fin : R → bool.
Variable frame : DatabaseManager → F.
Variable push : string → DatabaseManager → bool * DatabaseManager.

Hypothesis fin_mark : ∀ row, fin (mark row) = true.

Hypothesis push_step : ∀ rid w row,
  _is_online w = true → remote_conn w = true → tbl w !! rid = Some row →
  (push rid w).1 = negb (remote_raises (remote_rounds w)) && good w rid row
  ∧ remote_rounds (push rid w).2 = S (remote_rounds w)
  ∧ _is_online (push rid w).2 = true
  ∧ remote_conn (push rid w).2 = true
  ∧ frame (push rid w).2 = frame w
  ∧ tbl (push rid w).2
    = if (push rid w).1 then <[rid := mark row]> (tbl w) else tbl w.

(** The loop over rows that are not yet [fin]: the count is the number of
    rows that end [fin]; the i-th row is marked exactly when its round
    does not raise and the remote, in the state the pushes before it
    left, accepts it. *)
Lemma push_loop_spec (ids : list string) :
  ∀ n w,
    _is_online w = true → remote_conn w = true → NoDup ids →
    (∀ rid, rid ∈ ids → ∃ row, tbl w !! rid = Some row ∧ fin row = false) →
    let r := push_loop push ids n w in
    r.1 = n + length (filter (λ rid, from_option fin false (tbl r.2 !! rid) = true) ids)
    ∧ remote_rounds r.2 = remote_rounds w + length ids
    ∧ _is_online r.2 = true ∧ remote_conn r.2 = true
    ∧ frame r.2 = frame w
    ∧ (∀ i, frame (push_loop push (take i ids) 0 w).2 = frame w)
    ∧ (∀ i rid row, ids !! i = Some rid → tbl w !! rid = Some row →
         tbl r.2 !! rid
         = Some (if negb (remote_raises (remote_rounds w + i))
                    && good (push_loop push (take i ids) 0 w).2 rid row
                 then mark row else row))
    ∧ (∀ rid, rid ∉ ids → tbl r.2 !! rid = tbl w !! rid).
Proof.
  induction ids as [|rid rest IH]; intros n w Hon Hconn Hnd Hin.
  { simpl. repeat split; try done; try lia. intros i. by rewrite take_nil. }
  apply NoDup_cons in Hnd as [Hnotin Hnd].
  destruct (Hin rid) as (row & Hrow & Hfin); [apply elem_of_cons; by left|].
  destruct (push_step rid w row Hon Hconn Hrow)
    as (Hok & Hround & Hon1 & Hconn1 & Hframe & Htbl).
  assert (Hother : ∀ k, k ≠ rid → tbl (push rid w).2 !! k = tbl w !! k).
  { intros k Hk. rewrite Htbl. destruct (push rid w).1; [|done].
    by rewrite lookup_insert_ne. }
  assert (Hprefix : ∀ i m, (push_loop push (take (S i) (rid :: rest)) m w).2
                           = (push_loop push (take i rest) 0 (push rid w).2).2).
  { intros i m. simpl. destruct (push rid w) as [ok' v']. simpl.
    apply push_loop_counter. }
  cbv zeta. cbn [push_loop].
  destruct (push rid w) as [ok w1] eqn:Hp. cbn [fst snd] in *.
  specialize (IH (if ok then S n else n) w1 Hon1 Hconn1 Hnd).
  destruct IH as (Hn & Hr & Hon' & Hconn' & Hfr & Hpre & Hidx & Hrest).
  { intros k Hk. destruct (Hin k) as (rowk & Hk1 & Hk2);
      [apply elem_of_cons; by right|].
    exists rowk. split; [|done]. rewrite Hother; [done|].
    intros ->. done. }
  set (r := push_loop push rest (if ok then S n else n) w1) in *.
  assert (Hhead : tbl r.2 !! rid = Some (if ok then mark row else row)).
  { rewrite Hrest by done. rewrite Htbl.
    destruct ok; [by rewrite lookup_insert_eq | done]. }
  split; [|split; [|split; [done|split; [done|split; [congruence|split; [|split]]]]]].
  - rewrite Hn, filter_cons. destruct ok.
    + rewrite decide_True; [simpl; lia|]. rewrite Hhead. simpl. apply fin_mark.
    + rewrite decide_False; [simpl; lia|]. rewrite Hhead. simpl.
      rewrite Hfin. done.
  - rewrite Hr, Hround. simpl. lia.
  - intros [|i]; [done|]. rewrite Hprefix, Hpre. done.
  - intros i k row' Hi Hk. destruct i as [|i]; simpl in Hi.
    + injection Hi as <-. rewrite Hrow in Hk. injection Hk as <-.
      rewrite Hhead, Nat.add_0_r. simpl take. cbn [push_loop snd].
      rewrite <- Hok. done.
    + assert (k ≠ rid) as Hne.
      { intros ->. apply Hnotin. eapply list_elem_of_lookup_2. done. }
      rewrite Hprefix.
      rewrite (Hidx i k row' Hi) by (by rewrite Hother).
      rewrite Hround. by replace (S (remote_rounds w) + i)
        with (remote_rounds w + S i) by lia.
  - intros k Hk. apply not_elem_of_cons in Hk as [Hne Hk].
    rewrite Hrest by done. by apply Hother.
Qed.
End PushLoop.

Lemma push_user_step (rid : string) (w : DatabaseManager) (row : User.row) :
  _is_online w = true → remote_conn w = true →
  users (local_conn w) !! rid = Some row →
  (_sync_user_to_remote rid w).1
    = negb (remote_raises (remote_rounds w))
      && negb (orphans_pets rid row (remote_db w))
  ∧ remote_rounds (_sync_user_to_remote rid w).2 = S (remote_rounds w)
  ∧ _is_online (_sync_user_to_remote rid w).2 = true
  ∧ remote_conn (_sync_user_to_remote rid w).2 = true
  ∧ (λ v, (pets (local_conn v), sync_log (local_conn v), pets (remote_db v),
           clock_reads v, ids_drawn v)) (_sync_user_to_remote rid w).2
    = (pets (local_conn w), sync_log (local_conn w), pets (remote_db w),
       clock_reads w, ids_drawn w)
  ∧ users (local_conn (_sync_user_to_remote rid w).2)
    = if (_sync_user_to_remote rid w).1
      then <[rid := User.set_sync_status "synced" row]> (users (local_conn w))
      else users (local_conn w).
Proof.
  intros Hon Hconn Hrow. unfold _sync_user_to_remote, remote_round.
  rewrite Hon, Hconn, Hrow. simpl.
  destruct (remote_raises (remote_rounds w)); simpl; [done|].
  unfold insert_or_replace_user.
  change (orphans_pets rid (User.set_sync_status "synced" row) (remote_db w))
    with (orphans_pets rid row (remote_db w)).
  destruct (orphans_pets rid row (remote_db w)); simpl; [done|].
  repeat split; try done.
  apply map_eq. intros k. rewrite lookup_alter, lookup_insert.
  case_decide; subst; [by rewrite Hrow | done].
Qed.

Lemma push_pet_step (rid : string) (w : DatabaseManager) (row : Pet.row) :
  _is_online w = true → remote_conn w = true →
  pets (local_conn w) !! rid = Some row →
  (_sync_pet_to_remote rid w).1
    = negb (remote_raises (remote_rounds w))
      && (Pet.not_null row && has_owner row (remote_db w))
  ∧ remote_rounds (_sync_pet_to_remote rid w).2 = S (remote_rounds w)
  ∧ _is_online (_sync_pet_to_remote rid w).2 = true
  ∧ remote_conn (_sync_pet_to_remote rid w).2 = true
  ∧ (λ v, (users (local_conn v), sync_log (local_conn v), users (remote_db v),
           clock_reads v, ids_drawn v)) (_sync_pet_to_remote rid w).2
    = (users (local_conn w), sync_log (local_conn w), users (remote_db w),
       clock_reads w, ids_drawn w)
  ∧ pets (local_conn (_sync_pet_to_remote rid w).2)
    = if (_sync_pet_to_remote rid w).1
      then <[rid := Pet.set_sync_status "synced" row]> (pets (local_conn w))
      else pets (local_conn w).
Proof.
  intros Hon Hconn Hrow. unfold _sync_pet_to_remote, remote_round.
  rewrite Hon, Hconn, Hrow. simpl.
  destruct (remote_raises (remote_rounds w)); simpl; [done|].
  unfold insert_or_replace_pet.
  change (Pet.not_null (Pet.set_sync_status "synced" row))
    with (Pet.not_null row).
  change (has_owner (Pet.set_sync_status "synced" row) (remote_db w))
    with (has_owner row (remote_db w)).
  destruct (Pet.not_null row); simpl; [|done].
  destruct (has_owner row (remote_db w)); simpl; [|done].
  repeat split; try done.
  apply map_eq. intros k. rewrite lookup_alter, lookup_insert.
  case_decide; subst; [by rewrite Hrow | done].
Qed.

Lemma pending_user_ids_spec (d : Db) (uid : string) :
  uid ∈ pending_user_ids d
  ↔ ∃ row, users d !! uid = Some row ∧ User.sync_status row = "pending".
Proof.
  unfold pending_user_ids. rewrite list_elem_of_fmap. split.
  - intros [[k row] [-> Hin]]. apply elem_of_map_to_list in Hin.
    apply map_lookup_filter_Some in Hin as [Hk Hp]. eauto.
  - intros [row [Hk Hp]]. exists (uid, row). split; [done|].
    apply elem_of_map_to_list, map_lookup_filter_Some. done.
Qed.

Lemma pending_pet_ids_spec (d : Db) (pid : string) :
  pid ∈ pending_pet_ids d
  ↔ ∃ row, pets d !! pid = Some row ∧ Pet.sync_status row = "pending".
Proof.
  unfold pending_pet_ids. rewrite list_elem_of_fmap. split.
  - intros [[k row] [-> Hin]]. apply elem_of_map_to_list in Hin.
    apply map_lookup_filter_Some in Hin as [Hk Hp]. eauto.
  - intros [row [Hk Hp]]. exists (pid, row). split; [done|].
    apply elem_of_map_to_list, map_lookup_filter_Some. done.
Qed.

Lemma length_filter_ext {A : Type} (P Q : A → Prop)
    `{!∀ x, Decision (P x)} `{!∀ x, Decision (Q x)} (l : list A) :
  (∀ x, x ∈ l → P x ↔ Q x) →
  length (filter P l) = length (filter Q l).
Proof.
  induction l as [|x l IH]; intros Hext; [done|].
  assert (length (filter P l) = length (filter Q l)) as Hl.
  { apply IH. intros y Hy. apply Hext, elem_of_cons. by right. }
  assert (P x ↔ Q x) as Hx by (apply Hext, elem_of_cons; by left).
  rewrite !filter_cons.
  destruct (decide (P x)), (decide (Q x)); simpl; try tauto; by rewrite ?Hl.
Qed.

Lemma pending_not_synced (s : string) :
  s = "pending" → bool_decide (s = "synced") = false.
Proof. intros ->. by vm_compute. Qed.

(** C5: once connected, [sync_all_pending] enumerates exactly the rows
    with [sync_status = 'pending'] of [users] and then of [pets] and makes
    one push attempt for each of them, whatever happened to the rows
    before it.  An attempt goes through when its remote call does not
    raise and the remote accepts the row (for a user, in the state the
    pushes before it left); the row is then synced, otherwise it is left
    as it was, pending, and every other row is untouched.  The counts
    returned are, per table, the number of the enumerated rows that are
    synced afterwards. *)
Theorem sync_all_pending_partial (w w0 : DatabaseManager) :
  check_connection w = (true, w0) →
  let d := local_conn w in
  let us := pending_user_ids d in
  let ps := pending_pet_ids d in
  let r0 := remote_rounds w0 in
  let res := sync_all_pending w in
  let d' := local_conn res.2 in
  res.1 = push_result
            (length (filter (λ uid, User.sync_status <$> users d' !! uid
                                    = Some "synced") us))
            (length (filter (λ pid, Pet.sync_status <$> pets d' !! pid
                                    = Some "synced") ps))
            "online"
  ∧ remote_rounds res.2 = r0 + length us + length ps
  ∧ (∀ uid, uid ∈ us ↔ ∃ row, users d !! uid = Some row
                               ∧ User.sync_status row = "pending")
  ∧ (∀ pid, pid ∈ ps ↔ ∃ row, pets d !! pid = Some row
                               ∧ Pet.sync_status row = "pending")
  ∧ (∀ i uid row, us !! i = Some uid → users d !! uid = Some row →
       let remote :=
         remote_db (push_loop _sync_user_to_remote (take i us) 0 w0).2 in
       users d' !! uid
       = Some (if remote_raises (r0 + i) || orphans_pets uid row remote
               then row else User.set_sync_status "synced" row))
  ∧ (∀ j pid row, ps !! j = Some pid → pets d !! pid = Some row →
       pets d' !! pid
       = Some (if remote_raises (r0 + length us + j)
                  || negb (Pet.not_null row)
                  || negb (has_owner row (remote_db res.2))
               then row else Pet.set_sync_status "synced" row))
  ∧ (∀ uid, uid ∉ us → users d' !! uid = users d !! uid)
  ∧ (∀ pid, pid ∉ ps → pets d' !! pid = pets d !! pid).
Proof.
  intros Hc d us ps r0 res d'.
  destruct (check_connection_true _ _ Hc) as (Hon & Hconn & Hl & Hr & Hrounds).
  assert (Hus : ∀ uid, uid ∈ us →
            ∃ row, users (local_conn w0) !! uid = Some row
                   ∧ bool_decide (User.sync_status row = "synced") = false).
  { intros uid Hin. apply pending_user_ids_spec in Hin as [row [Hrow Hp]].
    rewrite Hl. exists row. split; [done|]. by apply pending_not_synced. }
  pose proof (push_loop_spec (λ v, users (local_conn v))
                (λ v rid row, negb (orphans_pets rid row (remote_db v)))
                (User.set_sync_status "synced")
                (λ row, bool_decide (User.sync_status row = "synced"))
                _ _sync_user_to_remote (λ _, eq_refl)
                push_user_step us 0 w0 Hon Hconn
                (NoDup_fst_map_to_list _) Hus)
    as (Hn1 & Hr1 & Hon1 & Hconn1 & Hfr1 & _ & Hidx1 & Hrest1).
  set (l1 := push_loop _sync_user_to_remote us 0 w0) in *.
  injection Hfr1 as Hpets1 Hlog1 Hrpets1 Hclock1 Hids1.
  assert (Hps : ∀ pid, pid ∈ ps →
            ∃ row, pets (local_conn l1.2) !! pid = Some row
                   ∧ bool_decide (Pet.sync_status row = "synced") = false).
  { intros pid Hin. apply pending_pet_ids_spec in Hin as [row [Hrow Hp]].
    rewrite Hpets1, Hl. exists row. split; [done|].
    by apply pending_not_synced. }
  pose proof (push_loop_spec (λ v, pets (local_conn v))
                (λ v rid row, Pet.not_null row && has_owner row (remote_db v))
                (Pet.set_sync_status "synced")
                (λ row, bool_decide (Pet.sync_status row = "synced"))
                _ _sync_pet_to_remote (λ _, eq_refl)
                push_pet_step ps 0 l1.2 Hon1 Hconn1
                (NoDup_fst_map_to_list _) Hps)
    as (Hn2 & Hr2 & Hon2 & Hconn2 & Hfr2 & Hpre2 & Hidx2 & Hrest2).
  set (l2 := push_loop _sync_pet_to_remote ps 0 l1.2) in *.
  injection Hfr2 as Husers2 Hlog2 Hrusers2 Hclock2 Hids2.
  assert (Hres : res = (push_result l1.1 l2.1 "online", l2.2)).
  { assert (pending_pet_ids (local_conn l1.2) = ps) as Hsame.
    { unfold ps, pending_pet_ids. by rewrite Hpets1, Hl. }
    subst res. unfold sync_all_pending. rewrite Hc. simpl. rewrite Hl.
    change (push_loop _sync_user_to_remote (pending_user_ids (local_conn w)) 0 w0)
      with l1.
    rewrite (surjective_pairing l1), Hsame.
    change (push_loop _sync_pet_to_remote ps 0 l1.2) with l2.
    by rewrite (surjective_pairing l2). }
  subst d'. rewrite Hres. simpl.
  split; [|split; [|split; [|split; [|split; [|split; [|split]]]]]].
  - rewrite Hn1, Hn2. simpl.
    rewrite (length_filter_ext _
               (λ uid, User.sync_status <$> users (local_conn l2.2) !! uid
                       = Some "synced") us).
    2:{ intros uid _. rewrite Husers2.
        destruct (users (local_conn l1.2) !! uid) as [row|]; simpl; [|done].
        rewrite bool_decide_eq_true.
        split; [by intros -> | by intros [= ->]]. }
    rewrite (length_filter_ext _
               (λ pid, Pet.sync_status <$> pets (local_conn l2.2) !! pid
                       = Some "synced") ps); [done|].
    intros pid _.
    destruct (pets (local_conn l2.2) !! pid) as [row|]; simpl; [|done].
    rewrite bool_decide_eq_true. split; [by intros -> | by intros [= ->]].
  - rewrite Hr2, Hr1. done.
  - apply pending_user_ids_spec.
  - apply pending_pet_ids_spec.
  - intros i uid row Hi Hrow.
    rewrite Husers2, (Hidx1 i uid row Hi) by (by rewrite Hl).
    subst r0. destruct (remote_raises (remote_rounds w0 + i)); simpl; [done|].
    by destruct (orphans_pets uid row _).
  - intros j pid row Hj Hrow.
    rewrite (Hidx2 j pid row Hj) by (by rewrite Hpets1, Hl).
    rewrite Hr1. subst r0.
    destruct (remote_raises (remote_rounds w0 + length us + j)); simpl;
      [done|].
    destruct (Pet.not_null row); simpl; [|done].
    assert (has_owner row (remote_db (push_loop _sync_pet_to_remote (take j ps) 0 l1.2).2)
            = has_owner row (remote_db l2.2)) as ->.
    { unfold has_owner. specialize (Hpre2 j). injection Hpre2 as _ _ Hu _ _.
      by rewrite Hu, Hrusers2. }
    by destruct (has_owner row (remote_db l2.2)).
  - intros uid Hn. rewrite Husers2, Hrest1 by done. by rewrite Hl.
  - intros pid Hn. rewrite Hrest2 by done. by rewrite Hpets1, Hl.
Qed.

(** *** Pull *)

Lemma ltb_irrefl (s : string) : (s <? s)%string = false.
Proof.
  unfold String.ltb. pose proof (String.compare_antisym s s) as H.
  by destruct (String.compare s s).
Qed.

Lemma remote_wins_insert_ne (t : gmap string Pet.row) (k pid : string)
    (x r : Pet.row) :
  k ≠ pid → remote_wins (<[k := x]> t) pid r = remote_wins t pid r.
Proof. intros Hne. unfold remote_wins. by rewrite lookup_insert_ne. Qed.




(** *** Journal and immediate push *)

Lemma _log_change_fresh (table rid op : string) (w : DatabaseManager) :
  uuid4 (ids_drawn w) ∉ map Log.id (sync_log (local_conn w)) →
  let r := _log_change table rid op w in
  r.1 = true
  ∧ sync_log (local_conn r.2)
    = (sync_log (local_conn w)
       ++ [Log.mk (uuid4 (ids_drawn w)) table rid op (utcnow (clock_reads w)) 0])%list
  ∧ users (local_conn r.2) = users (local_conn w)
  ∧ pets (local_conn r.2) = pets (local_conn w)
  ∧ remote_db r.2 = remote_db w
  ∧ _is_online r.2 = _is_online w ∧ remote_conn r.2 = remote_conn w
  ∧ remote_rounds r.2 = remote_rounds w.
Proof.
  intros Hfresh. unfold _log_change, insert_log. simpl.
  by rewrite bool_decide_eq_false_2.
Qed.

Lemma _log_change_frame (table rid op : string) (w : DatabaseManager) :
  let r := _log_change table rid op w in
  users (local_conn r.2) = users (local_conn w)
  ∧ pets (local_conn r.2) = pets (local_conn w)
  ∧ remote_db r.2 = remote_db w
  ∧ _is_online r.2 = _is_online w ∧ remote_conn r.2 = remote_conn w
  ∧ remote_rounds r.2 = remote_rounds w
  ∧ (r.1 = false → local_conn r.2 = local_conn w).
Proof.
  unfold _log_change, insert_log. simpl.
  case_bool_decide; simpl; repeat split; done.
Qed.

(** What a push of one pet can do, from any state. *)
Lemma _sync_pet_to_remote_cases (pid : string) (w : DatabaseManager) :
  let r := _sync_pet_to_remote pid w in
  sync_log (local_conn r.2) = sync_log (local_conn w)
  ∧ users (local_conn r.2) = users (local_conn w)
  ∧ _is_online r.2 = _is_online w
  ∧ clock_reads r.2 = clock_reads w ∧ ids_drawn r.2 = ids_drawn w
  ∧ ((r.1 = false ∧ local_conn r.2 = local_conn w ∧ remote_db r.2 = remote_db w)
     ∨ (r.1 = true ∧ _is_online w = true
        ∧ ∃ row, pets (local_conn w) !! pid = Some row
                 ∧ pets (local_conn r.2)
                   = <[pid := Pet.set_sync_status "synced" row]> (pets (local_conn w))
                 ∧ pets (remote_db r.2) !! pid
                   = Some (Pet.set_sync_status "synced" row))).
Proof.
  unfold _sync_pet_to_remote, remote_round.
  destruct (_is_online w) eqn:Hon; simpl; [|by repeat split; try left].
  destruct (remote_conn w); simpl; [|by repeat split; try left].
  destruct (pets (local_conn w) !! pid) as [row|] eqn:Hrow;
    [|by repeat split; try left].
  destruct (remote_raises (remote_rounds w)); simpl;
    [by repeat split; try left|].
  unfold insert_or_replace_pet.
  destruct (Pet.not_null (Pet.set_sync_status "synced" row)); simpl;
    [|by repeat split; try left].
  destruct (has_owner (Pet.set_sync_status "synced" row) (remote_db w)); simpl;
    [|by repeat split; try left].
  repeat split; try done. right. repeat split; try done.
  exists row. split; [done|]. split; [|by rewrite lookup_insert_eq].
  apply map_eq. intros k. rewrite lookup_alter, lookup_insert.
  case_decide; subst; [by rewrite Hrow | done].
Qed.

Lemma _sync_user_to_remote_frame (uid : string) (w : DatabaseManager) :
  let r := _sync_user_to_remote uid w in
  sync_log (local_conn r.2) = sync_log (local_conn w)
  ∧ pets (local_conn r.2) = pets (local_conn w)
  ∧ _is_online r.2 = _is_online w
  ∧ clock_reads r.2 = clock_reads w ∧ ids_drawn r.2 = ids_drawn w.
Proof.
  unfold _sync_user_to_remote, remote_round.
  destruct (_is_online w) eqn:Hon; simpl; [|done].
  destruct (remote_conn w); simpl; [|done].
  destruct (users (local_conn w) !! uid); [|done].
  destruct (remote_raises (remote_rounds w)); simpl; [by rewrite ?Hon|].
  destruct (insert_or_replace_user _ _ _); simpl; by rewrite ?Hon.
Qed.

Lemma sync_pet_if_online_log (pid : string) (w : DatabaseManager) :
  sync_log (local_conn (sync_if_online _sync_pet_to_remote pid w))
  = sync_log (local_conn w).
Proof.
  unfold sync_if_online. destruct (_is_online w); [|done].
  apply _sync_pet_to_remote_cases.
Qed.

Lemma sync_user_if_online_log (uid : string) (w : DatabaseManager) :
  sync_log (local_conn (sync_if_online _sync_user_to_remote uid w))
  = sync_log (local_conn w).
Proof.
  unfold sync_if_online. destruct (_is_online w); [|done].
  apply _sync_user_to_remote_frame.
Qed.

(** [create_pet] after its two readings of the environment. *)
Lemma create_pet_unfold (user_id : string)
    (name species breed age weight notes : value) (w : DatabaseManager) :
  create_pet user_id name species breed age weight notes w
  = let pet_id := uuid4 (ids_drawn w) in
    let w2 := (_get_timestamp (_generate_id w).2).2 in
    match bind_pet user_id name species breed age weight notes
                   (utcnow (clock_reads w))
            ≫= λ row, insert_pet pet_id row (local_conn w) with
    | None => (None, w2)
    | Some d =>
        let l := _log_change "pets" pet_id "INSERT" (set_local d w2) in
        if l.1 then (Some pet_id, sync_if_online _sync_pet_to_remote pet_id l.2)
        else (None, l.2)
    end.
Proof.
  unfold create_pet. cbn [_generate_id _get_timestamp fst snd].
  cbv zeta. cbn [local_conn clock_reads ids_drawn].
  destruct (bind_pet _ _ _ _ _ _ _ _ ≫= _); [|done].
  by destruct (_log_change _ _ _ _) as [[] ?].
Qed.

(** [update_pet] never gets as far as its [UPDATE]: [execute] refuses the
    list of parameters, the method returns [False], and all that has
    happened is one reading of the clock. *)
Lemma update_pet_refused (pet_id : string) (kwargs : gmap string value)
    (w : DatabaseManager) :
  (update_pet pet_id kwargs w).1 = false
  ∧ local_conn (update_pet pet_id kwargs w).2 = local_conn w
  ∧ remote_db (update_pet pet_id kwargs w).2 = remote_db w
  ∧ remote_rounds (update_pet pet_id kwargs w).2 = remote_rounds w
  ∧ _is_online (update_pet pet_id kwargs w).2 = _is_online w
  ∧ remote_conn (update_pet pet_id kwargs w).2 = remote_conn w
  ∧ ids_drawn (update_pet pet_id kwargs w).2 = ids_drawn w.
Proof.
  unfold update_pet. case_bool_decide; done.
Qed.

(** C7: each local mutation whose row write succeeded is followed by
    exactly one new [sync_log] entry, with [synced = 0], naming the table,
    the record and the operation, and then reports success; a mutation
    whose row write failed leaves the local database, journal included, as
    it was.  The row write of [update_pet] never succeeds (its parameters
    are refused), so it never appends an entry and never changes a row.
    The identifiers drawn from [uuid4] are taken to be new in the
    journal. *)
Theorem journal_entry_per_mutation (w : DatabaseManager) :
  (∀ n, (ids_drawn w ≤ n)%nat →
        uuid4 n ∉ map Log.id (sync_log (local_conn w))) →
  let rid := uuid4 (ids_drawn w) in
  let ts := utcnow (clock_reads w) in
  (∀ username password_hash,
     let r := create_user username password_hash w in
     match insert_user rid (User.mk username password_hash ts ts 0 "pending")
             (local_conn w) with
     | Some _ =>
         r.1 = Some rid
         ∧ journal_appended w r.2 (uuid4 (S (ids_drawn w))) "users" rid "INSERT"
     | None => r.1 = None ∧ local_conn r.2 = local_conn w
     end)
  ∧ (∀ user_id name species breed age weight notes,
     let r := create_pet user_id name species breed age weight notes w in
     match bind_pet user_id name species breed age weight notes ts
             ≫= λ row, insert_pet rid row (local_conn w) with
     | Some _ =>
         r.1 = Some rid
         ∧ journal_appended w r.2 (uuid4 (S (ids_drawn w))) "pets" rid "INSERT"
     | None => r.1 = None ∧ local_conn r.2 = local_conn w
     end)
  ∧ (∀ pet_id kwargs,
     let r := update_pet pet_id kwargs w in
     r.1 = false ∧ local_conn r.2 = local_conn w)
  ∧ (∀ pet_id,
     let r := delete_pet pet_id w in
     r.1 = true ∧ journal_appended w r.2 rid "pets" pet_id "DELETE").
Proof.
  intros Hfresh rid ts.
  assert (Hf0 := Hfresh (ids_drawn w) (le_n _)).
  assert (Hf1 := Hfresh (S (ids_drawn w)) (le_S _ _ (le_n _))).
  unfold journal_appended.
  split; [|split; [|split]].
  - intros username password_hash. unfold create_user. simpl.
    fold rid ts.
    destruct (insert_user rid _ (local_conn w)) as [d|] eqn:Hins; [|done].
    assert (sync_log d = sync_log (local_conn w)) as Hd.
    { unfold insert_user in Hins. destruct (users (local_conn w) !! rid); [done|].
      destruct (username_taken _ _); [done|]. by injection Hins as <-. }
    match goal with |- context [_log_change ?t ?i ?o ?v] =>
      destruct (_log_change_fresh t i o v) as (Hok & Hlog & _);
        [simpl; by rewrite Hd|];
      destruct (_log_change t i o v) as [ok v'] eqn:Hl end.
    simpl in Hok, Hlog. subst ok. simpl.
    by rewrite sync_user_if_online_log, Hlog, Hd.
  - intros user_id name species breed age weight notes.
    rewrite create_pet_unfold. fold rid ts. cbv zeta.
    destruct (bind_pet _ _ _ _ _ _ _ _ ≫= _) as [d|] eqn:Hins; [|by simpl].
    assert (sync_log d = sync_log (local_conn w)) as Hd.
    { apply bind_Some in Hins as (row & _ & Hins).
      unfold insert_pet in Hins. destruct (pets (local_conn w) !! rid); [done|].
      destruct (_ && _); [|done]. by injection Hins as <-. }
    match goal with |- context [_log_change ?t ?i ?o ?v] =>
      destruct (_log_change_fresh t i o v) as (Hok & Hlog & _);
        [simpl; by rewrite Hd|];
      destruct (_log_change t i o v) as [ok v'] eqn:Hl end.
    simpl in Hok, Hlog. subst ok. simpl.
    by rewrite sync_pet_if_online_log, Hlog, Hd.
  - intros pet_id kwargs.
    destruct (update_pet_refused pet_id kwargs w) as (Hno & Hsame & _).
    by split.
  - intros pet_id. unfold delete_pet. simpl.
    match goal with |- context [_log_change ?t ?i ?o ?v] =>
      destruct (_log_change_fresh t i o v) as (Hok & Hlog & _);
        [done|];
      destruct (_log_change t i o v) as [ok v'] eqn:Hl end.
    simpl in Hok, Hlog. subst ok. simpl.
    by rewrite sync_pet_if_online_log, Hlog.
Qed.

(** *** The row left by a mutation *)

(** After the row write left [r1] at [pid]: the journal append and the
    immediate push leave either [r1] itself or, when the push went
    through, [r1] marked synced, which is then also the remote row. *)
Lemma after_row_write (op pid : string) (w1 : DatabaseManager) (r1 : Pet.row) :
  pets (local_conn w1) !! pid = Some r1 →
  let l := _log_change "pets" pid op w1 in
  let w' := if l.1 then sync_if_online _sync_pet_to_remote pid l.2 else l.2 in
  (pets (local_conn w') !! pid = Some r1
   ∨ (_is_online w1 = true
      ∧ pets (local_conn w') !! pid = Some (Pet.set_sync_status "synced" r1)
      ∧ pets (remote_db w') !! pid = Some (Pet.set_sync_status "synced" r1)))
  ∧ (_is_online w1 = false → pets (local_conn w') !! pid = Some r1)
  ∧ (∀ k, k ≠ pid → pets (local_conn w') !! k = pets (local_conn w1) !! k).
Proof.
  intros Hrow.
  destruct (_log_change_frame "pets" pid op w1)
    as (_ & Hpets & _ & Hon & _ & _ & _).
  destruct (_log_change "pets" pid op w1) as [logged v] eqn:Hl.
  simpl in *. destruct logged; simpl.
  - unfold sync_if_online. rewrite Hon.
    destruct (_is_online w1) eqn:Hon1; simpl.
    + destruct (_sync_pet_to_remote_cases pid v)
        as (_ & _ & _ & _ & _ & [(_ & Hsame & _) | (_ & _ & row & Hr & Hp & Hrem)]).
      * rewrite Hsame, Hpets. split; [by left|]. split; done.
      * rewrite Hpets, Hrow in Hr. injection Hr as <-.
        rewrite Hp, Hrem, Hpets. split; [|split; [done|]].
        -- right. by rewrite lookup_insert_eq.
        -- intros k Hk. by rewrite lookup_insert_ne.
    + rewrite Hpets. split; [by left|]. split; done.
  - rewrite Hpets. split; [by left|]. split; done.
Qed.

(** C8: soft-deleting an existing pet keeps its row, with [is_deleted = 1],
    the new timestamp and [sync_status = 'pending'] (turned to synced only
    by a push that went through, in which case the remote row is that very
    row); the normal read [get_pet_by_id] no longer returns it; and after
    any push of a soft-deleted row that went through, the remote copy has
    [is_deleted = 1], the local row is still there and the normal read
    still returns nothing. *)
Theorem soft_delete_propagates (pid : string) (w : DatabaseManager)
    (row : Pet.row) :
  pets (local_conn w) !! pid = Some row →
  let r := delete_pet pid w in
  let gone := soft_delete (utcnow (clock_reads w)) row in
  Pet.is_deleted gone = 1%Z ∧ Pet.sync_status gone = "pending"
  ∧ (pets (local_conn r.2) !! pid = Some gone
     ∨ (pets (local_conn r.2) !! pid = Some (Pet.set_sync_status "synced" gone)
        ∧ pets (remote_db r.2) !! pid = Some (Pet.set_sync_status "synced" gone)))
  ∧ (_is_online w = false → pets (local_conn r.2) !! pid = Some gone)
  ∧ get_pet_by_id pid r.2 = None
  ∧ (∀ v row1,
       pets (local_conn v) !! pid = Some row1 → Pet.is_deleted row1 = 1%Z →
       (_sync_pet_to_remote pid v).1 = true →
       Pet.is_deleted <$> pets (remote_db (_sync_pet_to_remote pid v).2) !! pid
       = Some 1%Z
       ∧ is_Some (pets (local_conn (_sync_pet_to_remote pid v).2) !! pid)
       ∧ get_pet_by_id pid (_sync_pet_to_remote pid v).2 = None).
Proof.
  intros Hrow r gone.
  set (w1 := set_local (delete_pet_row (utcnow (clock_reads w)) pid
                          (local_conn (_get_timestamp w).2))
                       (_get_timestamp w).2).
  assert (Hw1 : pets (local_conn w1) !! pid = Some gone).
  { subst w1. simpl. rewrite lookup_alter_eq, Hrow. done. }
  destruct (after_row_write "DELETE" pid w1 gone Hw1) as (Hcases & Hoff & _).
  assert (Hr : r.2 = if (_log_change "pets" pid "DELETE" w1).1
                     then sync_if_online _sync_pet_to_remote pid
                            (_log_change "pets" pid "DELETE" w1).2
                     else (_log_change "pets" pid "DELETE" w1).2).
  { subst r w1. unfold delete_pet. simpl.
    match goal with |- context [_log_change ?t ?i ?o ?v] =>
      by destruct (_log_change t i o v) as [[] ?] end. }
  rewrite Hr. split; [done|]. split; [done|].
  split; [|split; [|split]].
  - destruct Hcases as [H | (_ & H1 & H2)]; [by left | by right].
  - exact Hoff.
  - unfold get_pet_by_id.
    destruct Hcases as [H | (_ & H & _)]; by rewrite H.
  - intros v row1 Hv Hdel Hok.
    destruct (_sync_pet_to_remote_cases pid v)
      as (_ & _ & _ & _ & _ & [(Hno & _) | (_ & _ & row2 & Hr2 & Hp & Hrem)]);
      [congruence|].
    rewrite Hv in Hr2. injection Hr2 as <-.
    unfold get_pet_by_id. rewrite Hrem, Hp, lookup_insert_eq. simpl.
    rewrite Hdel. done.
Qed.

Lemma stamped_cases (pid : string) (w' : DatabaseManager) (online : bool)
    (r1 : Pet.row) (now created : string) :
  Pet.updated_at r1 = now → Pet.created_at r1 = created →
  Pet.sync_status r1 = "pending" →
  (pets (local_conn w') !! pid = Some r1
   ∨ (online = true
      ∧ pets (local_conn w') !! pid = Some (Pet.set_sync_status "synced" r1)
      ∧ pets (remote_db w') !! pid = Some (Pet.set_sync_status "synced" r1))) →
  (online = false → pets (local_conn w') !! pid = Some r1) →
  ∃ row', pets (local_conn w') !! pid = Some row'
    ∧ Pet.updated_at row' = now
    ∧ Pet.created_at row' = created
    ∧ (Pet.sync_status row' = "pending"
       ∨ (Pet.sync_status row' = "synced"
          ∧ pets (remote_db w') !! pid = Some row'))
    ∧ (online = false → Pet.sync_status row' = "pending").
Proof.
  intros Hu Hc Hs [H | (Hon & H1 & H2)] Hoff.
  - exists r1. repeat split; try done. by left.
  - exists (Pet.set_sync_status "synced" r1). repeat split; try done.
    + by right.
    + intros ->. done.
Qed.

(** What [bind_pet] hands to the [INSERT]. *)
Lemma bind_pet_Some (user_id : string)
    (name species breed age weight notes : value) (ts : string)
    (row : Pet.row) :
  bind_pet user_id name species breed age weight notes ts = Some row →
  store TEXT name = Some (Pet.name row)
  ∧ store TEXT species = Some (Pet.species row)
  ∧ store TEXT breed = Some (Pet.breed row)
  ∧ store INTEGER age = Some (Pet.age row)
  ∧ store REAL weight = Some (Pet.weight row)
  ∧ store TEXT notes = Some (Pet.notes row)
  ∧ Pet.user_id row = user_id
  ∧ Pet.created_at row = ts ∧ Pet.updated_at row = ts
  ∧ Pet.is_deleted row = 0%Z ∧ Pet.sync_status row = "pending".
Proof.
  unfold bind_pet. intros H.
  destruct (store TEXT name) as [n|]; [|done].
  destruct (store TEXT species) as [s|]; [|done].
  destruct (store TEXT breed) as [b|]; [|done].
  destruct (store INTEGER age) as [a|]; [|done].
  destruct (store REAL weight) as [x|]; [|done].
  destruct (store TEXT notes) as [t|]; [|done].
  simpl in H. injection H as <-. done.
Qed.

(** C6, as the code has it: a pet is created with
    [created_at = updated_at =] the clock reading of the call; a soft
    delete of an existing pet sets [updated_at] to the clock reading of the
    call, keeps [created_at] and writes [sync_status = 'pending'] (turned
    to synced only by an immediate push that went through).  The reading
    is stored without being compared with the stored timestamps; so
    [updated_at] advances strictly, and stays after [created_at], for a
    row stamped by earlier readings of a clock whose reading at the call
    is later than all of them. *)
Theorem mutation_stamps_clock (pid : string) (w : DatabaseManager)
    (row : Pet.row) :
  pets (local_conn w) !! pid = Some row →
  let now := utcnow (clock_reads w) in
  (let r := delete_pet pid w in
     ∃ row', pets (local_conn r.2) !! pid = Some row'
       ∧ Pet.updated_at row' = now
       ∧ Pet.created_at row' = Pet.created_at row
       ∧ (Pet.sync_status row' = "pending"
          ∨ (Pet.sync_status row' = "synced"
             ∧ pets (remote_db r.2) !! pid = Some row'))
       ∧ (_is_online w = false → Pet.sync_status row' = "pending")
       ∧ ((∀ k, (k < clock_reads w)%nat → (utcnow k <? now)%string = true) →
          ∀ i j : nat, (i ≤ j)%nat → (j < clock_reads w)%nat →
            Pet.created_at row = utcnow i → Pet.updated_at row = utcnow j →
            (Pet.updated_at row <? Pet.updated_at row')%string = true
            ∧ (Pet.created_at row' <? Pet.updated_at row')%string = true))
  ∧ (∀ user_id name species breed age weight notes new_id,
       let r := create_pet user_id name species breed age weight notes w in
       r.1 = Some new_id →
       ∃ row', pets (local_conn r.2) !! new_id = Some row'
         ∧ Pet.created_at row' = now ∧ Pet.updated_at row' = now).
Proof.
  intros Hrow now. split.
  - unfold delete_pet. simpl. fold now.
    set (r1 := soft_delete now row).
    match goal with |- context [_log_change ?t ?i ?o ?v] =>
      set (w1 := v) end.
    assert (Hw1 : pets (local_conn w1) !! pid = Some r1).
    { subst w1. simpl. by rewrite lookup_alter_eq, Hrow. }
    destruct (after_row_write "DELETE" pid w1 r1 Hw1) as (Hcases & Hoff & _).
    assert (∃ row', pets (local_conn
                            (if (_log_change "pets" pid "DELETE" w1).1
                             then sync_if_online _sync_pet_to_remote pid
                                    (_log_change "pets" pid "DELETE" w1).2
                             else (_log_change "pets" pid "DELETE" w1).2))
                      !! pid = Some row'
              ∧ Pet.updated_at row' = now
              ∧ Pet.created_at row' = Pet.created_at row
              ∧ (Pet.sync_status row' = "pending"
                 ∨ (Pet.sync_status row' = "synced"
                    ∧ pets (remote_db
                              (if (_log_change "pets" pid "DELETE" w1).1
                               then sync_if_online _sync_pet_to_remote pid
                                      (_log_change "pets" pid "DELETE" w1).2
                               else (_log_change "pets" pid "DELETE" w1).2))
                        !! pid = Some row'))
              ∧ (_is_online w = false → Pet.sync_status row' = "pending"))
      as (row' & Hrow' & Hts & Hcr & Hst & Hoffline).
    { by apply (stamped_cases pid _ (_is_online w) r1). }
    destruct (_log_change "pets" pid "DELETE" w1) as [[] v]; simpl in *.
    all: exists row'; split; [done|]; split; [done|]; split; [done|];
      split; [done|]; split; [done|].
    all: intros Hclock i j Hij Hj Hc Hu; rewrite Hts, Hcr, Hc, Hu;
      split; apply Hclock; lia.
  - intros user_id name species breed age weight notes new_id.
    rewrite create_pet_unfold. cbv zeta. fold now.
    destruct (bind_pet _ _ _ _ _ _ _ _ ≫= _) as [d|] eqn:Hins; [|done].
    apply bind_Some in Hins as (r1 & Hb & Hins).
    apply bind_pet_Some in Hb as (_ & _ & _ & _ & _ & _ & _ & Hc1 & Hu1 & _).
    unfold insert_pet in Hins.
    destruct (pets (local_conn w) !! uuid4 (ids_drawn w)); [done|].
    destruct (_ && _); [|done]. injection Hins as <-.
    match goal with |- context [_log_change ?t ?i ?o ?v] =>
      set (w1 := v) end.
    assert (Hw1 : pets (local_conn w1) !! uuid4 (ids_drawn w) = Some r1).
    { subst w1. simpl. by rewrite lookup_insert_eq. }
    destruct (after_row_write "INSERT" _ w1 r1 Hw1) as (Hcases & _ & _).
    destruct (_log_change "pets" (uuid4 (ids_drawn w)) "INSERT" w1)
      as [[] v]; [|done].
    simpl in *. intros [= <-].
    destruct Hcases as [H | (_ & H & _)]; rewrite H; eauto.
Qed.

(** *** Creation and the owner *)


(** *** Full sync *)

Lemma push_loop_online
    (push : string → DatabaseManager → bool * DatabaseManager)
    (ids : list string) :
  (∀ i v, _is_online (push i v).2 = _is_online v) →
  ∀ n w, _is_online (push_loop push ids n w).2 = _is_online w.
Proof.
  intros Hstep. induction ids as [|i rest IH]; intros n w; [done|].
  simpl. specialize (Hstep i w). destruct (push i w) as [ok v].
  rewrite IH. done.
Qed.

Lemma sync_all_pending_shape (w : DatabaseManager) :
  (∃ nu np st, (sync_all_pending w).1 = push_result nu np st)
  ∧ _is_online (sync_all_pending w).2 = (check_connection w).1.
Proof.
  unfold sync_all_pending.
  destruct (check_connection_frame w) as (_ & _ & _ & _ & Hon).
  destruct (check_connection w) as [[] w0]; simpl in *; [|by eauto].
  pose proof (push_loop_online _sync_user_to_remote
                (pending_user_ids (local_conn w0))
                (λ i v, proj1 (proj2 (proj2 (_sync_user_to_remote_frame i v))))
                0 w0) as H1.
  destruct (push_loop _sync_user_to_remote _ 0 w0) as [nu w1].
  pose proof (push_loop_online _sync_pet_to_remote
                (pending_pet_ids (local_conn w1))
                (λ i v, proj1 (proj2 (proj2 (_sync_pet_to_remote_cases i v))))
                0 w1) as H2.
  destruct (push_loop _sync_pet_to_remote _ 0 w1) as [np w2].
  simpl in *. split; [by eauto | congruence].
Qed.

Lemma pull_from_remote_shape (user_id : string) (w : DatabaseManager) :
  (∃ n st, (pull_from_remote user_id w).1 = pull_result n st)
  ∧ _is_online (pull_from_remote user_id w).2 = _is_online w.
Proof.
  unfold pull_from_remote.
  destruct (negb (_is_online w) || negb (remote_conn w)); [by eauto|].
  simpl. destruct (remote_raises (remote_rounds w)); [by eauto|].
  destruct (pull_loop _ 0 _) as [n d]. simpl. by eauto.
Qed.

(** C3, as the code has it: [full_sync] pushes everything pending first and
    pulls for the owner from the state the push left; [pushed] maps both
    [users] and [pets] to a count, [pulled] maps [pets] to a count and has
    no entry for [users] (users are never pulled); both carry a [status]
    text besides the counts; [is_online] is the outcome of the
    connection check made by the push. *)
Theorem full_sync_push_then_pull (user_id : string) (w : DatabaseManager) :
  let p := sync_all_pending w in
  let q := pull_from_remote user_id p.2 in
  let r := full_sync user_id w in
  r = (mkFullSync p.1 q.1 (check_connection w).1, q.2)
  ∧ maps_every_table (pushed r.1)
  ∧ (∃ n : nat, pulled r.1 !! "pets" = Some (VInt (Z.of_nat n)))
  ∧ pulled r.1 !! "users" = None
  ∧ (∃ st, pushed r.1 !! "status" = Some (VText st))
  ∧ (∃ st, pulled r.1 !! "status" = Some (VText st)).
Proof.
  intros p q r.
  destruct (sync_all_pending_shape w) as ((nu & np & st & Hp) & Hon).
  destruct (pull_from_remote_shape user_id p.2) as ((n & st' & Hq) & Hon').
  assert (Hr : r = (mkFullSync p.1 q.1 (check_connection w).1, q.2)).
  { clear Hp Hq. subst p q r. unfold full_sync.
    destruct (sync_all_pending w) as [p1 p2]. simpl in *.
    destruct (pull_from_remote user_id p2) as [q1 q2]. simpl in *.
    congruence. }
  split; [done|]. rewrite Hr. simpl.
  change p.1 with (sync_all_pending w).1.
  change q.1 with (pull_from_remote user_id p.2).1.
  rewrite Hp, Hq. unfold push_result, pull_result.
  split; [|split; [|split; [|split]]].
  - intros t Ht. unfold synchronizable in Ht.
    apply elem_of_cons in Ht as [-> | Ht].
    { exists nu. by rewrite lookup_insert_eq. }
    apply elem_of_cons in Ht as [-> | Ht]; [|by apply elem_of_nil in Ht].
    exists np. by rewrite lookup_insert_ne, lookup_insert_eq.
  - exists n. by rewrite lookup_insert_eq.
  - by rewrite lookup_insert_ne, lookup_singleton_ne.
  - exists st. by rewrite !lookup_insert_ne, lookup_singleton_eq.
  - exists st'. by rewrite lookup_insert_ne, lookup_singleton_eq.
Qed.

End Properties.

(** * The properties at sample inputs *)


Lemma push_record_outcome_witness :
  (_sync_pet_to_remote (E:=env_steady) "p1" w_online).1 = true
  ∧ pets (remote_db (_sync_pet_to_remote (E:=env_steady) "p1" w_online).2) !! "p1"
    = Some (Pet.set_sync_status "synced" rex)
  ∧ (_sync_pet_to_remote (E:=env_down) "p1" w_online).1 = false
  ∧ local_conn (_sync_pet_to_remote (E:=env_down) "p1" w_online).2
    = local_sample
  ∧ (_sync_pet_to_remote (E:=env_steady) "p1" w_unshared).1 = false
  ∧ local_conn (_sync_pet_to_remote (E:=env_steady) "p1" w_unshared).2
    = local_sample
  ∧ (_sync_user_to_remote (E:=env_steady) "u1" w_unshared).1 = true
  ∧ users (remote_db (_sync_user_to_remote (E:=env_steady) "u1" w_unshared).2)
      !! "u1" = Some (User.set_sync_status "synced" ann).
Proof.
  destruct (push_record_outcome (E:=env_steady) "p1" w_online eq_refl eq_refl)
    as [Hpet _].
  specialize (Hpet rex eq_refl).
  destruct (push_record_outcome (E:=env_down) "p1" w_online eq_refl eq_refl)
    as [Hfail _].
  specialize (Hfail rex eq_refl).
  destruct (push_record_outcome (E:=env_steady) "p1" w_unshared eq_refl eq_refl)
    as [Hfk _].
  specialize (Hfk rex eq_refl).
  destruct (push_record_outcome (E:=env_steady) "u1" w_unshared eq_refl eq_refl)
    as [_ Huser].
  specialize (Huser ann eq_refl).
  destruct (_sync_pet_to_remote (E:=env_steady) "p1" w_online) as [ok1 v1].
  destruct (_sync_pet_to_remote (E:=env_down) "p1" w_online) as [ok2 v2].
  destruct (_sync_pet_to_remote (E:=env_steady) "p1" w_unshared) as [ok3 v3].
  destruct (_sync_user_to_remote (E:=env_steady) "u1" w_unshared) as [ok4 v4].
  simpl in *.
  destruct Hpet as (-> & Hrem & _), Hfail as (-> & Hloc & _),
    Hfk as (-> & Hloc' & _), Huser as (-> & Hruser & _).
  done.
Defined.

Lemma offline_push_pull_noop_witness :
  sync_all_pending (E:=env_local_only) w_start
  = (push_result 0 0 "offline", w_start)
  ∧ pull_from_remote (E:=env_local_only) "u1" w_start
    = (pull_result 0 "offline", w_start).
Proof.
  destruct (offline_push_pull_noop (E:=env_local_only) "u1" w_start w_start
              eq_refl)
    as (Hpush & Hpull & _).
  done.
Defined.

Lemma sync_all_pending_partial_witness :
  let res := sync_all_pending (E:=env_flaky) w_start in
  res.1 = push_result 1 1 "online"
  ∧ remote_rounds res.2 = 5
  ∧ Pet.sync_status <$> pets (local_conn res.2) !! "p1" = Some "pending"
  ∧ Pet.sync_status <$> pets (local_conn res.2) !! "p2" = Some "synced"
  ∧ User.sync_status <$> users (local_conn res.2) !! "u1" = Some "synced"
  ∧ pets (local_conn res.2) !! "p3" = Some kim.
Proof.
  destruct (sync_all_pending_partial (E:=env_flaky) w_start
              (check_connection (E:=env_flaky) w_start).2 eq_refl)
    as (Hres & Hrounds & _ & _ & Hu & Hp & _ & Hrest).
  split; [|split; [|split; [|split; [|split]]]].
  - rewrite Hres. compute_done.
  - rewrite Hrounds. compute_done.
  - rewrite (Hp 0 "p1" rex); compute_done.
  - rewrite (Hp 1 "p2" tom); compute_done.
  - rewrite (Hu 0 "u1" ann); compute_done.
  - rewrite (Hrest "p3"); compute_done.
Defined.

Lemma journal_entry_per_mutation_witness :
  (delete_pet (E:=env_steady) "p1" w_start).1 = true
  ∧ sync_log (local_conn (delete_pet (E:=env_steady) "p1" w_start).2)
    = [Log.mk "id-0" "pets" "p1" "DELETE" "2024-01-01T00:00:11" 0]
  ∧ (create_pet (E:=env_steady) "u1" (VText "Ben") (VText "dog") VNull VNull
       VNull VNull w_start).1 = Some "id-0"
  ∧ sync_log (local_conn (create_pet (E:=env_steady) "u1" (VText "Ben")
                            (VText "dog") VNull VNull VNull VNull w_start).2)
    = [Log.mk "id-1" "pets" "id-0" "INSERT" "2024-01-01T00:00:11" 0]
  ∧ (create_pet (E:=env_steady) "u1" VNull (VText "dog") VNull VNull
       VNull VNull w_start).1 = None
  ∧ local_conn (create_pet (E:=env_steady) "u1" VNull (VText "dog") VNull VNull
                  VNull VNull w_start).2 = local_sample
  ∧ (create_pet (E:=env_steady) "u2" (VText "Ben") (VText "dog") VNull VNull
       VNull VNull w_start).1 = None
  ∧ local_conn (create_pet (E:=env_steady) "u2" (VText "Ben") (VText "dog")
                  VNull VNull VNull VNull w_start).2 = local_sample
  ∧ (update_pet (E:=env_steady) "p1" kw_rename w_start).1 = false
  ∧ local_conn (update_pet (E:=env_steady) "p1" kw_rename w_start).2
    = local_sample.
Proof.
  assert (Hfresh : ∀ n, (ids_drawn w_start ≤ n)%nat →
                        uuid4 (Env:=env_steady) n
                        ∉ map Log.id (sync_log (local_conn w_start))).
  { intros n _ Hin. by apply elem_of_nil in Hin. }
  destruct (journal_entry_per_mutation (E:=env_steady) w_start Hfresh)
    as (_ & Hcreate & Hupdate & Hdelete).
  destruct (Hdelete "p1") as [Hok Hlog].
  pose proof (Hcreate "u1" (VText "Ben") (VText "dog") VNull VNull VNull VNull)
    as Hben.
  pose proof (Hcreate "u1" VNull (VText "dog") VNull VNull VNull VNull)
    as Hnull.
  pose proof (Hcreate "u2" (VText "Ben") (VText "dog") VNull VNull VNull VNull)
    as Hstray.
  destruct (Hupdate "p1" kw_rename) as [Hup1 Hup2].
  simpl in Hben, Hnull, Hstray. destruct Hben as [Hben1 Hben2].
  destruct Hnull as [Hnull1 Hnull2]. destruct Hstray as [Hstray1 Hstray2].
  repeat split; try done.
Defined.

Lemma soft_delete_propagates_witness :
  let r := delete_pet (E:=env_steady) "p1" w_online in
  pets (local_conn r.2) !! "p1"
  = Some (Pet.set_sync_status "synced" (soft_delete "2024-01-01T00:00:10" rex))
  ∧ pets (remote_db r.2) !! "p1"
    = Some (Pet.set_sync_status "synced" (soft_delete "2024-01-01T00:00:10" rex))
  ∧ get_pet_by_id "p1" r.2 = None
  ∧ pets (local_conn (delete_pet (E:=env_steady) "p1" w_start).2) !! "p1"
    = Some (soft_delete "2024-01-01T00:00:10" rex).
Proof.
  destruct (soft_delete_propagates (E:=env_steady) "p1" w_online rex eq_refl)
    as (_ & _ & Hcases & _ & Hget & _).
  destruct (soft_delete_propagates (E:=env_steady) "p1" w_start rex eq_refl)
    as (_ & _ & _ & Hoff & _).
  split; [|split; [|split]].
  - destruct Hcases as [H | [H _]]; [|exact H].
    apply (f_equal (fmap Pet.sync_status)) in H. vm_compute in H.
    discriminate H.
  - destruct Hcases as [H | [_ H]]; [|exact H].
    apply (f_equal (fmap Pet.sync_status)) in H. vm_compute in H.
    discriminate H.
  - exact Hget.
  - apply Hoff. reflexivity.
Defined.

Lemma update_pet_unrecognized_keys_witness :
  update_pet (E:=env_steady) "p1" kw_unknown w_start = (false, w_start)
  ∧ update_pet (E:=env_steady) "p1" (kw_unknown ∪ kw_rename) w_start
    = update_pet (E:=env_steady) "p1" kw_rename w_start.
Proof.
  assert (Hkw : ∀ k, is_Some (kw_unknown !! k) → k ∉ allowed_fields).
  { assert (map_Forall (λ k _, k ∉ allowed_fields) kw_unknown) as H
      by compute_done.
    intros k [v Hv]. exact (H k v Hv). }
  destruct (update_pet_unrecognized_keys (E:=env_steady) "p1" kw_unknown
              w_start Hkw) as [Hnone Hextra].
  split; [exact Hnone | apply Hextra].
Defined.


(** A pet made at the first reading of the clock is soft-deleted at the
    third: the journal entry took the second. *)
Lemma mutation_stamps_clock_witness :
  let w1 := (create_pet (E:=env_steady) "u1" (VText "Ben") (VText "dog")
               VNull VNull VNull VNull w_start).2 in
  let r := delete_pet (E:=env_steady) "id-0" w1 in
  ∃ row row',
    pets (local_conn w1) !! "id-0" = Some row
    ∧ Pet.created_at row = "2024-01-01T00:00:10"
    ∧ Pet.updated_at row = "2024-01-01T00:00:10"
    ∧ pets (local_conn r.2) !! "id-0" = Some row'
    ∧ Pet.created_at row' = "2024-01-01T00:00:10"
    ∧ Pet.updated_at row' = "2024-01-01T00:00:12"
    ∧ Pet.sync_status row' = "pending"
    ∧ (Pet.updated_at row <? Pet.updated_at row')%string = true
    ∧ (Pet.created_at row' <? Pet.updated_at row')%string = true.
Proof.
  intros w1 r.
  destruct (pets (local_conn w1) !! "id-0") as [row|] eqn:Hrow;
    [|by vm_compute in Hrow].
  destruct (mutation_stamps_clock (E:=env_steady) "id-0" w1 row Hrow)
    as [Hdelete _].
  destruct Hdelete as (row' & Hrow' & Hts & Hcr & _ & Hoff & Hadv).
  assert (Hclock : ∀ k, (k < clock_reads w1)%nat →
                    (utcnow (Env:=env_steady) k
                     <? utcnow (Env:=env_steady) (clock_reads w1))%string
                    = true).
  { intros k Hk. change (clock_reads w1) with 2 in *.
    destruct k as [|[|k]]; [reflexivity | reflexivity | lia]. }
  assert (Hc0 : Pet.created_at row = utcnow (Env:=env_steady) 0).
  { vm_compute in Hrow. injection Hrow as <-. reflexivity. }
  assert (Hu0 : Pet.updated_at row = utcnow (Env:=env_steady) 0).
  { vm_compute in Hrow. injection Hrow as <-. reflexivity. }
  destruct (Hadv Hclock 0 0 (le_n 0) (Nat.lt_0_succ 1) Hc0 Hu0) as [Hlt Hge].
  exists row, row'.
  split; [reflexivity|]. split; [exact Hc0|]. split; [exact Hu0|].
  split; [exact Hrow'|]. split; [by rewrite Hcr, Hc0|].
  split; [exact Hts|]. split; [by apply Hoff|].
  split; [exact Hlt | exact Hge].
Defined.

(** ** Where the code departs from the spec's wording *)

(** C3 as stated fails: after a full sync of the sample state the [pulled]
    dictionary has no count for [users]. *)
Lemma full_sync_pulled_lacks_users :
  let r := (full_sync (E:=env_steady) "u1" w_start).1 in
  pushed r = push_result 1 2 "online"
  ∧ pulled r = pull_result 1 "online"
  ∧ pulled r !! "users" = None
  ∧ ¬ maps_every_table (pulled r).
Proof.
  assert (pulled (full_sync (E:=env_steady) "u1" w_start).1 !! "users" = None)
    as Hnone by compute_done.
  split; [compute_done|]. split; [compute_done|]. split; [exact Hnone|].
  intros Hall. destruct (Hall "users") as [n Hn].
  { apply elem_of_cons. by left. }
  rewrite Hnone in Hn. discriminate Hn.
Qed.

(** C6 as stated fails: a pet created and then soft-deleted under a clock
    that returns the same reading keeps its [updated_at]; under a clock
    that was set back in between, the soft delete leaves [updated_at]
    before [created_at]. *)
Lemma updated_at_not_advanced :
  let make (E : Env) :=
    (create_pet (E:=E) "u1" (VText "Rex") (VText "dog") VNull VNull VNull VNull
                w_start).2 in
  let remove (E : Env) := delete_pet (E:=E) "id-0" (make E) in
  (remove env_stalled).1 = true
  ∧ Pet.updated_at <$> pets (local_conn (make env_stalled)) !! "id-0" = Some t10
  ∧ Pet.updated_at <$> pets (local_conn (remove env_stalled).2) !! "id-0"
    = Some t10
  ∧ Pet.is_deleted <$> pets (local_conn (remove env_stalled).2) !! "id-0"
    = Some 1%Z
  ∧ ¬ strictly_advanced (make env_stalled) (remove env_stalled).2 "id-0"
  ∧ (remove env_set_back).1 = true
  ∧ Pet.created_at <$> pets (local_conn (remove env_set_back).2) !! "id-0"
    = Some t10
  ∧ Pet.updated_at <$> pets (local_conn (remove env_set_back).2) !! "id-0"
    = Some t5
  ∧ ¬ strictly_advanced (make env_set_back) (remove env_set_back).2 "id-0".
Proof.
  intros make remove.
  split; [compute_done|]. split; [compute_done|]. split; [compute_done|].
  split; [compute_done|]. split; [|split; [compute_done|]].
  - intros Hadv.
    destruct (pets (local_conn (make env_stalled)) !! "id-0") as [row|] eqn:H1;
      [|by vm_compute in H1].
    destruct (pets (local_conn (remove env_stalled).2) !! "id-0") as [row'|]
      eqn:H2; [|by vm_compute in H2].
    destruct (Hadv row row' H1 H2) as [Hlt _].
    vm_compute in H1, H2. injection H1 as <-. injection H2 as <-.
    vm_compute in Hlt. discriminate Hlt.
  - split; [compute_done|]. split; [compute_done|].
    intros Hadv.
    destruct (pets (local_conn (make env_set_back)) !! "id-0") as [row|] eqn:H1;
      [|by vm_compute in H1].
    destruct (pets (local_conn (remove env_set_back).2) !! "id-0") as [row'|]
      eqn:H2; [|by vm_compute in H2].
    destruct (Hadv row row' H1 H2) as [Hlt _].
    vm_compute in H1, H2. injection H1 as <-. injection H2 as <-.
    vm_compute in Hlt. discriminate Hlt.
Qed.


(** * Further properties of the manager *)

Section Preservation.

Context {E : Env}.

Lemma set_sync_status_same (u : User.row) :
  User.set_sync_status (User.sync_status u) u = u.
Proof. by destruct u. Qed.

Lemma set_sync_status_twice (s s' : string) (u : User.row) :
  User.set_sync_status s (User.set_sync_status s' u) = User.set_sync_status s u.
Proof. by destruct u. Qed.

Lemma evolves_refl (w : DatabaseManager) : evolves w w.
Proof.
  split; [done|]. split; [|done].
  intros uid u Hu. exists (User.sync_status u). by rewrite set_sync_status_same.
Qed.

Lemma evolves_trans (w1 w2 w3 : DatabaseManager) :
  evolves w1 w2 → evolves w2 w3 → evolves w1 w3.
Proof.
  intros (Hl1 & Hu1 & Hp1 & Hc1) (Hl2 & Hu2 & Hp2 & Hc2).
  split; [by etrans|]. split; [|split].
  - intros uid u Hu. destruct (Hu1 uid u Hu) as [s Hs].
    destruct (Hu2 uid _ Hs) as [s' Hs']. exists s'.
    by rewrite Hs', set_sync_status_twice.
  - intros pid Hp. by apply Hp2, Hp1.
  - intros H0. by apply Hc2, Hc1.
Qed.

(** A step that only touches the local database. *)
Lemma evolves_local (w w' : DatabaseManager) :
  _is_online w' = _is_online w → remote_conn w' = remote_conn w →
  sync_log (local_conn w) `prefix_of` sync_log (local_conn w') →
  (∀ uid u, users (local_conn w) !! uid = Some u →
     ∃ s, users (local_conn w') !! uid = Some (User.set_sync_status s u)) →
  (∀ pid, is_Some (pets (local_conn w) !! pid) →
     is_Some (pets (local_conn w') !! pid)) →
  evolves w w'.
Proof.
  intros Hon Hconn Hlog Hu Hp. repeat split; try done.
  rewrite Hon, Hconn. auto.
Qed.

Lemma users_kept_same (t : gmap string User.row) :
  ∀ uid u, t !! uid = Some u → ∃ s, t !! uid = Some (User.set_sync_status s u).
Proof.
  intros uid u Hu. exists (User.sync_status u). by rewrite set_sync_status_same.
Qed.

Lemma check_connection_evolves (w : DatabaseManager) :
  evolves w (check_connection w).2.
Proof.
  unfold check_connection, _try_connect_remote, remote_round.
  destruct is_remote_configured; simpl;
    [|by repeat split; auto using users_kept_same].
  destruct (remote_raises (remote_rounds w)); simpl;
    [by repeat split; auto using users_kept_same|].
  destruct (remote_raises (S (remote_rounds w))); simpl;
    by repeat split; auto using users_kept_same.
Qed.

Lemma _log_change_evolves (table rid op : string) (w : DatabaseManager) :
  evolves w (_log_change table rid op w).2.
Proof.
  unfold _log_change, insert_log. simpl.
  case_bool_decide; simpl; apply evolves_local; simpl;
    auto using users_kept_same.
  by apply prefix_app_r.
Qed.

Lemma _sync_user_to_remote_evolves (uid : string) (w : DatabaseManager) :
  evolves w (_sync_user_to_remote uid w).2.
Proof.
  unfold _sync_user_to_remote, remote_round.
  destruct (_is_online w) eqn:Hon; simpl; [|apply evolves_refl].
  destruct (remote_conn w) eqn:Hconn; simpl; [|apply evolves_refl].
  destruct (users (local_conn w) !! uid) as [user|] eqn:Hu; [|apply evolves_refl].
  destruct (remote_raises (remote_rounds w)); simpl.
  { apply evolves_local; simpl; auto using users_kept_same. }
  destruct (insert_or_replace_user _ _ _); simpl.
  2:{ apply evolves_local; simpl; auto using users_kept_same. }
  apply evolves_local; simpl; auto.
  intros k u Hk. rewrite lookup_alter. case_decide as Hd.
  - subst k. rewrite Hk. simpl. by exists "synced".
  - rewrite Hk. exists (User.sync_status u). by rewrite set_sync_status_same.
Qed.

Lemma _sync_pet_to_remote_evolves (pid : string) (w : DatabaseManager) :
  evolves w (_sync_pet_to_remote pid w).2.
Proof.
  destruct (_sync_pet_to_remote_cases pid w)
    as (Hlog & Hu & Hon & _ & _ & Hcases).
  assert (remote_conn (_sync_pet_to_remote pid w).2 = remote_conn w) as Hconn.
  { unfold _sync_pet_to_remote, remote_round.
    destruct (negb (_is_online w) || negb (remote_conn w)); [done|].
    destruct (pets (local_conn w) !! pid); [|done].
    destruct (remote_raises (remote_rounds w)); simpl; [done|].
    by destruct (insert_or_replace_pet _ _ _). }
  apply evolves_local; try done.
  - by rewrite Hlog.
  - rewrite Hu. apply users_kept_same.
  - intros k Hk. destruct Hcases as [(_ & Hsame & _) | (_ & _ & row & _ & Hp & _)].
    + by rewrite Hsame.
    + rewrite Hp. rewrite lookup_insert. case_decide; [by eexists | done].
Qed.

Lemma sync_if_online_evolves
    (push : string → DatabaseManager → bool * DatabaseManager)
    (rid : string) (w : DatabaseManager) :
  (∀ v, evolves v (push rid v).2) →
  evolves w (sync_if_online push rid w).
Proof.
  intros Hpush. unfold sync_if_online.
  destruct (_is_online w); [apply Hpush | apply evolves_refl].
Qed.

Lemma push_loop_evolves
    (push : string → DatabaseManager → bool * DatabaseManager)
    (ids : list string) :
  (∀ rid v, evolves v (push rid v).2) →
  ∀ n w, evolves w (push_loop push ids n w).2.
Proof.
  intros Hpush. induction ids as [|rid rest IH]; intros n w;
    [apply evolves_refl|].
  simpl. specialize (Hpush rid w). destruct (push rid w) as [ok v].
  eapply evolves_trans; [exact Hpush | apply IH].
Qed.

Lemma sync_all_pending_evolves (w : DatabaseManager) :
  evolves w (sync_all_pending w).2.
Proof.
  unfold sync_all_pending.
  pose proof (check_connection_evolves w) as Hc.
  destruct (check_connection w) as [[] w0]; simpl in *; [|done].
  pose proof (push_loop_evolves _sync_user_to_remote
                (pending_user_ids (local_conn w0))
                _sync_user_to_remote_evolves 0 w0) as H1.
  destruct (push_loop _sync_user_to_remote _ 0 w0) as [nu w1].
  pose proof (push_loop_evolves _sync_pet_to_remote
                (pending_pet_ids (local_conn w1))
                _sync_pet_to_remote_evolves 0 w1) as H2.
  destruct (push_loop _sync_pet_to_remote _ 0 w1) as [np w2].
  simpl in *. eauto using evolves_trans.
Qed.

Lemma pull_loop_keeps (rows : list (string * Pet.row)) :
  ∀ n d,
    users (pull_loop rows n d).2 = users d
    ∧ sync_log (pull_loop rows n d).2 = sync_log d
    ∧ (∀ pid, is_Some (pets d !! pid) →
              is_Some (pets (pull_loop rows n d).2 !! pid)).
Proof.
  induction rows as [|[pid0 r0] rest IH]; intros n d; [done|].
  simpl. destruct (remote_wins (pets d) pid0 r0); [|apply IH].
  unfold insert_or_replace_pet.
  destruct (_ && _); [|done].
  destruct (IH (S n) (set_pets (<[pid0:=Pet.set_sync_status "synced" r0]> (pets d)) d))
    as (Hu & Hl & Hp).
  split; [done|]. split; [done|].
  intros pid Hpid. apply Hp. simpl. rewrite lookup_insert.
  case_decide; [by eexists | done].
Qed.

Lemma pull_from_remote_evolves (user_id : string) (w : DatabaseManager) :
  evolves w (pull_from_remote user_id w).2.
Proof.
  unfold pull_from_remote, remote_round.
  destruct (negb (_is_online w) || negb (remote_conn w)); [apply evolves_refl|].
  simpl. destruct (remote_raises (remote_rounds w)).
  { apply evolves_local; simpl; auto using users_kept_same. }
  match goal with |- context [pull_loop ?rows 0 ?d] =>
    destruct (pull_loop_keeps rows 0 d) as (Hu & Hl & Hp);
    destruct (pull_loop rows 0 d) as [n d'] end.
  simpl in *. apply evolves_local; simpl; auto.
  - by rewrite Hl.
  - rewrite Hu. apply users_kept_same.
Qed.

(** The tail shared by the four mutations: journal entry, then the push
    when online. *)
Lemma mutation_tail_evolves
    (push : string → DatabaseManager → bool * DatabaseManager)
    (table rid op : string) (w w1 : DatabaseManager) :
  (∀ v, evolves v (push rid v).2) →
  evolves w w1 →
  evolves w
    (let '(logged, v) := _log_change table rid op w1 in
     if logged then sync_if_online push rid v else v).
Proof.
  intros Hpush Hw1. pose proof (_log_change_evolves table rid op w1) as Hl.
  destruct (_log_change table rid op w1) as [[] v]; simpl in *.
  - eapply evolves_trans; [exact Hw1|]. eapply evolves_trans; [exact Hl|].
    by apply sync_if_online_evolves.
  - by eapply evolves_trans.
Qed.

Lemma create_user_evolves (username password_hash : string)
    (w : DatabaseManager) :
  evolves w (create_user username password_hash w).2.
Proof.
  unfold create_user. simpl.
  match goal with |- context [insert_user ?i ?r ?d] =>
    destruct (insert_user i r d) as [d'|] eqn:Hins end.
  2:{ simpl. apply evolves_local; simpl; auto using users_kept_same. }
  match goal with |- context [_log_change ?t ?i ?o ?v] =>
    pose proof (mutation_tail_evolves _sync_user_to_remote t i o w v
                  (_sync_user_to_remote_evolves i)) as Htail;
    destruct (_log_change t i o v) as [[] v'] end; simpl in *; apply Htail.
  all: unfold insert_user in Hins;
    destruct (users (local_conn w) !! uuid4 (ids_drawn w)) eqn:Hfree; [done|];
    destruct (username_taken _ _); [done|]; injection Hins as <-;
    apply evolves_local; simpl; auto;
    intros k u Hk; rewrite lookup_insert_ne by congruence;
    by apply users_kept_same.
Qed.

Lemma create_pet_evolves (user_id : string)
    (name species breed age weight notes : value) (w : DatabaseManager) :
  evolves w (create_pet user_id name species breed age weight notes w).2.
Proof.
  rewrite create_pet_unfold. cbv zeta.
  destruct (bind_pet _ _ _ _ _ _ _ _ ≫= _) as [d'|] eqn:Hins.
  2:{ simpl. apply evolves_local; simpl; auto using users_kept_same. }
  apply bind_Some in Hins as (row & _ & Hins).
  match goal with |- context [_log_change ?t ?i ?o ?v] =>
    pose proof (mutation_tail_evolves _sync_pet_to_remote t i o w v
                  (_sync_pet_to_remote_evolves i)) as Htail;
    destruct (_log_change t i o v) as [[] v'] end; simpl in *; apply Htail.
  all: unfold insert_pet in Hins;
    destruct (pets (local_conn w) !! uuid4 (ids_drawn w)) eqn:Hfree; [done|];
    destruct (_ && _); [|done]; injection Hins as <-;
    apply evolves_local; simpl; auto using users_kept_same;
    intros k Hk; rewrite lookup_insert; case_decide; [by eexists | done].
Qed.

Lemma update_pet_evolves (pet_id : string) (kwargs : gmap string value)
    (w : DatabaseManager) :
  evolves w (update_pet pet_id kwargs w).2.
Proof.
  unfold update_pet. case_bool_decide; [apply evolves_refl|]. simpl.
  apply evolves_local; simpl; auto using users_kept_same.
Qed.

Lemma delete_pet_evolves (pet_id : string) (w : DatabaseManager) :
  evolves w (delete_pet pet_id w).2.
Proof.
  unfold delete_pet. simpl.
  match goal with |- context [_log_change ?t ?i ?o ?v] =>
    pose proof (mutation_tail_evolves _sync_pet_to_remote t i o w v
                  (_sync_pet_to_remote_evolves i)) as Htail;
    destruct (_log_change t i o v) as [[] v'] end; simpl in *; apply Htail.
  all: apply evolves_local; simpl; auto using users_kept_same;
    intros k [row Hk]; rewrite lookup_alter; case_decide; subst;
      rewrite Hk; by eexists.
Qed.

Lemma full_sync_evolves (user_id : string) (w : DatabaseManager) :
  evolves w (full_sync user_id w).2.
Proof.
  unfold full_sync. pose proof (sync_all_pending_evolves w) as H1.
  destruct (sync_all_pending w) as [p w1].
  pose proof (pull_from_remote_evolves user_id w1) as H2.
  destruct (pull_from_remote user_id w1) as [q w2].
  simpl in *. by eapply evolves_trans.
Qed.

Lemma call_evolves (c : Call) (w : DatabaseManager) : evolves w (call c w).
Proof.
  destruct c; simpl;
    auto using create_user_evolves, create_pet_evolves, update_pet_evolves,
      delete_pet_evolves, check_connection_evolves, sync_all_pending_evolves,
      pull_from_remote_evolves, full_sync_evolves.
Qed.

Lemma calls_evolves (cs : list Call) : ∀ w, evolves w (calls cs w).
Proof.
  induction cs as [|c cs IH]; intros w; [apply evolves_refl|].
  unfold calls. simpl. eapply evolves_trans; [apply call_evolves | apply IH].
Qed.

(** X1: over any sequence of calls the journal is append-only: the entries
    it held are still there, in place, at its front. *)
Theorem journal_append_only (cs : list Call) (w : DatabaseManager) :
  sync_log (local_conn w) `prefix_of` sync_log (local_conn (calls cs w)).
Proof. apply calls_evolves. Qed.

(** X2: no sequence of calls removes a row of the local [users] or [pets]
    table, and an account row never changes except in its [sync_status]:
    the program has no way to rename, re-key or soft-delete an account. *)
Theorem rows_never_removed (cs : list Call) (w : DatabaseManager)
    (uid pid : string) (u : User.row) (p : Pet.row) :
  users (local_conn w) !! uid = Some u →
  pets (local_conn w) !! pid = Some p →
  (∃ s, users (local_conn (calls cs w)) !! uid = Some (User.set_sync_status s u))
  ∧ is_Some (pets (local_conn (calls cs w)) !! pid).
Proof.
  intros Hu Hp. destruct (calls_evolves cs w) as (_ & Husers & Hpets & _).
  split; [by apply Husers | apply Hpets; by eexists].
Qed.

(** X3: in every state reached from [__init__] by any sequence of calls, an
    online flag comes with a remote connection, so the [not self.remote_conn]
    half of the guards of the sync methods never decides. *)
Theorem online_implies_connected (local remote : Db) (cs : list Call) :
  _is_online (calls cs (init local remote)) = true →
  remote_conn (calls cs (init local remote)) = true.
Proof.
  destruct (calls_evolves cs (init local remote)) as (_ & _ & _ & Hconn).
  apply Hconn. unfold init, _try_connect_remote, remote_round. simpl.
  destruct is_remote_configured; simpl; [|done].
  destruct (remote_raises 0); simpl; [done|].
  destruct (remote_raises 1); simpl; done.
Qed.

End Preservation.

Section SyncMore.

Context {E : Env}.

(** X4: with no remote configured, [full_sync] reports zero counts, status
    offline and [is_online = False], makes no remote call, and leaves both
    databases alone: only the online flag is (re)set to [False], whatever it
    was before. *)
Theorem local_only_full_sync (user_id : string) (w : DatabaseManager) :
  is_remote_configured = false →
  full_sync user_id w
  = (mkFullSync (push_result 0 0 "offline") (pull_result 0 "offline") false,
     set_is_online false w).
Proof.
  intros Hcfg.
  unfold full_sync, sync_all_pending, check_connection, _try_connect_remote.
  rewrite Hcfg. simpl. unfold pull_from_remote. simpl. done.
Qed.

Lemma push_pet_success (rid : string) (w : DatabaseManager) :
  (_sync_pet_to_remote rid w).1 = true →
  ∃ pet, pets (local_conn w) !! rid = Some pet
    ∧ _is_online w = true ∧ remote_conn w = true
    ∧ remote_raises (remote_rounds w) = false
    ∧ Pet.not_null pet = true
    ∧ has_owner pet (remote_db w) = true
    ∧ (_sync_pet_to_remote rid w).2
      = mkDM (mark_pet "synced" rid (local_conn w))
             (set_pets (<[rid := Pet.set_sync_status "synced" pet]>
                          (pets (remote_db w))) (remote_db w))
             true true (clock_reads w) (ids_drawn w) (S (remote_rounds w)).
Proof.
  unfold _sync_pet_to_remote, remote_round.
  destruct (_is_online w) eqn:Hon; simpl; [|done].
  destruct (remote_conn w) eqn:Hconn; simpl; [|done].
  destruct (pets (local_conn w) !! rid) as [pet|] eqn:Hpet; [|done].
  destruct (remote_raises (remote_rounds w)) eqn:Hr; simpl; [done|].
  unfold insert_or_replace_pet.
  change (Pet.not_null (Pet.set_sync_status "synced" pet))
    with (Pet.not_null pet).
  change (has_owner (Pet.set_sync_status "synced" pet) (remote_db w))
    with (has_owner pet (remote_db w)).
  destruct (Pet.not_null pet) eqn:Hnn; simpl; [|done].
  destruct (has_owner pet (remote_db w)) eqn:Hfk; simpl; [|done].
  intros _. by exists pet.
Qed.

Lemma push_user_success (rid : string) (w : DatabaseManager) :
  (_sync_user_to_remote rid w).1 = true →
  ∃ user d, users (local_conn w) !! rid = Some user
    ∧ _is_online w = true ∧ remote_conn w = true
    ∧ remote_raises (remote_rounds w) = false
    ∧ insert_or_replace_user rid (User.set_sync_status "synced" user)
        (remote_db w) = Some d
    ∧ (_sync_user_to_remote rid w).2
      = mkDM (mark_user "synced" rid (local_conn w)) d
             true true (clock_reads w) (ids_drawn w) (S (remote_rounds w)).
Proof.
  unfold _sync_user_to_remote, remote_round.
  destruct (_is_online w) eqn:Hon; simpl; [|done].
  destruct (remote_conn w) eqn:Hconn; simpl; [|done].
  destruct (users (local_conn w) !! rid) as [user|] eqn:Huser; [|done].
  destruct (remote_raises (remote_rounds w)) eqn:Hr; simpl; [done|].
  destruct (insert_or_replace_user _ _ _) as [d|] eqn:Hd; simpl; [|done].
  intros _. by exists user, d.
Qed.

(** Writing an account to the remote a second time is accepted and changes
    nothing: the first write has removed every other row of that
    username. *)
Lemma insert_or_replace_user_twice (uid : string) (r : User.row) (d d' : Db) :
  insert_or_replace_user uid r d = Some d' →
  insert_or_replace_user uid r d' = Some d'.
Proof.
  unfold insert_or_replace_user.
  destruct (orphans_pets uid r d); [done|]. intros [= <-].
  assert (orphans_pets uid r
            (set_users
               (<[uid:=r]> (filter (λ kv, User.username kv.2 ≠ User.username r)
                                   (users d))) d) = false) as ->.
  { unfold orphans_pets. apply bool_decide_eq_false_2.
    intros (k & p & _ & x & Hx).
    unfold displaced in Hx. apply map_lookup_filter_Some in Hx as [Hx [Hne Hname]].
    simpl in *. rewrite lookup_insert_ne in Hx by done.
    apply map_lookup_filter_Some in Hx as [_ Hx]. done. }
  unfold set_users. simpl. f_equal. f_equal.
  apply map_eq. intros k. rewrite !lookup_insert.
  case_decide; [done|].
  rewrite !map_lookup_filter, lookup_insert_ne by done.
  rewrite map_lookup_filter.
  destruct (users d !! k) as [x|]; simpl; [|done].
  case_guard; simpl; [|done]. by rewrite option_guard_True.
Qed.

(** X5: pushing the same record twice in a row, the remote answering both
    times, changes nothing the second time: the second push succeeds and
    leaves the local and the remote database as the first left them. *)
Theorem push_twice_same (rid : string) (w : DatabaseManager) :
  remote_raises (S (remote_rounds w)) = false →
  ((_sync_pet_to_remote rid w).1 = true →
   let w1 := (_sync_pet_to_remote rid w).2 in
   (_sync_pet_to_remote rid w1).1 = true
   ∧ local_conn (_sync_pet_to_remote rid w1).2 = local_conn w1
   ∧ remote_db (_sync_pet_to_remote rid w1).2 = remote_db w1)
  ∧ ((_sync_user_to_remote rid w).1 = true →
     let w1 := (_sync_user_to_remote rid w).2 in
     (_sync_user_to_remote rid w1).1 = true
     ∧ local_conn (_sync_user_to_remote rid w1).2 = local_conn w1
     ∧ remote_db (_sync_user_to_remote rid w1).2 = remote_db w1).
Proof.
  intros Hnext. split.
  - intros Hok.
    destruct (push_pet_success rid w Hok)
      as (pet & Hpet & Hon & Hconn & Hr & Hnn & Hfk & ->).
    unfold _sync_pet_to_remote, remote_round. simpl.
    rewrite lookup_alter_eq, Hpet. simpl. rewrite Hnext.
    unfold insert_or_replace_pet. simpl.
    change (Pet.not_null (Pet.set_sync_status "synced"
                            (Pet.set_sync_status "synced" pet)))
      with (Pet.not_null pet).
    rewrite Hnn. unfold has_owner in *. simpl in *. rewrite Hfk.
    simpl. split; [done|]. split.
    + unfold mark_pet, set_pets. simpl. f_equal.
      apply map_eq. intros k. destruct (decide (rid = k)) as [<-|Hne];
        [|by rewrite !lookup_alter_ne].
      rewrite !lookup_alter_eq, Hpet. by destruct pet.
    + unfold set_pets. simpl. f_equal. rewrite insert_insert_eq.
      by destruct pet.
  - intros Hok.
    destruct (push_user_success rid w Hok)
      as (user & d & Huser & Hon & Hconn & Hr & Hd & ->).
    unfold _sync_user_to_remote, remote_round. simpl.
    rewrite lookup_alter_eq, Huser. simpl. rewrite Hnext.
    rewrite set_sync_status_twice.
    rewrite (insert_or_replace_user_twice _ _ _ _ Hd).
    simpl. split; [done|]. split; [|done].
    unfold mark_user, set_users. simpl. f_equal.
    apply map_eq. intros k. destruct (decide (rid = k)) as [<-|Hne];
      [|by rewrite !lookup_alter_ne].
    rewrite !lookup_alter_eq, Huser. by destruct user.
Qed.

Lemma sync_all_pending_rows (w : DatabaseManager) :
  let w' := (sync_all_pending w).2 in
  (∀ pid, pets (local_conn w') !! pid = pets (local_conn w) !! pid
          ∨ ∃ row, pets (local_conn w) !! pid = Some row
                   ∧ Pet.sync_status row = "pending"
                   ∧ pets (local_conn w') !! pid
                     = Some (Pet.set_sync_status "synced" row))
  ∧ (∀ uid, users (local_conn w') !! uid = users (local_conn w) !! uid
            ∨ ∃ row, users (local_conn w) !! uid = Some row
                     ∧ User.sync_status row = "pending"
                     ∧ users (local_conn w') !! uid
                       = Some (User.set_sync_status "synced" row))
  ∧ sync_log (local_conn w') = sync_log (local_conn w).
Proof.
  intros w'. subst w'. unfold sync_all_pending.
  destruct (check_connection w) as [[] w0] eqn:Hc; simpl.
  2:{ pose proof (check_connection_frame w) as (Hl & _).
      rewrite Hc in Hl. simpl in Hl. rewrite Hl. by repeat split; left. }
  destruct (check_connection_true _ _ Hc) as (Hon & Hconn & Hl & Hr & Hrounds).
  set (us := pending_user_ids (local_conn w0)).
  assert (Hus : ∀ uid, uid ∈ us →
            ∃ row, users (local_conn w0) !! uid = Some row
                   ∧ bool_decide (User.sync_status row = "synced") = false).
  { intros uid Hin. apply pending_user_ids_spec in Hin as [row [Hrow Hp]].
    exists row. split; [done|]. by apply pending_not_synced. }
  pose proof (push_loop_spec (λ v, users (local_conn v))
                (λ v rid row, negb (orphans_pets rid row (remote_db v)))
                (User.set_sync_status "synced")
                (λ row, bool_decide (User.sync_status row = "synced"))
                _ _sync_user_to_remote (λ _, eq_refl)
                push_user_step us 0 w0 Hon Hconn
                (NoDup_fst_map_to_list _) Hus)
    as (_ & _ & Hon1 & Hconn1 & Hfr1 & _ & Hidx1 & Hrest1).
  destruct (push_loop _sync_user_to_remote us 0 w0) as [nu w1]. simpl in *.
  injection Hfr1 as Hpets1 Hlog1 _ _ _.
  set (ps := pending_pet_ids (local_conn w1)).
  assert (Hps : ∀ pid, pid ∈ ps →
            ∃ row, pets (local_conn w1) !! pid = Some row
                   ∧ bool_decide (Pet.sync_status row = "synced") = false).
  { intros pid Hin. apply pending_pet_ids_spec in Hin as [row [Hrow Hp]].
    exists row. split; [done|]. by apply pending_not_synced. }
  pose proof (push_loop_spec (λ v, pets (local_conn v))
                (λ v rid row, Pet.not_null row && has_owner row (remote_db v))
                (Pet.set_sync_status "synced")
                (λ row, bool_decide (Pet.sync_status row = "synced"))
                _ _sync_pet_to_remote (λ _, eq_refl)
                push_pet_step ps 0 w1 Hon1 Hconn1
                (NoDup_fst_map_to_list _) Hps)
    as (_ & _ & _ & _ & Hfr2 & _ & Hidx2 & Hrest2).
  destruct (push_loop _sync_pet_to_remote ps 0 w1) as [np w2]. simpl in *.
  injection Hfr2 as Husers2 Hlog2 _ _ _.
  split; [|split; [|congruence]].
  - intros pid. destruct (decide (pid ∈ ps)) as [Hin|Hnin].
    + pose proof Hin as Hin'.
      apply pending_pet_ids_spec in Hin' as [row [Hrow Hp]].
      apply list_elem_of_lookup_1 in Hin as [i Hi].
      rewrite (Hidx2 i pid row Hi Hrow).
      rewrite Hpets1, Hl in Hrow.
      match goal with |- context [if ?c then _ else _] => destruct c end.
      * right. by exists row.
      * by left.
    + left. by rewrite Hrest2, Hpets1, Hl.
  - intros uid. rewrite Husers2.
    destruct (decide (uid ∈ us)) as [Hin|Hnin].
    + pose proof Hin as Hin'.
      apply pending_user_ids_spec in Hin' as [row [Hrow Hp]].
      apply list_elem_of_lookup_1 in Hin as [i Hi].
      rewrite (Hidx1 i uid row Hi Hrow).
      rewrite Hl in Hrow.
      match goal with |- context [if ?c then _ else _] => destruct c end.
      * right. by exists row.
      * by left.
    + left. by rewrite Hrest1, Hl.
Qed.

(** X6: whatever the connectivity, [sync_all_pending] changes no local
    column other than [sync_status], and that only from pending to synced:
    afterwards every local row is the row it was, or the pending row it was
    marked synced; no row appears or disappears and the journal is the
    same. *)
Theorem sync_all_pending_status_only (w : DatabaseManager) :
  let w' := (sync_all_pending w).2 in
  (∀ pid, pets (local_conn w') !! pid = pets (local_conn w) !! pid
          ∨ ∃ row, pets (local_conn w) !! pid = Some row
                   ∧ Pet.sync_status row = "pending"
                   ∧ pets (local_conn w') !! pid
                     = Some (Pet.set_sync_status "synced" row))
  ∧ (∀ uid, users (local_conn w') !! uid = users (local_conn w) !! uid
            ∨ ∃ row, users (local_conn w) !! uid = Some row
                     ∧ User.sync_status row = "pending"
                     ∧ users (local_conn w') !! uid
                       = Some (User.set_sync_status "synced" row))
  ∧ sync_log (local_conn w') = sync_log (local_conn w).
Proof. apply sync_all_pending_rows. Qed.

End SyncMore.

Section PullMore.

Context {E : Env}.

Lemma pull_loop_untouched (rows : list (string * Pet.row)) (pid : string) :
  pid ∉ rows.*1 →
  ∀ n d, pets (pull_loop rows n d).2 !! pid = pets d !! pid.
Proof.
  induction rows as [|[pid0 r0] rest IH]; intros Hnot n d; [done|].
  rewrite fmap_cons in Hnot. apply not_elem_of_cons in Hnot as [Hne Hnot].
  simpl in Hne. simpl.
  destruct (remote_wins (pets d) pid0 r0); [|by apply IH].
  unfold insert_or_replace_pet. destruct (_ && _); [|done].
  rewrite IH by done. simpl. by rewrite lookup_insert_ne.
Qed.

Lemma pull_loop_cases (rows : list (string * Pet.row)) :
  ∀ n d, NoDup rows.*1 →
    ∀ pid,
      pets (pull_loop rows n d).2 !! pid = pets d !! pid
      ∨ ∃ r, (pid, r) ∈ rows
             ∧ remote_wins (pets d) pid r = true
             ∧ pets (pull_loop rows n d).2 !! pid
               = Some (Pet.set_sync_status "synced" r).
Proof.
  induction rows as [|[pid0 r0] rest IH]; intros n d Hnd pid; [by left|].
  rewrite fmap_cons in Hnd. apply NoDup_cons in Hnd as [Hfresh Hnd].
  simpl in Hfresh. simpl.
  destruct (remote_wins (pets d) pid0 r0) eqn:Hwin.
  - unfold insert_or_replace_pet.
    destruct (_ && _); [|by left].
    set (d1 := set_pets (<[pid0:=Pet.set_sync_status "synced" r0]> (pets d)) d).
    destruct (decide (pid = pid0)) as [->|Hne].
    + right. exists r0. split; [apply elem_of_cons; by left|].
      split; [done|].
      rewrite pull_loop_untouched by done. subst d1. simpl.
      by rewrite lookup_insert_eq.
    + destruct (IH (S n) d1 Hnd pid) as [Hsame | (r & Hin & Hw & Hres)].
      * left. rewrite Hsame. subst d1. simpl. by rewrite lookup_insert_ne.
      * right. exists r. split; [apply elem_of_cons; by right|].
        split; [|done]. subst d1. simpl in Hw.
        by rewrite remote_wins_insert_ne in Hw.
  - destruct (IH n d Hnd pid) as [Hsame | (r & Hin & Hw & Hres)];
      [by left|].
    right. exists r. split; [apply elem_of_cons; by right | done].
Qed.

Lemma pull_from_remote_cases (user_id : string) (w : DatabaseManager) :
  let w' := (pull_from_remote user_id w).2 in
  (∀ pid,
     pets (local_conn w') !! pid = pets (local_conn w) !! pid
     ∨ ∃ r, pets (remote_db w) !! pid = Some r
            ∧ Pet.user_id r = user_id
            ∧ (pets (local_conn w) !! pid = None
               ∨ ∃ l, pets (local_conn w) !! pid = Some l
                      ∧ (Pet.updated_at l <? Pet.updated_at r)%string = true)
            ∧ pets (local_conn w') !! pid
              = Some (Pet.set_sync_status "synced" r))
  ∧ users (local_conn w') = users (local_conn w)
  ∧ sync_log (local_conn w') = sync_log (local_conn w)
  ∧ remote_db w' = remote_db w.
Proof.
  intros w'. subst w'. unfold pull_from_remote, remote_round.
  destruct (negb (_is_online w) || negb (remote_conn w));
    [by repeat split; left|].
  simpl. destruct (remote_raises (remote_rounds w)); [by repeat split; left|].
  set (rows := map_to_list (pets_of user_id (remote_db w))).
  pose proof (pull_loop_cases rows 0 (local_conn w)
                (NoDup_fst_map_to_list _)) as Hcases.
  destruct (pull_loop_keeps rows 0 (local_conn w)) as (Hu & Hl & _).
  destruct (pull_loop rows 0 (local_conn w)) as [n d]. simpl in *.
  split; [|done].
  intros pid. destruct (Hcases pid) as [Hsame | (r & Hin & Hw & Hres)];
    [by left|].
  right. exists r. apply elem_of_map_to_list in Hin.
  apply map_lookup_filter_Some in Hin as [Hr Huid]. simpl in Huid.
  split; [done|]. split; [done|]. split; [|done].
  unfold remote_wins in Hw.
  destruct (pets (local_conn w) !! pid) as [l|]; [|by left].
  right. by exists l.
Qed.

(** X7: whatever the remote holds and whether or not the fetch goes
    through, [pull_from_remote] never loses local work: each local pet row
    is afterwards the row it was, or a remote row of the requested owner
    that had no local row or a strictly later [updated_at], marked synced;
    accounts, journal and the remote database are untouched. *)
Theorem pull_only_installs_newer (user_id : string) (w : DatabaseManager) :
  let w' := (pull_from_remote user_id w).2 in
  (∀ pid,
     pets (local_conn w') !! pid = pets (local_conn w) !! pid
     ∨ ∃ r, pets (remote_db w) !! pid = Some r
            ∧ Pet.user_id r = user_id
            ∧ (pets (local_conn w) !! pid = None
               ∨ ∃ l, pets (local_conn w) !! pid = Some l
                      ∧ (Pet.updated_at l <? Pet.updated_at r)%string = true)
            ∧ pets (local_conn w') !! pid
              = Some (Pet.set_sync_status "synced" r))
  ∧ users (local_conn w') = users (local_conn w)
  ∧ sync_log (local_conn w') = sync_log (local_conn w)
  ∧ remote_db w' = remote_db w.
Proof. apply pull_from_remote_cases. Qed.

Lemma pull_loop_idem (rows : list (string * Pet.row)) :
  NoDup rows.*1 →
  ∀ n d, pull_loop rows 0 (pull_loop rows n d).2 = (0, (pull_loop rows n d).2).
Proof.
  induction rows as [|[pid0 r0] rest IH]; intros Hnd n d; [done|].
  rewrite fmap_cons in Hnd. apply NoDup_cons in Hnd as [Hfresh Hnd].
  simpl in Hfresh.
  change (pull_loop ((pid0, r0) :: rest) n d)
    with (if remote_wins (pets d) pid0 r0 then
            match insert_or_replace_pet pid0 (Pet.set_sync_status "synced" r0) d with
            | Some d' => pull_loop rest (S n) d'
            | None => (n, d)
            end
          else pull_loop rest n d).
  destruct (remote_wins (pets d) pid0 r0) eqn:Hwin.
  - destruct (insert_or_replace_pet pid0 _ d) as [d1|] eqn:Hins.
    + simpl.
      assert (pets (pull_loop rest (S n) d1).2 !! pid0
              = Some (Pet.set_sync_status "synced" r0)) as Hat.
      { rewrite pull_loop_untouched by done. unfold insert_or_replace_pet in Hins.
        destruct (_ && _); [|done]. injection Hins as <-. simpl.
        by rewrite lookup_insert_eq. }
      unfold remote_wins at 1. rewrite Hat. simpl. rewrite ltb_irrefl.
      by apply IH.
    + simpl. by rewrite Hwin, Hins.
  - simpl.
    assert (remote_wins (pets (pull_loop rest n d).2) pid0 r0 = false) as ->.
    { unfold remote_wins in *. by rewrite pull_loop_untouched. }
    by apply IH.
Qed.

(** X8: a pull repeated right after a pull whose fetch went through brings
    nothing new: it returns a count of zero and leaves the local and the
    remote database exactly as the first pull left them. *)
Theorem pull_twice_same (user_id : string) (w : DatabaseManager) :
  remote_raises (remote_rounds w) = false →
  let w1 := (pull_from_remote user_id w).2 in
  (pull_from_remote user_id w1).1 !! "pets" = Some (VInt 0)
  ∧ local_conn (pull_from_remote user_id w1).2 = local_conn w1
  ∧ remote_db (pull_from_remote user_id w1).2 = remote_db w1.
Proof.
  intros Hfetch w1. subst w1.
  set (rows := map_to_list (pets_of user_id (remote_db w))).
  destruct (negb (_is_online w) || negb (remote_conn w)) eqn:Hoff.
  { assert (pull_from_remote user_id w = (pull_result 0 "offline", w)) as ->
      by (unfold pull_from_remote; by rewrite Hoff).
    simpl. unfold pull_from_remote. by rewrite Hoff. }
  assert (pull_from_remote user_id w
          = (pull_result (pull_loop rows 0 (local_conn w)).1 "online",
             set_local (pull_loop rows 0 (local_conn w)).2 (remote_round w).2))
    as ->.
  { unfold pull_from_remote, remote_round. rewrite Hoff, Hfetch. simpl.
    fold rows. by destruct (pull_loop rows 0 (local_conn w)). }
  pose proof (pull_loop_idem rows (NoDup_fst_map_to_list _) 0 (local_conn w))
    as Hidem.
  simpl. unfold pull_from_remote, remote_round. simpl. rewrite Hoff. simpl.
  destruct (remote_raises (S (remote_rounds w))); [done|].
  fold rows. rewrite Hidem. done.
Qed.

Lemma push_pet_other (rid pid : string) (w : DatabaseManager) :
  pid ≠ rid →
  pets (local_conn (_sync_pet_to_remote rid w).2) !! pid
  = pets (local_conn w) !! pid
  ∧ pets (remote_db (_sync_pet_to_remote rid w).2) !! pid
    = pets (remote_db w) !! pid.
Proof.
  intros Hne. destruct (_sync_pet_to_remote rid w).1 eqn:Hok.
  - destruct (push_pet_success rid w Hok)
      as (pet & _ & _ & _ & _ & _ & _ & ->).
    simpl. by rewrite lookup_alter_ne, lookup_insert_ne.
  - destruct (_sync_pet_to_remote_cases rid w)
      as (_ & _ & _ & _ & _ & [(_ & -> & ->) | (Htrue & _)]); [done|].
    congruence.
Qed.

Lemma push_pet_flags (rid : string) (w : DatabaseManager) :
  _is_online (_sync_pet_to_remote rid w).2 = _is_online w
  ∧ remote_conn (_sync_pet_to_remote rid w).2 = remote_conn w.
Proof.
  unfold _sync_pet_to_remote, remote_round.
  destruct (_is_online w) eqn:Hon; simpl; [|done].
  destruct (remote_conn w) eqn:Hconn; simpl; [|done].
  destruct (pets (local_conn w) !! rid); [|done].
  destruct (remote_raises (remote_rounds w)); simpl; [done|].
  by destruct (insert_or_replace_pet _ _ _).
Qed.

Lemma push_loop_pets_other (ids : list string) (pid : string) :
  pid ∉ ids →
  ∀ n w,
    pets (local_conn (push_loop _sync_pet_to_remote ids n w).2) !! pid
    = pets (local_conn w) !! pid
    ∧ pets (remote_db (push_loop _sync_pet_to_remote ids n w).2) !! pid
      = pets (remote_db w) !! pid.
Proof.
  induction ids as [|rid rest IH]; intros Hnot n w; [done|].
  apply not_elem_of_cons in Hnot as [Hne Hnot]. simpl.
  destruct (push_pet_other rid pid w Hne) as [Hl Hr].
  destruct (_sync_pet_to_remote rid w) as [ok w1]. simpl in *.
  destruct (IH Hnot (if ok then S n else n) w1) as [Hl' Hr'].
  by rewrite Hl', Hr'.
Qed.

Lemma push_loop_pets_lands (ids : list string) :
  (∀ k, remote_raises k = false) →
  ∀ n w pid l,
    NoDup ids → pid ∈ ids →
    pets (local_conn w) !! pid = Some l → Pet.not_null l = true →
    is_Some (users (remote_db w) !! Pet.user_id l) →
    _is_online w = true → remote_conn w = true →
    pets (local_conn (push_loop _sync_pet_to_remote ids n w).2) !! pid
    = Some (Pet.set_sync_status "synced" l)
    ∧ pets (remote_db (push_loop _sync_pet_to_remote ids n w).2) !! pid
      = Some (Pet.set_sync_status "synced" l).
Proof.
  intros Hnet. induction ids as [|rid rest IH];
    intros n w pid l Hnd Hin Hl Hnn Hfk Hon Hconn;
    [by apply elem_of_nil in Hin|].
  apply NoDup_cons in Hnd as [Hfresh Hnd]. simpl.
  destruct (push_pet_flags rid w) as [Hon1 Hconn1].
  apply elem_of_cons in Hin as [-> | Hin].
  - assert ((_sync_pet_to_remote rid w).1 = true) as Hok.
    { destruct (push_pet_step rid w l Hon Hconn Hl) as (-> & _).
      rewrite Hnet, Hnn. unfold has_owner. by rewrite bool_decide_eq_true_2. }
    destruct (push_pet_success rid w Hok)
      as (pet & Hpet & _ & _ & _ & _ & _ & Hw1).
    rewrite Hl in Hpet. injection Hpet as <-.
    destruct (_sync_pet_to_remote rid w) as [ok w1]. simpl in *. subst ok w1.
    destruct (push_loop_pets_other rest rid Hfresh (S n)
                (mkDM (mark_pet "synced" rid (local_conn w))
                   (set_pets (<[rid:=Pet.set_sync_status "synced" l]>
                                (pets (remote_db w))) (remote_db w))
                   true true (clock_reads w) (ids_drawn w)
                   (S (remote_rounds w)))) as [-> ->].
    simpl. by rewrite lookup_alter_eq, Hl, lookup_insert_eq.
  - assert (pid ≠ rid) as Hne by (intros ->; done).
    destruct (push_pet_other rid pid w Hne) as [Hl1 _].
    assert (users (remote_db (_sync_pet_to_remote rid w).2)
            = users (remote_db w)) as Hru.
    { destruct (_sync_pet_to_remote rid w).1 eqn:Hok.
      - destruct (push_pet_success rid w Hok)
          as (pet & _ & _ & _ & _ & _ & _ & ->). done.
      - destruct (_sync_pet_to_remote_cases rid w)
          as (_ & _ & _ & _ & _ & [(_ & _ & ->) | (Htrue & _)]); [done|].
        congruence. }
    destruct (_sync_pet_to_remote rid w) as [ok w1]. simpl in *.
    apply IH; try done; congruence.
Qed.

Lemma push_loop_users_frame (ids : list string) :
  ∀ n w,
    pets (local_conn (push_loop _sync_user_to_remote ids n w).2)
    = pets (local_conn w)
    ∧ pets (remote_db (push_loop _sync_user_to_remote ids n w).2)
      = pets (remote_db w)
    ∧ _is_online (push_loop _sync_user_to_remote ids n w).2 = _is_online w
    ∧ remote_conn (push_loop _sync_user_to_remote ids n w).2 = remote_conn w.
Proof.
  induction ids as [|rid rest IH]; intros n w; [done|]. simpl.
  assert (pets (local_conn (_sync_user_to_remote rid w).2) = pets (local_conn w)
          ∧ pets (remote_db (_sync_user_to_remote rid w).2) = pets (remote_db w)
          ∧ _is_online (_sync_user_to_remote rid w).2 = _is_online w
          ∧ remote_conn (_sync_user_to_remote rid w).2 = remote_conn w)
    as (H1 & H2 & H3 & H4).
  { unfold _sync_user_to_remote, remote_round.
    destruct (_is_online w) eqn:Hon; simpl; [|done].
    destruct (remote_conn w) eqn:Hconn; simpl; [|done].
    destruct (users (local_conn w) !! rid); [|done].
    destruct (remote_raises (remote_rounds w)); [done|].
    unfold insert_or_replace_user. simpl.
    by destruct (orphans_pets _ _ _). }
  destruct (_sync_user_to_remote rid w) as [ok w1]. simpl in *.
  destruct (IH (if ok then S n else n) w1) as (-> & -> & -> & ->). done.
Qed.

(** A push of one account over a connection that answers: either the
    remote refuses the row and nothing changes, or the row is written to
    the remote in the place of every row of its username. *)
Lemma push_user_cases (rid : string) (w : DatabaseManager) :
  _is_online w = true → remote_conn w = true →
  remote_raises (remote_rounds w) = false →
  let r := _sync_user_to_remote rid w in
  (users (local_conn r.2) = users (local_conn w)
   ∧ users (remote_db r.2) = users (remote_db w)
   ∧ (∀ u, users (local_conn w) !! rid = Some u →
           orphans_pets rid u (remote_db w) = true))
  ∨ (∃ u, users (local_conn w) !! rid = Some u
          ∧ users (local_conn r.2)
            = <[rid := User.set_sync_status "synced" u]> (users (local_conn w))
          ∧ users (remote_db r.2)
            = <[rid := User.set_sync_status "synced" u]>
                (filter (λ kv, User.username kv.2 ≠ User.username u)
                        (users (remote_db w)))).
Proof.
  intros Hon Hconn Hnet. unfold _sync_user_to_remote, remote_round.
  rewrite Hon, Hconn. simpl.
  destruct (users (local_conn w) !! rid) as [u|] eqn:Hu; [|by left].
  rewrite Hnet. unfold insert_or_replace_user.
  change (orphans_pets rid (User.set_sync_status "synced" u) (remote_db w))
    with (orphans_pets rid u (remote_db w)).
  destruct (orphans_pets rid u (remote_db w)) eqn:Horph; simpl.
  - left. split; [done|]. split; [done|]. by intros ? [= <-].
  - right. exists u. split; [done|]. split; [|done].
    apply map_eq. intros k. rewrite lookup_alter, lookup_insert.
    case_decide; subst; [by rewrite Hu | done].
Qed.

(** The loop over the pending accounts, every call answering, leaves the
    account [owner] on the remote when it was there under its username or
    is among the rows pushed, and that username belongs to no other
    account on either side. *)
Lemma push_loop_users_owner (owner name : string) (ids : list string) :
  (∀ k, remote_raises k = false) →
  ∀ n w,
    _is_online w = true → remote_conn w = true →
    (∃ o, users (local_conn w) !! owner = Some o ∧ User.username o = name) →
    (∀ k r, users (local_conn w) !! k = Some r → User.username r = name →
            k = owner) →
    (∀ k r, users (remote_db w) !! k = Some r → User.username r = name →
            k = owner) →
    (owner ∈ ids
     ∨ ∃ o', users (remote_db w) !! owner = Some o' ∧ User.username o' = name) →
    is_Some (users (remote_db (push_loop _sync_user_to_remote ids n w).2)
               !! owner).
Proof.
  intros Hnet. induction ids as [|rid rest IH];
    intros n w Hon Hconn (o & Ho & Hname) Hlocal Hremote Hcase.
  { destruct Hcase as [Hin | (o' & Ho' & _)];
      [by apply elem_of_nil in Hin | by eexists]. }
  simpl.
  destruct (push_loop_users_frame [rid] 0 w) as (_ & _ & Hon1 & Hconn1).
  simpl in Hon1, Hconn1.
  pose proof (push_user_cases rid w Hon Hconn (Hnet _)) as Hstep.
  destruct (_sync_user_to_remote rid w) as [ok w1]. simpl in *.
  apply IH; try congruence.
  - destruct Hstep as [(-> & _) | (u & Hu & -> & _)]; [by eauto|].
    destruct (decide (owner = rid)) as [->|Hne].
    + rewrite lookup_insert_eq. rewrite Ho in Hu. injection Hu as <-.
      by eexists.
    + rewrite lookup_insert_ne by done. by eauto.
  - destruct Hstep as [(-> & _) | (u & Hu & -> & _)]; [done|].
    intros k r Hk Hr. destruct (decide (k = rid)) as [->|Hne].
    + rewrite lookup_insert_eq in Hk. injection Hk as <-.
      by apply (Hlocal rid u).
    + rewrite lookup_insert_ne in Hk by done. by apply (Hlocal k r).
  - destruct Hstep as [(_ & -> & _) | (u & Hu & _ & ->)]; [done|].
    intros k r Hk Hr. destruct (decide (k = rid)) as [->|Hne].
    + rewrite lookup_insert_eq in Hk. injection Hk as <-.
      by apply (Hlocal rid u).
    + rewrite lookup_insert_ne in Hk by done.
      apply map_lookup_filter_Some in Hk as [Hk _]. by apply (Hremote k r).
  - destruct Hstep as [(_ & Hsame & Horph) | (u & Hu & _ & Hnew)].
    + rewrite Hsame. destruct Hcase as [Hin | Hthere]; [|by right].
      apply elem_of_cons in Hin as [-> | Hin]; [|by left].
      exfalso. specialize (Horph o Ho). unfold orphans_pets in Horph.
      apply bool_decide_eq_true_1 in Horph as (k & p & _ & x & Hx).
      unfold displaced in Hx.
      apply map_lookup_filter_Some in Hx as [Hx [Hne Hsame']]. simpl in *.
      apply Hne. apply (Hremote _ x Hx). congruence.
    + rewrite Hnew. destruct (decide (owner = rid)) as [->|Hne].
      * right. rewrite lookup_insert_eq. rewrite Ho in Hu. injection Hu as <-.
        by eexists.
      * destruct Hcase as [Hin | (o' & Ho' & Hname')].
        -- apply elem_of_cons in Hin as [-> | Hin]; [done | by left].
        -- right. exists o'. split; [|done].
           rewrite lookup_insert_ne by done.
           apply map_lookup_filter_Some. split; [done|]. simpl.
           intros Heq. apply Hne. symmetry. apply (Hlocal rid u Hu). congruence.
Qed.

(** X9: with the remote configured and every remote call going through, a
    full sync leaves every pending, well-formed local pet row synced, with
    the same columns, both locally and on the remote, whatever the remote
    held for that id before, a later version included: the push comes first
    and does not compare timestamps, and the pull that follows finds equal
    timestamps and keeps the local row.  The pet's owner has a local
    account row, pending or already on the remote under the same username,
    and no other account, local or remote, carries that username: the
    accounts are pushed before the pets, and the remote takes a pet only
    with its owner's row. *)
Theorem full_sync_converges (user_id pid : string) (w : DatabaseManager)
    (l : Pet.row) (o : User.row) :
  is_remote_configured = true →
  (∀ k, remote_raises k = false) →
  pets (local_conn w) !! pid = Some l →
  Pet.sync_status l = "pending" →
  Pet.not_null l = true →
  users (local_conn w) !! Pet.user_id l = Some o →
  (User.sync_status o = "pending"
   ∨ ∃ o', users (remote_db w) !! Pet.user_id l = Some o'
           ∧ User.username o' = User.username o) →
  (∀ k r, users (local_conn w) !! k = Some r →
          User.username r = User.username o → k = Pet.user_id l) →
  (∀ k r, users (remote_db w) !! k = Some r →
          User.username r = User.username o → k = Pet.user_id l) →
  pets (local_conn (full_sync user_id w).2) !! pid
  = Some (Pet.set_sync_status "synced" l)
  ∧ pets (remote_db (full_sync user_id w).2) !! pid
    = Some (Pet.set_sync_status "synced" l).
Proof.
  intros Hcfg Hnet Hl Hpending Hnn Ho Howner Hulocal Huremote.
  assert (Hc : check_connection w = (true, (check_connection w).2)).
  { unfold check_connection, _try_connect_remote, remote_round.
    rewrite Hcfg. simpl. by rewrite !Hnet. }
  destruct (check_connection_true _ _ Hc) as (Hon & Hconn & Hloc & Hrem & _).
  set (w0 := (check_connection w).2) in *.
  unfold full_sync, sync_all_pending. rewrite Hc. simpl.
  destruct (push_loop_users_frame (pending_user_ids (local_conn w0)) 0 w0)
    as (Hp1 & _ & Hon1 & Hconn1).
  assert (Hthere : is_Some (users (remote_db (push_loop _sync_user_to_remote
                                 (pending_user_ids (local_conn w0)) 0 w0).2)
                              !! Pet.user_id l)).
  { apply (push_loop_users_owner (Pet.user_id l) (User.username o)); try done.
    - exists o. by rewrite Hloc.
    - by rewrite Hloc.
    - by rewrite Hrem.
    - destruct Howner as [Hp | Hr]; [left | right; by rewrite Hrem].
      apply pending_user_ids_spec. exists o. by rewrite Hloc. }
  destruct (push_loop _sync_user_to_remote _ 0 w0) as [nu w1]. simpl in *.
  assert (pid ∈ pending_pet_ids (local_conn w1)) as Hin.
  { apply pending_pet_ids_spec. exists l. by rewrite Hp1, Hloc. }
  destruct (push_loop_pets_lands (pending_pet_ids (local_conn w1)) Hnet 0 w1
              pid l (NoDup_fst_map_to_list _) Hin)
    as [Hlocal Hremote]; try congruence.
  destruct (push_loop _sync_pet_to_remote _ 0 w1) as [np w2]. simpl in *.
  destruct (pull_from_remote_cases user_id w2) as (Hcases & _ & _ & Hrdb).
  destruct (pull_from_remote user_id w2) as [q w3]. simpl in *.
  rewrite Hrdb. split; [|done].
  destruct (Hcases pid) as [-> | (r & Hr & _ & Hwin & _)]; [done|].
  rewrite Hremote in Hr. injection Hr as <-.
  destruct Hwin as [Hnone | (l' & Hl' & Hlt)]; [congruence|].
  rewrite Hlocal in Hl'. injection Hl' as <-.
  by rewrite ltb_irrefl in Hlt.
Qed.

Lemma pull_loop_no_owner (rows : list (string * Pet.row)) :
  ∀ n d,
    (∀ kv, kv ∈ rows → has_owner kv.2 d = false) →
    pull_loop rows n d = (n, d).
Proof.
  induction rows as [|[pid0 r0] rest IH]; intros n d Hfk; [done|].
  simpl. destruct (remote_wins (pets d) pid0 r0).
  - unfold insert_or_replace_pet.
    change (has_owner (Pet.set_sync_status "synced" r0) d)
      with (has_owner (pid0, r0).2 d).
    rewrite Hfk by (apply elem_of_cons; by left).
    by rewrite andb_false_r.
  - apply IH. intros kv Hin. apply Hfk, elem_of_cons. by right.
Qed.

(** X23: a pull for an owner whose account has no row in the local
    database installs nothing, whatever the remote holds for that owner:
    the first row to install is refused by the foreign key of [pets], the
    loop is left, and the count is zero.  Accounts are never pulled, so a
    local database that does not hold the account cannot receive its
    pets. *)
Theorem pull_without_owner_row (user_id : string) (w : DatabaseManager) :
  users (local_conn w) !! user_id = None →
  (pull_from_remote user_id w).1 !! "pets" = Some (VInt 0)
  ∧ local_conn (pull_from_remote user_id w).2 = local_conn w
  ∧ remote_db (pull_from_remote user_id w).2 = remote_db w.
Proof.
  intros Hnone. unfold pull_from_remote, remote_round.
  destruct (negb (_is_online w) || negb (remote_conn w)); [done|].
  simpl. destruct (remote_raises (remote_rounds w)); [done|].
  rewrite pull_loop_no_owner; [done|].
  intros [pid r] Hin. apply elem_of_map_to_list in Hin.
  apply map_lookup_filter_Some in Hin as [_ Hu]. simpl in *.
  unfold has_owner. rewrite Hu, Hnone.
  apply bool_decide_eq_false_2. by intros [? ?].
Qed.

End PullMore.

Section ReadersMore.

Context {E : Env}.

Lemma order_by_le_total (a b : value) :
  order_by_le a b = true ∨ order_by_le b a = true.
Proof.
  destruct a, b; simpl; auto using String.leb_total.
Qed.

#[local] Instance by_name_total : Total by_name.
Proof. intros a b. apply order_by_le_total. Qed.

Lemma get_pets_by_user_facts (user_id : string) (w : DatabaseManager) :
  (∀ pid row,
     pets (local_conn w) !! pid = Some row
     ∧ Pet.user_id row = user_id ∧ Pet.is_deleted row = 0%Z →
     (pid, row) ∈ get_pets_by_user user_id w)
  ∧ (∀ pid row,
     (pid, row) ∈ get_pets_by_user user_id w →
     pets (local_conn w) !! pid = Some row
     ∧ Pet.user_id row = user_id ∧ Pet.is_deleted row = 0%Z).
Proof.
  unfold get_pets_by_user.
  split; intros pid row; rewrite merge_sort_Permutation, elem_of_map_to_list;
    rewrite map_lookup_filter_Some; simpl; tauto.
Qed.

(** X10: [get_pets_by_user] returns exactly the pets of that owner that are
    not soft-deleted, each once, in the order of [ORDER BY name] (names that
    are text: by string comparison). *)
Theorem get_pets_by_user_spec (user_id : string) (w : DatabaseManager) :
  (∀ pid row,
     (pid, row) ∈ get_pets_by_user user_id w
     ↔ pets (local_conn w) !! pid = Some row
       ∧ Pet.user_id row = user_id ∧ Pet.is_deleted row = 0%Z)
  ∧ NoDup (get_pets_by_user user_id w).*1
  ∧ Sorted by_name (get_pets_by_user user_id w).
Proof.
  split; [|split].
  - intros pid row. split; apply get_pets_by_user_facts.
  - unfold get_pets_by_user. rewrite merge_sort_Permutation.
    apply NoDup_fst_map_to_list.
  - apply Sorted_merge_sort. apply _.
Qed.

End ReadersMore.

Section MutationsMore.

Context {E : Env}.

Lemma store_as_given (a : affinity) (v : value) :
  stored_as_given a v = true → store a v = Some v.
Proof.
  destruct a, v as [|s|z|bits]; simpl; try done.
  - by intros ->.
  - intros [Hnan Hzero]%andb_true_iff.
    apply negb_true_iff in Hnan, Hzero. rewrite Hnan.
    apply Z.eqb_neq in Hzero. by rewrite bool_decide_eq_false_2.
Qed.

Lemma create_pet_read_back
    (user_id : string) (name species breed age weight notes : value)
    (w : DatabaseManager) (new_id : string) :
  (create_pet user_id name species breed age weight notes w).1 = Some new_id →
  let w' := (create_pet user_id name species breed age weight notes w).2 in
  get_pet_by_id new_id w = None
  ∧ is_Some (users (local_conn w) !! user_id)
  ∧ ∃ row, get_pet_by_id new_id w' = Some row
      ∧ (new_id, row) ∈ get_pets_by_user user_id w'
      ∧ Pet.user_id row = user_id
      ∧ store TEXT name = Some (Pet.name row)
      ∧ store TEXT species = Some (Pet.species row)
      ∧ store TEXT breed = Some (Pet.breed row)
      ∧ store INTEGER age = Some (Pet.age row)
      ∧ store REAL weight = Some (Pet.weight row)
      ∧ store TEXT notes = Some (Pet.notes row)
      ∧ is_null (Pet.name row) = false ∧ is_null (Pet.species row) = false
      ∧ Pet.is_deleted row = 0%Z.
Proof.
  rewrite create_pet_unfold. cbv zeta.
  destruct (bind_pet _ _ _ _ _ _ _ _ ≫= _) as [d|] eqn:Hins; [|done].
  apply bind_Some in Hins as (r1 & Hb & Hins).
  apply bind_pet_Some in Hb
    as (Hn & Hs & Hbr & Ha & Hw & Hnt & Hu & _ & _ & Hdel & _).
  unfold insert_pet in Hins.
  destruct (pets (local_conn w) !! uuid4 (ids_drawn w)) eqn:Hfree; [done|].
  destruct (Pet.not_null r1) eqn:Hnn; [|done].
  destruct (has_owner r1 (local_conn w)) eqn:Hfk; [|done].
  simpl in Hins. injection Hins as <-.
  match goal with |- context [_log_change ?t ?i ?o ?v] => set (w1 := v) end.
  assert (Hw1 : pets (local_conn w1) !! uuid4 (ids_drawn w) = Some r1).
  { subst w1. simpl. by rewrite lookup_insert_eq. }
  destruct (after_row_write "INSERT" _ w1 r1 Hw1) as (Hcases & _ & _).
  destruct (_log_change "pets" (uuid4 (ids_drawn w)) "INSERT" w1)
    as [[] v]; [|done].
  simpl in *. intros [= <-].
  split; [unfold get_pet_by_id; by rewrite Hfree|].
  split. { unfold has_owner in Hfk. apply bool_decide_eq_true_1 in Hfk.
           by rewrite Hu in Hfk. }
  apply andb_true_iff in Hnn as [Hnn1 Hnn2].
  apply negb_true_iff in Hnn1, Hnn2.
  set (w' := sync_if_online _sync_pet_to_remote (uuid4 (ids_drawn w)) v) in *.
  assert (∃ row, pets (local_conn w') !! uuid4 (ids_drawn w) = Some row
                 ∧ Pet.set_sync_status "synced" row
                   = Pet.set_sync_status "synced" r1) as (row & Hrow & Heq).
  { destruct Hcases as [H | (_ & H & _)]; eauto. }
  assert (Pet.user_id row = Pet.user_id r1 ∧ Pet.name row = Pet.name r1
          ∧ Pet.species row = Pet.species r1 ∧ Pet.breed row = Pet.breed r1
          ∧ Pet.age row = Pet.age r1 ∧ Pet.weight row = Pet.weight r1
          ∧ Pet.notes row = Pet.notes r1
          ∧ Pet.is_deleted row = Pet.is_deleted r1)
    as (Hu' & H1 & H2 & H3 & H4 & H5 & H6 & Hd).
  { destruct row, r1. by injection Heq as -> -> -> -> -> -> -> _ _ ->. }
  exists row. split.
  { unfold get_pet_by_id. rewrite Hrow, Hd, Hdel. done. }
  split.
  { apply (proj1 (get_pets_by_user_facts user_id w')).
    split; [done|]. split; congruence. }
  rewrite H1, H2, H3, H4, H5, H6. repeat split; try done; congruence.
Qed.

(** X11: a pet that [create_pet] reports created can be read back: the
    identifier was unused before, the owner has an account row,
    [get_pet_by_id] returns a row of that owner, not deleted, whose six
    columns hold what SQLite stores for the values given (the value itself
    when it has the class of its column), with a name and a species that
    are not NULL, and the owner's list contains it. *)
Theorem create_pet_then_read
    (user_id : string) (name species breed age weight notes : value)
    (w : DatabaseManager) (new_id : string) :
  (create_pet user_id name species breed age weight notes w).1 = Some new_id →
  let w' := (create_pet user_id name species breed age weight notes w).2 in
  get_pet_by_id new_id w = None
  ∧ is_Some (users (local_conn w) !! user_id)
  ∧ ∃ row, get_pet_by_id new_id w' = Some row
      ∧ (new_id, row) ∈ get_pets_by_user user_id w'
      ∧ Pet.user_id row = user_id
      ∧ store TEXT name = Some (Pet.name row)
      ∧ store TEXT species = Some (Pet.species row)
      ∧ store TEXT breed = Some (Pet.breed row)
      ∧ store INTEGER age = Some (Pet.age row)
      ∧ store REAL weight = Some (Pet.weight row)
      ∧ store TEXT notes = Some (Pet.notes row)
      ∧ (stored_as_given TEXT name = true → Pet.name row = name)
      ∧ (stored_as_given TEXT species = true → Pet.species row = species)
      ∧ (stored_as_given TEXT breed = true → Pet.breed row = breed)
      ∧ (stored_as_given INTEGER age = true → Pet.age row = age)
      ∧ (stored_as_given REAL weight = true → Pet.weight row = weight)
      ∧ (stored_as_given TEXT notes = true → Pet.notes row = notes)
      ∧ is_null (Pet.name row) = false ∧ is_null (Pet.species row) = false
      ∧ Pet.is_deleted row = 0%Z.
Proof.
  intros Hok w'.
  destruct (create_pet_read_back _ _ _ _ _ _ _ _ _ Hok)
    as (Hfree & Howner & row & Hget & Hin & Hu & Hn & Hs & Hb & Ha & Hw & Hnt
        & Hnn1 & Hnn2 & Hdel).
  split; [done|]. split; [done|]. exists row.
  repeat split; try done.
  all: intros Hgiven; apply store_as_given in Hgiven; congruence.
Qed.

Lemma push_missing_pet (pid : string) (w : DatabaseManager) :
  pets (local_conn w) !! pid = None →
  sync_if_online _sync_pet_to_remote pid w = w.
Proof.
  intros Hnone. unfold sync_if_online, _sync_pet_to_remote.
  destruct (_is_online w); [|done].
  destruct (negb true || negb (remote_conn w)); [done|]. by rewrite Hnone.
Qed.

(** X12: an id that names no pet is not detected as such.  [delete_pet]
    reports success and appends its journal entry, although no row is
    written, nothing is pushed and no remote call is made; [update_pet]
    answers [False], as it does for every id, and leaves both databases
    as they were. *)
Theorem mutate_unknown_pet (pid : string) (kwargs : gmap string value)
    (w : DatabaseManager) :
  pets (local_conn w) !! pid = None →
  uuid4 (ids_drawn w) ∉ map Log.id (sync_log (local_conn w)) →
  ((delete_pet pid w).1 = true
   ∧ journal_appended w (delete_pet pid w).2 (uuid4 (ids_drawn w)) "pets" pid "DELETE"
   ∧ pets (local_conn (delete_pet pid w).2) = pets (local_conn w)
   ∧ remote_db (delete_pet pid w).2 = remote_db w
   ∧ remote_rounds (delete_pet pid w).2 = remote_rounds w)
  ∧ ((update_pet pid kwargs w).1 = false
     ∧ local_conn (update_pet pid kwargs w).2 = local_conn w
     ∧ remote_db (update_pet pid kwargs w).2 = remote_db w
     ∧ remote_rounds (update_pet pid kwargs w).2 = remote_rounds w).
Proof.
  intros Hnone Hfresh. unfold journal_appended. split.
  - unfold delete_pet. simpl.
    match goal with |- context [_log_change ?t ?i ?o ?v] =>
      destruct (_log_change_fresh t i o v)
        as (Hok & Hlog & _ & Hpets & Hrdb & _ & _ & Hrounds); [done|];
      destruct (_log_change t i o v) as [ok v'] eqn:Hl end.
    simpl in *. subst ok. simpl.
    assert (pets (local_conn v') !! pid = None) as Hv.
    { rewrite Hpets. unfold delete_pet_row. simpl.
      by rewrite lookup_alter_eq, Hnone. }
    rewrite (push_missing_pet pid v' Hv).
    split; [done|]. split; [done|]. split; [|done].
    rewrite Hpets. unfold delete_pet_row. simpl.
    apply map_eq. intros k. destruct (decide (pid = k)) as [<-|Hne].
    + by rewrite lookup_alter_eq, Hnone.
    + by rewrite lookup_alter_ne.
  - destruct (update_pet_refused pid kwargs w) as (H1 & H2 & H3 & H4 & _).
    done.
Qed.


Lemma create_user_rejects_taken (username password_hash : string)
    (w : DatabaseManager) (uid0 : string) (u0 : User.row) :
  users (local_conn w) !! uid0 = Some u0 →
  User.username u0 = username →
  (create_user username password_hash w).1 = None
  ∧ local_conn (create_user username password_hash w).2 = local_conn w
  ∧ remote_db (create_user username password_hash w).2 = remote_db w
  ∧ remote_rounds (create_user username password_hash w).2 = remote_rounds w.
Proof.
  intros Hu0 Hname. unfold create_user. simpl. unfold insert_user.
  destruct (users (local_conn w) !! uuid4 (ids_drawn w)); [done|].
  unfold username_taken. rewrite bool_decide_eq_true_2; [done|].
  exists uid0, u0. done.
Qed.

(** X14: [create_user] with a username that some account row already
    carries, soft-deleted or not, returns [None] and leaves the local and
    the remote database unchanged, without any remote call. *)
Theorem create_user_taken (username password_hash : string)
    (w : DatabaseManager) (uid0 : string) (u0 : User.row) :
  users (local_conn w) !! uid0 = Some u0 →
  User.username u0 = username →
  (create_user username password_hash w).1 = None
  ∧ local_conn (create_user username password_hash w).2 = local_conn w
  ∧ remote_db (create_user username password_hash w).2 = remote_db w
  ∧ remote_rounds (create_user username password_hash w).2 = remote_rounds w.
Proof. apply create_user_rejects_taken. Qed.

Lemma user_after_row_write (uid : string) (w1 : DatabaseManager) :
  let l := _log_change "users" uid "INSERT" w1 in
  let w' := if l.1 then sync_if_online _sync_user_to_remote uid l.2 else l.2 in
  users (local_conn w') = users (local_conn w1)
  ∨ users (local_conn w')
    = alter (User.set_sync_status "synced") uid (users (local_conn w1)).
Proof.
  destruct (_log_change_frame "users" uid "INSERT" w1) as (Hu & _).
  destruct (_log_change "users" uid "INSERT" w1) as [[] v]; simpl in *;
    [|by left].
  unfold sync_if_online. destruct (_is_online v) eqn:Hon; [|by left].
  unfold _sync_user_to_remote, remote_round. rewrite Hon. simpl.
  destruct (remote_conn v); simpl; [|by left].
  destruct (users (local_conn v) !! uid); [|by left].
  destruct (remote_raises (remote_rounds v)); simpl; [by left|].
  destruct (insert_or_replace_user _ _ _); simpl; [|by left].
  right. by rewrite Hu.
Qed.

Lemma create_user_read_back (username password_hash : string)
    (w : DatabaseManager) (uid : string) :
  (create_user username password_hash w).1 = Some uid →
  let w' := (create_user username password_hash w).2 in
  get_user_by_username username w = None
  ∧ ∃ u, get_user_by_username username w' = Some (uid, u)
      ∧ get_user_by_id uid w' = Some u
      ∧ User.username u = username
      ∧ User.password_hash u = password_hash
      ∧ User.is_deleted u = 0%Z.
Proof.
  unfold create_user. simpl. unfold insert_user.
  destruct (users (local_conn w) !! uuid4 (ids_drawn w)) eqn:Hfree; [done|].
  unfold username_taken. case_bool_decide as Htaken; [done|].
  assert (Hnone : ∀ k x, users (local_conn w) !! k = Some x →
                         User.username x ≠ username).
  { intros k x Hk Hx. apply Htaken. by exists k, x. }
  set (u1 := User.mk username password_hash (utcnow (clock_reads w))
                     (utcnow (clock_reads w)) 0 "pending").
  match goal with |- context [_log_change ?t ?i ?o ?v] => set (w1 := v) end.
  pose proof (user_after_row_write (uuid4 (ids_drawn w)) w1) as Hcases.
  destruct (_log_change "users" (uuid4 (ids_drawn w)) "INSERT" w1)
    as [[] v]; [|done].
  simpl in *. intros [= <-].
  set (w' := sync_if_online _sync_user_to_remote (uuid4 (ids_drawn w)) v) in *.
  split.
  { unfold get_user_by_username.
    replace (filter _ (users (local_conn w))) with (∅ : gmap string User.row);
      [by rewrite map_to_list_empty|].
    symmetry. apply map_eq. intros k. rewrite lookup_empty.
    apply map_lookup_filter_None. right. intros x Hk [Hx _].
    by apply (Hnone k x). }
  assert (∃ u, users (local_conn w') !! uuid4 (ids_drawn w) = Some u
               ∧ User.username u = username
               ∧ User.password_hash u = password_hash
               ∧ User.is_deleted u = 0%Z
               ∧ ∀ k, k ≠ uuid4 (ids_drawn w) →
                      users (local_conn w') !! k = users (local_conn w) !! k)
    as (u & Hu & Hn & Hp & Hd & Hother).
  { destruct Hcases as [-> | ->]; subst w1; simpl.
    - exists u1. rewrite lookup_insert_eq. repeat split; try done.
      intros k Hk. by rewrite lookup_insert_ne.
    - exists (User.set_sync_status "synced" u1).
      rewrite lookup_alter_eq, lookup_insert_eq. repeat split; try done.
      intros k Hk. by rewrite lookup_alter_ne, lookup_insert_ne. }
  exists u. split; [|split; [|done]].
  - unfold get_user_by_username.
    replace (filter _ (users (local_conn w')))
      with ({[ uuid4 (ids_drawn w) := u ]} : gmap string User.row);
      [by rewrite map_to_list_singleton|].
    symmetry. apply map_eq. intros k.
    destruct (decide (k = uuid4 (ids_drawn w))) as [->|Hne].
    + rewrite lookup_singleton_eq. by apply map_lookup_filter_Some.
    + rewrite lookup_singleton_ne by done.
      apply map_lookup_filter_None. right. intros x Hk [Hx _].
      rewrite Hother in Hk by done. by apply (Hnone k x).
  - unfold get_user_by_id. rewrite Hu, Hd. done.
Qed.

(** X15: an account that [create_user] reports created can be read back:
    the username was not found before; afterwards [get_user_by_username]
    returns the new id with a row holding that username and password hash,
    not deleted, and [get_user_by_id] returns the same row. *)
Theorem create_user_then_read (username password_hash : string)
    (w : DatabaseManager) (uid : string) :
  (create_user username password_hash w).1 = Some uid →
  let w' := (create_user username password_hash w).2 in
  get_user_by_username username w = None
  ∧ ∃ u, get_user_by_username username w' = Some (uid, u)
      ∧ get_user_by_id uid w' = Some u
      ∧ User.username u = username
      ∧ User.password_hash u = password_hash
      ∧ User.is_deleted u = 0%Z.
Proof. apply create_user_read_back. Qed.

End MutationsMore.

Section Accounting.

Context {E : Env}.

Section PendingLoop.
Context {R F : Type}.
Variable tbl : DatabaseManager → gmap string R.
Variable good : DatabaseManager → string → R → bool.
Variable mark : R → R.
Variable frame : DatabaseManager → F.
Variable push : string → DatabaseManager → bool * DatabaseManager.
Variable P : string * R → Prop.
Context `{!∀ x, Decision (P x)}.

Hypothesis push_step : ∀ rid w row,
  _is_online w = true → remote_conn w = true → tbl w !! rid = Some row →
  (push rid w).1 = negb (remote_raises (remote_rounds w)) && good w rid row
  ∧ remote_rounds (push rid w).2 = S (remote_rounds w)
  ∧ _is_online (push rid w).2 = true
  ∧ remote_conn (push rid w).2 = true
  ∧ frame (push rid w).2 = frame w
  ∧ tbl (push rid w).2
    = if (push rid w).1 then <[rid := mark row]> (tbl w) else tbl w.

Hypothesis mark_clears : ∀ rid row, ¬ P (rid, mark row).

Lemma push_loop_pending (ids : list string) :
  ∀ n w,
    _is_online w = true → remote_conn w = true → NoDup ids →
    (∀ rid, rid ∈ ids → ∃ row, tbl w !! rid = Some row ∧ P (rid, row)) →
    ∃ k, (push_loop push ids n w).1 = n + k
         ∧ size (filter P (tbl (push_loop push ids n w).2)) + k
           = size (filter P (tbl w)).
Proof.
  induction ids as [|rid rest IH]; intros n w Hon Hconn Hnd Hin.
  { exists 0. simpl. lia. }
  apply NoDup_cons in Hnd as [Hfresh Hnd].
  destruct (Hin rid) as (row & Hrow & HP); [apply elem_of_cons; by left|].
  destruct (push_step rid w row Hon Hconn Hrow)
    as (_ & _ & Hon1 & Hconn1 & _ & Htbl).
  simpl. destruct (push rid w) as [ok w1]. simpl in *.
  assert (Hrest : ∀ r, r ∈ rest → ∃ row', tbl w1 !! r = Some row' ∧ P (r, row')).
  { intros r Hr. destruct (Hin r) as (row' & Hrow' & HP');
      [apply elem_of_cons; by right|].
    exists row'. split; [|done]. rewrite Htbl.
    destruct ok; [|done]. rewrite lookup_insert_ne; [done|].
    intros ->. done. }
  destruct (IH (if ok then S n else n) w1 Hon1 Hconn1 Hnd Hrest)
    as (k & Hk & Hsize).
  destruct ok.
  - exists (S k). split; [lia|].
    assert (filter P (tbl w) !! rid = Some row) as Hf
      by (by apply map_lookup_filter_Some).
    assert (size (filter P (tbl w1)) + 1 = size (filter P (tbl w))); [|lia].
    rewrite Htbl, map_filter_insert_False, map_filter_delete by done.
    rewrite map_size_delete_Some by eauto.
    assert (size (filter P (tbl w)) ≠ 0); [|lia].
    apply map_size_non_empty_iff. intros Hempty.
    by rewrite Hempty, lookup_empty in Hf.
  - exists k. split; [done|]. by rewrite Hsize, Htbl.
Qed.

End PendingLoop.

Lemma push_loop_pets_keep_users (ids : list string) :
  ∀ n w,
    users (local_conn (push_loop _sync_pet_to_remote ids n w).2)
    = users (local_conn w).
Proof.
  induction ids as [|rid rest IH]; intros n w; [done|]. simpl.
  destruct (_sync_pet_to_remote_cases rid w) as (_ & Hu & _).
  destruct (_sync_pet_to_remote rid w) as [ok v]. simpl in *.
  by rewrite IH.
Qed.

(** X16: the counts that [sync_all_pending] returns account for the pending
    rows: per table, the number of rows still pending afterwards (as
    [get_sync_status] reports them) plus the count returned is the number
    that was pending before; this holds whatever fails on the way. *)
Theorem pending_accounting (w : DatabaseManager) :
  ∃ nu np st,
    (sync_all_pending w).1 = push_result nu np st
    ∧ pending_users (get_sync_status (sync_all_pending w).2) + nu
      = pending_users (get_sync_status w)
    ∧ pending_pets (get_sync_status (sync_all_pending w).2) + np
      = pending_pets (get_sync_status w)
    ∧ total_pending (get_sync_status (sync_all_pending w).2) + (nu + np)
      = total_pending (get_sync_status w).
Proof.
  unfold sync_all_pending, get_sync_status. simpl.
  destruct (check_connection w) as [[] w0] eqn:Hc; simpl.
  2:{ pose proof (check_connection_frame w) as (Hl & _).
      rewrite Hc in Hl. simpl in Hl. rewrite Hl.
      exists 0, 0, "offline". repeat split; lia. }
  destruct (check_connection_true _ _ Hc) as (Hon & Hconn & Hl & _ & _).
  assert (Hus : ∀ uid, uid ∈ pending_user_ids (local_conn w0) →
                 ∃ row, users (local_conn w0) !! uid = Some row
                        ∧ User.sync_status (uid, row).2 = "pending").
  { intros uid Hin. by apply pending_user_ids_spec in Hin. }
  destruct (push_loop_pending (λ v, users (local_conn v))
              (λ v rid row, negb (orphans_pets rid row (remote_db v)))
              (User.set_sync_status "synced") _ _sync_user_to_remote
              (λ kv, User.sync_status kv.2 = "pending")
              push_user_step (λ _ _, ltac:(done))
              (pending_user_ids (local_conn w0)) 0 w0 Hon Hconn
              (NoDup_fst_map_to_list _) Hus)
    as (nu & Hnu & Hsize1).
  destruct (push_loop_users_frame (pending_user_ids (local_conn w0)) 0 w0)
    as (Hp1 & _ & Hon1 & Hconn1).
  destruct (push_loop _sync_user_to_remote _ 0 w0) as [nu' w1]. simpl in *.
  assert (Hps : ∀ pid, pid ∈ pending_pet_ids (local_conn w1) →
                 ∃ row, pets (local_conn w1) !! pid = Some row
                        ∧ Pet.sync_status (pid, row).2 = "pending").
  { intros pid Hin. by apply pending_pet_ids_spec in Hin. }
  destruct (push_loop_pending (λ v, pets (local_conn v))
              (λ v rid row, Pet.not_null row && has_owner row (remote_db v))
              (Pet.set_sync_status "synced") _ _sync_pet_to_remote
              (λ kv, Pet.sync_status kv.2 = "pending")
              push_pet_step (λ _ _, ltac:(done))
              (pending_pet_ids (local_conn w1)) 0 w1
              ltac:(congruence) ltac:(congruence)
              (NoDup_fst_map_to_list _) Hps)
    as (np & Hnp & Hsize2).
  pose proof (push_loop_pets_keep_users (pending_pet_ids (local_conn w1)) 0 w1)
    as Hu2.
  destruct (push_loop _sync_pet_to_remote _ 0 w1) as [np' w2]. simpl in *.
  subst nu' np'. exists nu, np, "online".
  rewrite Hu2. rewrite Hp1, Hl in Hsize2. rewrite Hl in Hsize1.
  split; [done|]. lia.
Qed.

End Accounting.

Section AuthMore.

Context {E : Env} {A : AuthEnv}.

(** X17: [register] validates before it touches anything: with a username
    shorter than 3 characters or a password shorter than 6 (characters as
    [len] counts them: code points, not bytes) it reports failure and the
    whole application state is as before: no salt drawn, no identifier or
    clock reading used, no row written. *)
Theorem register_validates (username password : string)
    (app : PetManagerApp) :
  (len username < 3)%nat ∨ (len password < 6)%nat →
  (register username password app).1.1 = false
  ∧ (register username password app).2 = app.
Proof.
  intros Hshort. unfold register.
  destruct (String.eqb username "" || (len username <? 3)%nat)
    eqn:Hu; [done|].
  destruct (String.eqb password "" || (len password <? 6)%nat)
    eqn:Hp; [done|].
  apply orb_false_iff in Hu as [_ Hu], Hp as [_ Hp].
  apply Nat.ltb_ge in Hu, Hp. lia.
Qed.

Lemma get_user_by_username_Some (username : string) (w : DatabaseManager)
    (uid : string) (u : User.row) :
  get_user_by_username username w = Some (uid, u) →
  users (local_conn w) !! uid = Some u
  ∧ User.username u = username ∧ User.is_deleted u = 0%Z.
Proof.
  unfold get_user_by_username. intros Hhead.
  apply head_Some_elem_of, elem_of_map_to_list in Hhead.
  apply map_lookup_filter_Some in Hhead as [Hu [Hn Hd]]. done.
Qed.

Lemma get_user_by_username_None (username : string) (w : DatabaseManager) :
  (∀ uid u, users (local_conn w) !! uid = Some u →
            User.username u = username → User.is_deleted u ≠ 0%Z) →
  get_user_by_username username w = None.
Proof.
  intros Hnone. unfold get_user_by_username.
  replace (filter _ (users (local_conn w))) with (∅ : gmap string User.row);
    [by rewrite map_to_list_empty|].
  symmetry. apply map_eq. intros k. rewrite lookup_empty.
  apply map_lookup_filter_None. right. intros x Hk [Hx Hd].
  by apply (Hnone k x).
Qed.

(** X18: a username that an account row already carries cannot be
    registered again, whether that account is live ("Username already
    exists") or soft-deleted (the UNIQUE constraint makes the insert fail:
    "Registration failed"): [register] reports failure and the local and
    remote databases are unchanged. *)
Theorem register_existing_username (username password : string)
    (app : PetManagerApp) (uid0 : string) (u0 : User.row) :
  users (local_conn (_db app)) !! uid0 = Some u0 →
  User.username u0 = username →
  (register username password app).1.1 = false
  ∧ local_conn (_db (register username password app).2) = local_conn (_db app)
  ∧ remote_db (_db (register username password app).2) = remote_db (_db app)
  ∧ (User.is_deleted u0 = 0%Z →
     (register username password app).2 = app).
Proof.
  intros Hu0 Hname. unfold register.
  destruct (String.eqb username "" || _); [done|].
  destruct (String.eqb password "" || _); [done|].
  destruct (get_user_by_username username (_db app)) as [[uid u]|] eqn:Hget;
    [done|].
  simpl.
  destruct (create_user_rejects_taken username
              (hashpw password (salts_drawn (_auth app))) (_db app) uid0 u0
              Hu0 Hname) as (Hnone & Hl & Hr & _).
  destruct (create_user _ _ (_db app)) as [res d]. simpl in *. subst res.
  simpl. split; [done|]. split; [done|]. split; [done|].
  intros Hlive. exfalso.
  unfold get_user_by_username in Hget.
  assert (filter (λ kv : string * User.row,
                    User.username kv.2 = username ∧ User.is_deleted kv.2 = 0%Z)
                 (users (local_conn (_db app))) !! uid0 = Some u0) as Hin
    by (by apply map_lookup_filter_Some).
  apply elem_of_map_to_list in Hin.
  destruct (map_to_list _); [by apply elem_of_nil in Hin | done].
Qed.

(** X19: login gives one and the same answer, "Invalid username or
    password", and changes nothing (no session, no sync) both when no live
    account carries the username (none at all, or only soft-deleted ones) and
    when the password does not verify. *)
Theorem login_rejects (username password : string) (app : PetManagerApp) :
  (∀ uid u, users (local_conn (_db app)) !! uid = Some u →
            User.username u = username → User.is_deleted u ≠ 0%Z)
  ∨ (∃ user, get_user_by_username username (_db app) = Some user
             ∧ checkpw password (User.password_hash user.2) = Some false) →
  login username password app
  = (Some (false, "Invalid username or password"), app).
Proof.
  intros [Hnone | (user & Hget & Hcheck)]; unfold login.
  - by rewrite (get_user_by_username_None username (_db app) Hnone).
  - rewrite Hget. unfold _verify_password. by rewrite Hcheck.
Qed.

(** X20: an account that [register] reports created can log in with the same
    password, provided [bcrypt] verifies a password against its own hash:
    [login] then succeeds, the current user is the new account with the hash
    of that password, and the session written to the session file names that
    account. *)
Theorem register_then_login (username password : string)
    (app : PetManagerApp) :
  (∀ salt, checkpw password (hashpw password salt) = Some true) →
  (register username password app).1.1 = true →
  let app1 := (register username password app).2 in
  (login username password app1).1 = Some (true, "Login successful")
  ∧ ∃ uid u session,
      _current_user (_auth (login username password app1).2) = Some (uid, u)
      ∧ User.username u = username
      ∧ User.password_hash u = hashpw password (salts_drawn (_auth app))
      ∧ get_user_by_username username (_db app) = None
      ∧ session_file (_auth (login username password app1).2) = Some session
      ∧ _session_data (_auth (login username password app1).2) = Some session
      ∧ session_user_id session = uid
      ∧ session_username session = username.
Proof.
  intros Hbcrypt. unfold register.
  destruct (String.eqb username "" || _); [done|].
  destruct (String.eqb password "" || _); [done|].
  destruct (get_user_by_username username (_db app)) as [?|] eqn:Hget;
    [done|].
  simpl.
  pose proof (create_user_read_back username
                (hashpw password (salts_drawn (_auth app))) (_db app)) as Hread.
  destruct (create_user _ _ (_db app)) as [[uid|] d]; [|done].
  destruct (Hread uid eq_refl) as (_ & u & Hfound & _ & Hn & Hp & _).
  simpl in Hfound. destruct (String.eqb uid ""); [done|]. simpl. intros _.
  unfold login, _verify_password. cbn [_db]. rewrite Hfound.
  cbn [fst snd]. rewrite Hp, Hbcrypt. simpl. split; [done|].
  exists uid, u. eexists. repeat split; try done.
Qed.

End AuthMore.

Section AppMore.

Context {E : Env} {A : AuthEnv}.

Lemma _get_timestamp_evolves (w : DatabaseManager) :
  evolves w (_get_timestamp w).2.
Proof. apply evolves_local; simpl; auto using users_kept_same. Qed.

Lemma login_success (username password : string) (app : PetManagerApp) :
  (login username password app).1 = Some (true, "Login successful") →
  ∃ uid u,
    users (local_conn (_db app)) !! uid = Some u
    ∧ User.username u = username ∧ User.is_deleted u = 0%Z
    ∧ _current_user (_auth (login username password app).2) = Some (uid, u)
    ∧ evolves (_db app) (_db (login username password app).2).
Proof.
  unfold login.
  destruct (get_user_by_username username (_db app)) as [[uid u]|] eqn:Hget;
    [|done].
  destruct (get_user_by_username_Some _ _ _ _ Hget) as (Hu & Hn & Hd).
  destruct (_verify_password password (User.password_hash (uid, u).2))
    as [[]|]; [|done|done].
  intros _. exists uid, u. split; [done|]. split; [done|]. split; [done|].
  cbn [_create_session _db _auth fst snd]. unfold _create_session.
  cbn [_db _auth]. simpl. split; [done|].
  match goal with |- context [full_sync uid ?d] => set (d2 := d) end.
  assert (evolves (_db app) d2) as H2.
  { eapply evolves_trans; [apply (_get_timestamp_evolves (_db app))|].
    apply (_get_timestamp_evolves (_get_timestamp (_db app)).2). }
  destruct (_is_online (_db app)); [|done].
  eapply evolves_trans; [exact H2 | apply full_sync_evolves].
Qed.

(** X21: through the application a pet always gets a live owner: after a
    successful login and any sequence of calls on the manager, the pet that
    [add_pet] reports created (an identifier that could not be read before
    the call) can be read back and is in the list [get_pets] shows; it
    belongs to the logged-in user, carries the name given as its column
    stores it, and that user's account row is still there and not
    soft-deleted. *)
Theorem add_pet_owner_is_live (username password : string)
    (app : PetManagerApp) (cs : list Call) (data : gmap string value) :
  (login username password app).1 = Some (true, "Login successful") →
  let app1 := (login username password app).2 in
  let app2 := mkApp (_auth app1) (calls cs (_db app1)) in
  (add_pet data app2).1 = true →
  ∃ uid pid row,
    user_id (_auth app1) = Some uid
    ∧ get_pet_by_id pid (_db app2) = None
    ∧ get_pet_by_id pid (_db (add_pet data app2).2) = Some row
    ∧ (pid, row) ∈ get_pets (add_pet data app2).2
    ∧ Pet.user_id row = uid
    ∧ store TEXT (default (VText "") (data !! "name")) = Some (Pet.name row)
    ∧ live_owner (_db (add_pet data app2).2) uid.
Proof.
  intros Hlogin app1 app2.
  destruct (login_success username password app Hlogin)
    as (uid & u & Hu & _ & Hd & Hcur & Hev1).
  fold app1 in Hcur, Hev1.
  unfold add_pet, get_pets, no_user, user_id. subst app2. cbn [_auth _db].
  rewrite Hcur. simpl. destruct (String.eqb uid "") eqn:Huid; [done|].
  match goal with |- context [create_pet uid ?a ?b ?c ?d ?e ?f ?w] =>
    pose proof (create_pet_read_back uid a b c d e f w) as Hread;
    pose proof (create_pet_evolves uid a b c d e f w) as Hev3;
    destruct (create_pet uid a b c d e f w) as [[pid|] w3] end;
    [|simpl; done].
  simpl. intros _.
  destruct (Hread pid eq_refl)
    as (Hfree & _ & row & Hget & Hin & Hown & Hname & _).
  exists uid, pid, row. rewrite Hcur. simpl. rewrite Huid.
  split; [done|]. split; [done|]. split; [done|]. split; [done|].
  split; [done|]. split; [done|].
  assert (evolves (_db app) w3) as (_ & Husers & _).
  { eapply evolves_trans; [exact Hev1|].
    eapply evolves_trans; [apply calls_evolves | exact Hev3]. }
  destruct (Husers uid u Hu) as [s Hs].
  exists (User.set_sync_status s u). split; [done|]. by destruct u.
Qed.

(** X22: the periodic [_do_auto_sync] only pushes: it leaves the
    [AuthManager] alone and changes no local column other than
    [sync_status], from pending to synced, in the pets and in the accounts
    alike; no remote row is installed locally, whatever the remote holds,
    and the journal is the same. *)
Theorem auto_sync_push_only (app : PetManagerApp) :
  let app' := _do_auto_sync app in
  _auth app' = _auth app
  ∧ (∀ pid,
       pets (local_conn (_db app')) !! pid = pets (local_conn (_db app)) !! pid
       ∨ ∃ row, pets (local_conn (_db app)) !! pid = Some row
                ∧ Pet.sync_status row = "pending"
                ∧ pets (local_conn (_db app')) !! pid
                  = Some (Pet.set_sync_status "synced" row))
  ∧ (∀ uid,
       users (local_conn (_db app')) !! uid
       = users (local_conn (_db app)) !! uid
       ∨ ∃ row, users (local_conn (_db app)) !! uid = Some row
                ∧ User.sync_status row = "pending"
                ∧ users (local_conn (_db app')) !! uid
                  = Some (User.set_sync_status "synced" row))
  ∧ sync_log (local_conn (_db app')) = sync_log (local_conn (_db app)).
Proof.
  unfold _do_auto_sync.
  destruct (is_authenticated (_auth app)); [|by repeat split; left].
  destruct (check_connection_frame (_db app)) as (Hl & _).
  destruct (check_connection (_db app)) as [[] d]; simpl in *.
  - destruct (sync_all_pending_rows d) as (Hpets & Husers & Hlog).
    rewrite <- Hl. done.
  - rewrite Hl. by repeat split; left.
Qed.

End AppMore.

(** * The further properties at sample inputs *)

Lemma rows_never_removed_witness :
  (∃ s, users (local_conn (calls (E:=env_steady) sample_calls w_start)) !! "u1"
        = Some (User.set_sync_status s ann))
  ∧ is_Some (pets (local_conn (calls (E:=env_steady) sample_calls w_start)) !! "p1").
Proof.
  exact (rows_never_removed (E:=env_steady) sample_calls w_start "u1" "p1"
           ann rex eq_refl eq_refl).
Defined.

Lemma online_implies_connected_witness :
  _is_online (calls (E:=env_steady) sample_calls
                (init (E:=env_steady) local_sample remote_sample)) = true
  ∧ remote_conn (calls (E:=env_steady) sample_calls
                   (init (E:=env_steady) local_sample remote_sample)) = true.
Proof.
  assert (_is_online (calls (E:=env_steady) sample_calls
                        (init (E:=env_steady) local_sample remote_sample))
          = true) as Hon by compute_done.
  split; [exact Hon|].
  exact (online_implies_connected (E:=env_steady) local_sample remote_sample
           sample_calls Hon).
Defined.

Lemma local_only_full_sync_witness :
  full_sync (E:=env_local_only) "u1" w_online
  = (mkFullSync (push_result 0 0 "offline") (pull_result 0 "offline") false,
     set_is_online false w_online).
Proof. exact (local_only_full_sync (E:=env_local_only) "u1" w_online eq_refl). Defined.

Lemma push_twice_same_witness :
  let w1 := (_sync_pet_to_remote (E:=env_steady) "p1" w_online).2 in
  (_sync_pet_to_remote (E:=env_steady) "p1" w1).1 = true
  ∧ local_conn (_sync_pet_to_remote (E:=env_steady) "p1" w1).2 = local_conn w1
  ∧ remote_db (_sync_pet_to_remote (E:=env_steady) "p1" w1).2 = remote_db w1.
Proof.
  destruct (push_twice_same (E:=env_steady) "p1" w_online eq_refl) as [Hpet _].
  apply Hpet. compute_done.
Defined.

Lemma pull_twice_same_witness :
  let w1 := (pull_from_remote (E:=env_steady) "u1" w_online).2 in
  (pull_from_remote (E:=env_steady) "u1" w_online).1 !! "pets" = Some (VInt 2)
  ∧ (pull_from_remote (E:=env_steady) "u1" w1).1 !! "pets" = Some (VInt 0)
  ∧ local_conn (pull_from_remote (E:=env_steady) "u1" w1).2 = local_conn w1.
Proof.
  destruct (pull_twice_same (E:=env_steady) "u1" w_online eq_refl)
    as (Hcount & Hlocal & _).
  split; [compute_done|]. split; [exact Hcount | exact Hlocal].
Defined.

Lemma pull_without_owner_row_witness :
  pets_of "u1" (remote_db w_new_device)
  = {[ "p1" := rex_remote; "p2" := tom_remote; "p4" := zoe_remote ]}
  ∧ (pull_from_remote (E:=env_steady) "u1" w_new_device).1 !! "pets"
    = Some (VInt 0)
  ∧ local_conn (pull_from_remote (E:=env_steady) "u1" w_new_device).2
    = empty_db.
Proof.
  destruct (pull_without_owner_row (E:=env_steady) "u1" w_new_device eq_refl)
    as (Hcount & Hlocal & _).
  split; [by vm_compute|]. split; [exact Hcount | exact Hlocal].
Defined.

Lemma full_sync_converges_witness :
  pets (remote_db w_start) !! "p1" = Some rex_remote
  ∧ (Pet.updated_at rex <? Pet.updated_at rex_remote)%string = true
  ∧ pets (local_conn (full_sync (E:=env_steady) "u1" w_start).2) !! "p1"
    = Some (Pet.set_sync_status "synced" rex)
  ∧ pets (remote_db (full_sync (E:=env_steady) "u1" w_start).2) !! "p1"
    = Some (Pet.set_sync_status "synced" rex).
Proof.
  split; [compute_done|]. split; [compute_done|].
  assert (Hlocal : ∀ k r, users (local_conn w_start) !! k = Some r →
                          User.username r = User.username ann →
                          k = Pet.user_id rex).
  { assert (map_Forall (λ k (r : User.row), k = "u1")
                       (users (local_conn w_start))) as H by compute_done.
    intros k r Hk _. exact (H k r Hk). }
  assert (Hremote : ∀ k r, users (remote_db w_start) !! k = Some r →
                           User.username r = User.username ann →
                           k = Pet.user_id rex).
  { assert (map_Forall (λ k (r : User.row), k = "u1")
                       (users (remote_db w_start))) as H by compute_done.
    intros k r Hk _. exact (H k r Hk). }
  exact (full_sync_converges (E:=env_steady) "u1" "p1" w_start rex ann
           eq_refl (λ _, eq_refl) eq_refl eq_refl eq_refl eq_refl
           (or_introl eq_refl) Hlocal Hremote).
Defined.

Lemma create_pet_then_read_witness :
  let r := create_pet (E:=env_steady) "u1" (VText "Ben") (VText "dog") VNull
             (VInt 2) (VReal negative_zero) VNull w_start in
  r.1 = Some "id-0"
  ∧ get_pet_by_id "id-0" w_start = None
  ∧ ∃ row, get_pet_by_id "id-0" r.2 = Some row
           ∧ ("id-0", row) ∈ get_pets_by_user "u1" r.2
           ∧ Pet.name row = VText "Ben"
           ∧ Pet.age row = VInt 2
           ∧ Pet.weight row = VReal 0.
Proof.
  assert ((create_pet (E:=env_steady) "u1" (VText "Ben") (VText "dog") VNull
             (VInt 2) (VReal negative_zero) VNull w_start).1 = Some "id-0")
    as Hok by compute_done.
  destruct (create_pet_then_read (E:=env_steady) "u1" (VText "Ben")
              (VText "dog") VNull (VInt 2) (VReal negative_zero) VNull
              w_start "id-0" Hok)
    as (Hbefore & _ & row & Hget & Hlist & _ & _ & _ & _ & _ & Hweight & _
        & Hname & _ & _ & Hage & _).
  split; [exact Hok|]. split; [exact Hbefore|].
  exists row. split; [exact Hget|]. split; [exact Hlist|].
  split; [exact (Hname eq_refl)|]. split; [exact (Hage eq_refl)|].
  assert (store (E:=env_steady) REAL (VReal negative_zero) = Some (VReal 0))
    as Hzero by reflexivity.
  rewrite Hzero in Hweight. by injection Hweight as <-.
Defined.

Lemma mutate_unknown_pet_witness :
  (delete_pet (E:=env_steady) "nobody" w_start).1 = true
  ∧ pets (local_conn (delete_pet (E:=env_steady) "nobody" w_start).2)
    = pets (local_conn w_start)
  ∧ sync_log (local_conn (delete_pet (E:=env_steady) "nobody" w_start).2)
    = [Log.mk "id-0" "pets" "nobody" "DELETE" "2024-01-01T00:00:11" 0]
  ∧ (update_pet (E:=env_steady) "nobody" kw_rename w_start).1 = false
  ∧ local_conn (update_pet (E:=env_steady) "nobody" kw_rename w_start).2
    = local_conn w_start.
Proof.
  assert (Hfresh : uuid4 (Env:=env_steady) (ids_drawn w_start)
                   ∉ map Log.id (sync_log (local_conn w_start))).
  { intros Hin. by apply elem_of_nil in Hin. }
  destruct (mutate_unknown_pet (E:=env_steady) "nobody" kw_rename w_start
              eq_refl Hfresh) as [(Hd & Hlog & Hdp & _) (Hu & Hup & _)].
  split; [exact Hd|]. split; [exact Hdp|]. split; [exact Hlog|].
  split; [exact Hu | exact Hup].
Defined.


Lemma create_user_taken_witness :
  (create_user (E:=env_steady) "ann" "other-hash" w_start).1 = None
  ∧ local_conn (create_user (E:=env_steady) "ann" "other-hash" w_start).2
    = local_sample.
Proof.
  destruct (create_user_taken (E:=env_steady) "ann" "other-hash" w_start
              "u1" ann eq_refl eq_refl) as (Hnone & Hlocal & _).
  split; [exact Hnone | exact Hlocal].
Defined.

Lemma create_user_then_read_witness :
  let r := create_user (E:=env_steady) "bob" "bobs-hash" w_start in
  r.1 = Some "id-0"
  ∧ get_user_by_username "bob" w_start = None
  ∧ ∃ u, get_user_by_username "bob" r.2 = Some ("id-0", u)
         ∧ User.password_hash u = "bobs-hash".
Proof.
  assert ((create_user (E:=env_steady) "bob" "bobs-hash" w_start).1
          = Some "id-0") as Hok by compute_done.
  destruct (create_user_then_read (E:=env_steady) "bob" "bobs-hash" w_start
              "id-0" Hok) as (Hbefore & u & Hget & _ & _ & Hhash & _).
  split; [exact Hok|]. split; [exact Hbefore|].
  exists u. split; [exact Hget | exact Hhash].
Defined.

Lemma register_validates_witness :
  register (E:=env_steady) (A:=auth_sample) "al" "secret1" app_start
  = ((false, "Username must be at least 3 characters"), app_start)
  ∧ (register (E:=env_steady) (A:=auth_sample) "alice" "12345" app_start).2
    = app_start
  ∧ String.length "éé" = 4 ∧ len "éé" = 2
  ∧ (register (E:=env_steady) (A:=auth_sample) "éé" "secret1" app_start).1.1
    = false.
Proof.
  destruct (register_validates (E:=env_steady) (A:=auth_sample) "al" "secret1"
              app_start) as [H1 H2]; [left; compute_done|].
  destruct (register_validates (E:=env_steady) (A:=auth_sample) "alice" "12345"
              app_start) as [_ H3]; [right; compute_done|].
  destruct (register_validates (E:=env_steady) (A:=auth_sample) "éé" "secret1"
              app_start) as [H4 _]; [left; compute_done|].
  split; [compute_done|]. split; [exact H3|].
  split; [reflexivity|]. split; [reflexivity | exact H4].
Defined.

Lemma register_existing_username_witness :
  (register (E:=env_steady) (A:=auth_sample) "ann" "secret1" app_start).1
  = (false, "Username already exists")
  ∧ (register (E:=env_steady) (A:=auth_sample) "ann" "secret1" app_start).2
    = app_start
  ∧ (register (E:=env_steady) (A:=auth_sample) "ann" "secret1"
       (mkApp (mkAuth None None None 0) w_owner_deleted)).1
    = (false, "Registration failed")
  ∧ local_conn (_db (register (E:=env_steady) (A:=auth_sample) "ann" "secret1"
                       (mkApp (mkAuth None None None 0) w_owner_deleted)).2)
    = local_conn w_owner_deleted.
Proof.
  destruct (register_existing_username (E:=env_steady) (A:=auth_sample)
              "ann" "secret1" app_start "u1" ann eq_refl eq_refl)
    as (_ & _ & _ & Hsame).
  destruct (register_existing_username (E:=env_steady) (A:=auth_sample)
              "ann" "secret1" (mkApp (mkAuth None None None 0) w_owner_deleted)
              "u1" ann_deleted eq_refl eq_refl)
    as (_ & Hlocal & _).
  split; [compute_done|]. split; [by apply Hsame|].
  split; [compute_done | exact Hlocal].
Defined.

Lemma login_rejects_witness :
  login (E:=env_steady) (A:=auth_sample) "ann" "secret1"
        (mkApp (mkAuth None None None 0) w_owner_deleted)
  = (Some (false, "Invalid username or password"),
     mkApp (mkAuth None None None 0) w_owner_deleted)
  ∧ login (E:=env_steady) (A:=auth_sample) "bob" "wrong-password"
          (register (E:=env_steady) (A:=auth_sample) "bob" "secret1" app_start).2
    = (Some (false, "Invalid username or password"),
       (register (E:=env_steady) (A:=auth_sample) "bob" "secret1" app_start).2).
Proof.
  split.
  - apply (login_rejects (E:=env_steady) (A:=auth_sample)). left.
    intros uid u Hu _.
    assert (map_Forall (λ _ u, User.is_deleted u ≠ 0%Z)
                       (users (local_conn w_owner_deleted))) as Hall
      by compute_done.
    exact (Hall uid u Hu).
  - apply (login_rejects (E:=env_steady) (A:=auth_sample)). right.
    assert (is_Some (get_user_by_username "bob"
                       (_db (register (E:=env_steady) (A:=auth_sample)
                               "bob" "secret1" app_start).2))) as [user Hget]
      by compute_done.
    exists user. split; [exact Hget|].
    revert Hget. vm_compute. intros [= <-]. reflexivity.
Defined.

Lemma register_then_login_witness :
  let app1 := (register (E:=env_steady) (A:=auth_sample) "bob" "secret1"
                 app_start).2 in
  (login (E:=env_steady) (A:=auth_sample) "bob" "secret1" app1).1
  = Some (true, "Login successful")
  ∧ ∃ u, _current_user
           (_auth (login (E:=env_steady) (A:=auth_sample) "bob" "secret1" app1).2)
         = Some ("id-0", u)
         ∧ User.password_hash u = "$secret1".
Proof.
  assert (Hbcrypt : ∀ salt, checkpw (AuthEnv:=auth_sample) "secret1"
                              (hashpw (AuthEnv:=auth_sample) "secret1" salt)
                            = Some true) by (intros; reflexivity).
  destruct (register_then_login (E:=env_steady) (A:=auth_sample) "bob"
              "secret1" app_start Hbcrypt)
    as (Hok & uid & u & session & Hcur & _ & Hhash & _); [compute_done|].
  split; [exact Hok|].
  assert (uid = "id-0") as ->.
  { revert Hcur. vm_compute. by intros [= <- _]. }
  exists u. split; [exact Hcur | exact Hhash].
Defined.

Lemma add_pet_owner_is_live_witness :
  let app1 := (login (E:=env_steady) (A:=auth_sample) "bob" "secret1"
                 (register (E:=env_steady) (A:=auth_sample) "bob" "secret1"
                    app_start).2).2 in
  let app2 := mkApp (_auth app1) (calls (E:=env_steady) sample_calls (_db app1)) in
  (add_pet (E:=env_steady) kw_rename app2).1 = true
  ∧ ∃ uid pid row,
      user_id (_auth app1) = Some uid
      ∧ get_pet_by_id pid (_db app2) = None
      ∧ get_pet_by_id pid (_db (add_pet (E:=env_steady) kw_rename app2).2)
        = Some row
      ∧ (pid, row) ∈ get_pets (add_pet (E:=env_steady) kw_rename app2).2
      ∧ Pet.user_id row = uid
      ∧ Pet.name row = VText "Max"
      ∧ live_owner (_db (add_pet (E:=env_steady) kw_rename app2).2) uid.
Proof.
  intros app1 app2.
  assert ((add_pet (E:=env_steady) kw_rename app2).1 = true) as Hadd
    by (vm_compute; reflexivity).
  split; [exact Hadd|].
  destruct (add_pet_owner_is_live (E:=env_steady) (A:=auth_sample) "bob"
              "secret1"
              (register (E:=env_steady) (A:=auth_sample) "bob" "secret1"
                 app_start).2 sample_calls kw_rename)
    as (uid & pid & row & Huid & Hfree & Hget & Hlist & Hown & Hname & Hlive);
    [vm_compute; reflexivity | exact Hadd|].
  exists uid, pid, row.
  split; [exact Huid|]. split; [exact Hfree|]. split; [exact Hget|].
  split; [exact Hlist|]. split; [exact Hown|]. split; [|exact Hlive].
  assert (store (E:=env_steady) TEXT (default (VText "") (kw_rename !! "name"))
          = Some (VText "Max")) as Hmax by (by vm_compute).
  rewrite Hmax in Hname. injection Hname as Hname. symmetry. exact Hname.
Defined.
